(** * MealAgentPlan: a shallow embedding of the planning pipeline

    The repository chains four rule-based agents: [RecipeWorker] (catalog
    search), [PlannerAgent] (seven-day plan), [NutritionVerifierAgent]
    (calorie / protein / gut checks) and [SchedulerAgent] (time ordering and
    shopping list), sequenced by [OrchestratorAgent].

    Modelling conventions.
    - Python numbers (ints and floats alike) are exact rationals [Q]; decimal
      literals of the source are written as they stand ([1.55], [0.9]).
      Equality of numbers is [Qeq].
    - A Python dict with a fixed, typed set of optional keys is a record of
      [option] fields; [d.get(k, v)] is [get (k d) v].
    - A Python dict whose keys are data (the week plan, the ingredient
      counter, the session table) is an association list in insertion order.
    - [list.sort] / [sorted] are stable; they are modelled by a stable
      insertion sort that only uses the strict comparison, as Python does.
    - The [Logger] appends to its own log and metrics files only; it shares no
      state with the agents and is left out. *)

From Stdlib Require Import List String Ascii Bool Arith ZArith QArith Qabs Lia.
From Stdlib Require Import DecimalString Sorted Permutation PrimFloat.
From Stdlib Require Import OrdersEx.
Import ListNotations.

Local Open Scope string_scope.
Local Open Scope list_scope.

(** ** Python primitives *)

Module Py.

(** [d.get(k, default)] on an optional field. *)
Definition get {A : Type} (field : option A) (default : A) : A :=
  match field with
  | Some v => v
  | None => default
  end.

(** [k in d] on an optional field. *)
Definition has {A : Type} (field : option A) : bool :=
  match field with
  | Some _ => true
  | None => false
  end.

(** One key of [d.update(e)]: the value in [e] wins when the key is there. *)
Definition override {A : Type} (old new : option A) : option A :=
  match new with
  | Some v => Some v
  | None => old
  end.

(** [s in l] for a list of strings. *)
Definition str_in (s : string) (l : list string) : bool :=
  existsb (String.eqb s) l.

(** [x in l] where [x] may be [None]: [None] is a member of no list of
    strings. *)
Definition opt_str_in (x : option string) (l : list string) : bool :=
  match x with
  | Some s => str_in s l
  | None => false
  end.

(** Truthiness of a list. *)
Definition truthy {A : Type} (l : list A) : bool :=
  match l with
  | [] => false
  | _ :: _ => true
  end.

(** Strict comparison of numbers, [a < b]. *)
Definition Qltb (a b : Q) : bool := negb (Qle_bool b a).

(** [a >= b]. *)
Definition Qgeb (a b : Q) : bool := Qle_bool b a.

(** Stable sort by key, using only the strict order on keys. *)
Section Sort.
Context {A K : Type} (key : A -> K) (ltb : K -> K -> bool).

Fixpoint insert (x : A) (l : list A) : list A :=
  match l with
  | [] => [x]
  | y :: l' => if ltb (key y) (key x) then y :: insert x l' else x :: l
  end.

Definition sort (l : list A) : list A := fold_right insert [] l.
End Sort.

(** [l[:n]]. *)
Definition slice_to {A : Type} (n : nat) (l : list A) : list A := firstn n l.

(** [l.index(x)]: position of the first occurrence.  Python raises
    [ValueError] when [x] is absent; the model then returns the length of
    the list.  The source only calls it on members. *)
Fixpoint list_index (x : string) (l : list string) : nat :=
  match l with
  | [] => 0%nat
  | y :: l' => if String.eqb x y then 0%nat else S (list_index x l')
  end.

(** Dicts keyed by strings, in insertion order. *)
Section Dict.
Context {V : Type}.

Fixpoint dict_get (d : list (string * V)) (k : string) : option V :=
  match d with
  | [] => None
  | (k', v) :: d' => if String.eqb k k' then Some v else dict_get d' k
  end.

(** [d[k] = v]: overwrite in place, or append a new key. *)
Fixpoint dict_set (d : list (string * V)) (k : string) (v : V)
    : list (string * V) :=
  match d with
  | [] => [(k, v)]
  | (k', v') :: d' =>
      if String.eqb k k' then (k, v) :: d' else (k', v') :: dict_set d' k v
  end.

Definition keys (d : list (string * V)) : list string := map fst d.
Definition values (d : list (string * V)) : list V := map snd d.
End Dict.

(** [str(n)] for an integer. *)
Definition str_of_int (n : Z) : string := NilZero.string_of_int (Z.to_int n).

(** [int(x)]: truncation towards zero. *)
Definition int (x : Q) : Z := Z.quot (Qnum x) (Zpos (Qden x)).

(** Rounding to the nearest integer, ties to even, as Python's float
    formatting rounds the exact value it is given. *)
Definition round_half_even (x : Q) : Z :=
  let n := Qnum x in
  let d := Zpos (Qden x) in
  let f := (n / d)%Z in
  match (2 * (n mod d) ?= d)%Z with
  | Lt => f
  | Gt => (f + 1)%Z
  | Eq => if Z.even f then f else (f + 1)%Z
  end.

Fixpoint zeros (n : nat) : string :=
  match n with
  | O => ""
  | S n' => String "0" (zeros n')
  end.

(** [format(x, ".<prec>f")]: sign, integer digits and, when [prec] is
    positive, a point and exactly [prec] fractional digits. *)
Definition format_f (prec : nat) (x : Q) : string :=
  let sign := if Qltb x 0 then "-" else "" in
  let scale := (10 ^ Z.of_nat prec)%Z in
  let r := round_half_even (Qabs x * inject_Z scale) in
  let digits := str_of_int (r mod scale) in
  (sign ++ str_of_int (r / scale)
     ++ match prec with
        | O => ""
        | S _ => "." ++ zeros (prec - String.length digits) ++ digits
        end)%string.

(** [sep.join(l)]. *)
Fixpoint join (sep : string) (l : list string) : string :=
  match l with
  | [] => ""
  | [x] => x
  | x :: l' => (x ++ sep ++ join sep l')%string
  end.

Fixpoint str_map (f : ascii -> ascii) (s : string) : string :=
  match s with
  | EmptyString => EmptyString
  | String c s' => String (f c) (str_map f s')
  end.

(** [s.replace(old, new)] for one-character [old] and [new]. *)
Definition replace_char (old new : ascii) (s : string) : string :=
  str_map (fun c => if Ascii.eqb c old then new else c) s.

(** [s.lower()] on ASCII letters; other bytes are kept. *)
Definition lower (s : string) : string :=
  str_map
    (fun c =>
       let n := nat_of_ascii c in
       if ((65 <=? n) && (n <=? 90))%nat then ascii_of_nat (n + 32) else c)
    s.

(** [s.add(x)] on a set of strings kept in first-insertion order.  Python
    leaves the iteration order of a set unspecified; nothing proved below
    depends on it. *)
Definition set_add (x : string) (s : list string) : list string :=
  if str_in x s then s else s ++ [x].

(** [d.update(e)]: the keys of [e], in order, are assigned into [d]. *)
Definition dict_update {V : Type} (d e : list (string * V))
    : list (string * V) :=
  fold_left (fun d kv => dict_set d (fst kv) (snd kv)) e d.

(** [min(l)] and [max(l)] for a non-empty list given as head and tail. *)
Definition Qmin_list (x : Q) (l : list Q) : Q :=
  fold_left (fun m y => if Qltb y m then y else m) l x.

Definition Qmax_list (x : Q) (l : list Q) : Q :=
  fold_left (fun m y => if Qltb m y then y else m) l x.

(** [sum(l)], starting from the integer 0. *)
Definition Qsum_list (l : list Q) : Q := fold_left Qplus l 0%Q.

End Py.

(** ** Data model *)

Module Recipe.
Record t : Type := mk {
  id : string;
  title : string;
  meal_type : option (list string);
  cuisine : option string;
  calories : Q;
  protein_g : option Q;
  ingredients : option (list string);
  prep_time_min : option Q;
  allergens : option (list string);
  gut_friendly : option bool
}.
End Recipe.

Module Preferences.
Record t : Type := mk {
  cuisine : option (list string);
  dislikes : option (list string);
  allergies : option (list string);
  gut_issues : option bool
}.

(** The empty dict [{}]. *)
Definition empty : t := mk None None None None.

Definition truthy (p : t) : bool :=
  Py.has (cuisine p) || Py.has (dislikes p) || Py.has (allergies p)
  || Py.has (gut_issues p).

(** [p.update(q)]: the keys of [q] override those of [p]. *)
Definition update (p q : t) : t :=
  {| cuisine := Py.override (cuisine p) (cuisine q);
     dislikes := Py.override (dislikes p) (dislikes q);
     allergies := Py.override (allergies p) (allergies q);
     gut_issues := Py.override (gut_issues p) (gut_issues q) |}.
End Preferences.

Module Profile.
Record t : Type := mk {
  name : option string;
  age : option Q;
  height_cm : option Q;
  weight_kg : option Q;
  goal : option string;
  activity_level : option string;
  wake_time : option string;
  sleep_time : option string
}.

(** The empty dict [{}]. *)
Definition empty : t := mk None None None None None None None None.

(** Truthiness of the dict: it has at least one key. *)
Definition truthy (p : t) : bool :=
  Py.has (name p) || Py.has (age p) || Py.has (height_cm p)
  || Py.has (weight_kg p) || Py.has (goal p) || Py.has (activity_level p)
  || Py.has (wake_time p) || Py.has (sleep_time p).

(** [p.update(q)]: the keys of [q] override those of [p]. *)
Definition update (p q : t) : t :=
  {| name := Py.override (name p) (name q);
     age := Py.override (age p) (age q);
     height_cm := Py.override (height_cm p) (height_cm q);
     weight_kg := Py.override (weight_kg p) (weight_kg q);
     goal := Py.override (goal p) (goal q);
     activity_level := Py.override (activity_level p) (activity_level q);
     wake_time := Py.override (wake_time p) (wake_time q);
     sleep_time := Py.override (sleep_time p) (sleep_time q) |}.
End Profile.

(** One entry of a day: a meal (recipe keys) or a workout (workout keys). *)
Module Meal.
Record t : Type := mk {
  meal : option string;
  time : option string;
  recipe_id : option string;
  recipe_name : option string;
  cal : option Q;
  protein_g : option Q;
  ingredients : option (list string);
  prep_time_min : option Q;
  type : option string;
  focus : option string;
  duration_min : option Z;
  notes : option string
}.
End Meal.

(** The week plan: day name to the day's entries.  Every value is a list, so
    the source's [isinstance(day_meals, list)] guards always hold. *)
Definition WeekPlan : Type := list (string * list Meal.t).

(** ** RecipeWorker (src/agents/recipe_worker.py) *)

Module RecipeWorker.

(** The keys of the search context that [execute] reads. *)
Record Context : Type := mkContext {
  preferences : option Preferences.t;
  meal_type : option string;
  calorie_target : option Q
}.

Record Result : Type := mkResult {
  recipes : list Recipe.t;
  total_found : nat
}.

Definition _matches_criteria (recipe : Recipe.t) (meal_type : string)
    (exclude_allergens preferred_cuisines : list string)
    (gut_friendly_only : bool) : bool :=
  if negb (Py.str_in meal_type (Py.get (Recipe.meal_type recipe) []))
  then false
  else if existsb
            (fun allergen =>
               Py.str_in allergen (Py.get (Recipe.allergens recipe) []))
            exclude_allergens
  then false
  else if Py.truthy preferred_cuisines
          && negb (Py.opt_str_in (Recipe.cuisine recipe) preferred_cuisines)
          && negb (Py.opt_str_in (Recipe.cuisine recipe)
                     ["Indian"; "South Indian"])
  then false
  else if gut_friendly_only
          && negb (Py.get (Recipe.gut_friendly recipe) false)
  then false
  else true.

(** The sort key [abs(r["calories"] - calorie_target)]. *)
Definition distance (calorie_target : Q) (r : Recipe.t) : Q :=
  Qabs (Recipe.calories r - calorie_target).

Definition execute (self_recipes : list Recipe.t) (context : Context)
    : Result :=
  let preferences := Py.get (preferences context) Preferences.empty in
  let meal_type := Py.get (meal_type context) "lunch" in
  let calorie_target := Py.get (calorie_target context) 500%Q in
  let exclude_allergens := Py.get (Preferences.allergies preferences) [] in
  let preferred_cuisines := Py.get (Preferences.cuisine preferences) [] in
  let gut_friendly_only :=
    Py.get (Preferences.gut_issues preferences) false in
  let matched_recipes :=
    fold_left
      (fun matched recipe =>
         if negb (_matches_criteria recipe meal_type exclude_allergens
                    preferred_cuisines gut_friendly_only)
         then matched
         else matched ++ [recipe])
      self_recipes [] in
  let matched_recipes :=
    Py.sort (distance calorie_target) Py.Qltb matched_recipes in
  {| recipes := Py.slice_to 5 matched_recipes;
     total_found := List.length matched_recipes |}.

Fixpoint get_recipe_by_id (self_recipes : list Recipe.t) (recipe_id : string)
    : option Recipe.t :=
  match self_recipes with
  | [] => None
  | recipe :: rest =>
      if String.eqb (Recipe.id recipe) recipe_id then Some recipe
      else get_recipe_by_id rest recipe_id
  end.

Definition get_all_recipes (self_recipes : list Recipe.t) : list Recipe.t :=
  self_recipes.

End RecipeWorker.

(** ** PlannerAgent (src/agents/planner_agent.py) *)

Module PlannerAgent.

Record Context : Type := mkContext {
  user_profile : option Profile.t;
  preferences : option Preferences.t
}.

Record Result : Type := mkResult {
  meal_plan : WeekPlan;
  estimated_daily_calories : Q;
  plan_type : string
}.

Definition days : list string :=
  ["Monday"; "Tuesday"; "Wednesday"; "Thursday"; "Friday"; "Saturday";
   "Sunday"].

Record Workout : Type := mkWorkout {
  w_type : string;
  w_focus : string;
  w_duration_min : Z;
  w_time : string
}.

Definition workout_schedule : list (string * Workout) :=
  [("Monday", mkWorkout "resistance" "Upper Body" 45 "18:00");
   ("Tuesday", mkWorkout "cardio" "Light Jogging" 30 "07:00");
   ("Wednesday", mkWorkout "resistance" "Lower Body" 45 "18:00");
   ("Thursday", mkWorkout "yoga" "Flexibility & Core" 30 "07:00");
   ("Friday", mkWorkout "resistance" "Full Body" 50 "18:00");
   ("Saturday", mkWorkout "sports" "Recreational Activity" 60 "10:00");
   ("Sunday", mkWorkout "rest" "Active Recovery" 20 "08:00")].

Definition _get_workout_for_day (day : string) : option Meal.t :=
  match Py.dict_get workout_schedule day with
  | Some workout =>
      Some {| Meal.meal := Some "workout";
              Meal.time := Some (w_time workout);
              Meal.recipe_id := None;
              Meal.recipe_name := None;
              Meal.cal := None;
              Meal.protein_g := None;
              Meal.ingredients := None;
              Meal.prep_time_min := None;
              Meal.type := Some (w_type workout);
              Meal.focus := Some (w_focus workout);
              Meal.duration_min := Some (w_duration_min workout);
              Meal.notes :=
                Some (w_focus workout ++ " - "
                      ++ Py.str_of_int (w_duration_min workout)
                      ++ " minutes")%string |}
  | None => None
  end.

(** The dict literal that the source writes out once per slot. *)
Definition meal_entry (slot time : string) (recipe : Recipe.t)
    (notes : string) : Meal.t :=
  {| Meal.meal := Some slot;
     Meal.time := Some time;
     Meal.recipe_id := Some (Recipe.id recipe);
     Meal.recipe_name := Some (Recipe.title recipe);
     Meal.cal := Some (Recipe.calories recipe);
     Meal.protein_g := Some (Py.get (Recipe.protein_g recipe) 0%Q);
     Meal.ingredients := Some (Py.get (Recipe.ingredients recipe) []);
     Meal.prep_time_min := Some (Py.get (Recipe.prep_time_min recipe) 0%Q);
     Meal.type := None;
     Meal.focus := None;
     Meal.duration_min := None;
     Meal.notes := Some notes |}.

(** [if candidates: recipe = candidates[idx]; daily_meals.append({...})].
    The head of the list stands in for an index out of range, which
    [index_in_range] below shows never happens. *)
Definition append_slot (daily_meals : list Meal.t)
    (candidates : list Recipe.t) (idx : nat) (slot time notes : string)
    : list Meal.t :=
  match candidates with
  | [] => daily_meals
  | first :: _ =>
      daily_meals ++ [meal_entry slot time (nth idx candidates first) notes]
  end.

Definition search (recipe_worker : list Recipe.t)
    (preferences : Preferences.t) (meal_type : string) (calorie_target : Q)
    : list Recipe.t :=
  RecipeWorker.recipes
    (RecipeWorker.execute recipe_worker
       {| RecipeWorker.preferences := Some preferences;
          RecipeWorker.meal_type := Some meal_type;
          RecipeWorker.calorie_target := Some calorie_target |}).

(** The lunch index,
    [0 if day != "Monday" else (1 if len(lunch_recipes) > 1 else 0)]. *)
Definition lunch_index (day : string) (lunch_recipes : list Recipe.t)
    : nat :=
  if negb (String.eqb day "Monday") then 0%nat
  else if (1 <? List.length lunch_recipes)%nat then 1%nat else 0%nat.

(** The body of the loop over [days]. *)
Definition daily_meals_for (recipe_worker : list Recipe.t)
    (preferences : Preferences.t) (day : string) : list Meal.t :=
  let daily_meals := [] in
  let breakfast_recipes := search recipe_worker preferences "breakfast" 500 in
  let daily_meals :=
    append_slot daily_meals breakfast_recipes 0%nat "breakfast" "08:00"
      "High-protein breakfast for energy" in
  let snack_recipes := search recipe_worker preferences "snack" 400 in
  let daily_meals :=
    append_slot daily_meals snack_recipes 0%nat "snack" "11:00"
      "Mid-morning snack" in
  let lunch_recipes := search recipe_worker preferences "lunch" 700 in
  let daily_meals :=
    append_slot daily_meals lunch_recipes (lunch_index day lunch_recipes)
      "lunch" "13:30" "Protein-rich lunch" in
  let evening_snack_recipes := search recipe_worker preferences "snack" 450 in
  let daily_meals :=
    append_slot daily_meals evening_snack_recipes
      (if (1 <? List.length evening_snack_recipes)%nat then 1%nat
       else 0%nat)
      "evening_snack" "17:00" "Pre-workout fuel" in
  let dinner_recipes := search recipe_worker preferences "dinner" 650 in
  let daily_meals :=
    append_slot daily_meals dinner_recipes
      (Py.list_index day days mod List.length dinner_recipes)%nat
      "dinner" "20:00" "Light dinner for gut health" in
  match _get_workout_for_day day with
  | Some workout => daily_meals ++ [workout]
  | None => daily_meals
  end.

Definition _generate_mock_plan (recipe_worker : list Recipe.t)
    (user_profile : Profile.t) (preferences : Preferences.t) : Result :=
  let target_daily_calories := 3000%Q in
  let meal_plan :=
    fold_left
      (fun meal_plan day =>
         Py.dict_set meal_plan day
           (daily_meals_for recipe_worker preferences day))
      days [] in
  {| meal_plan := meal_plan;
     estimated_daily_calories := target_daily_calories;
     plan_type := "weight_gain_gut_friendly" |}.

(** What the optional Gemini call does; it is outside the program. *)
Inductive LlmOutcome : Type :=
| NoApiKey
| LlmRaised
| LlmResponded (response_text : string).

Definition _parse_llm_response (recipe_worker : list Recipe.t)
    (response_text : string) : Result :=
  _generate_mock_plan recipe_worker Profile.empty Preferences.empty.

Definition _generate_with_llm (recipe_worker : list Recipe.t)
    (llm : LlmOutcome) (user_profile : Profile.t)
    (preferences : Preferences.t) : Result :=
  match llm with
  | NoApiKey => _generate_mock_plan recipe_worker user_profile preferences
  | LlmRaised => _generate_mock_plan recipe_worker user_profile preferences
  | LlmResponded response_text =>
      _parse_llm_response recipe_worker response_text
  end.

Definition execute (recipe_worker : list Recipe.t) (use_real_llm : bool)
    (llm : LlmOutcome) (context : Context) : Result :=
  let user_profile := Py.get (user_profile context) Profile.empty in
  let preferences := Py.get (preferences context) Preferences.empty in
  if use_real_llm
  then _generate_with_llm recipe_worker llm user_profile preferences
  else _generate_mock_plan recipe_worker user_profile preferences.

End PlannerAgent.

(** ** NutritionVerifierAgent (src/agents/verifier_agent.py) *)

Module NutritionVerifierAgent.

(** A row of the nutrition table read from [nutritions.csv]; the table is
    not part of the sources and is a parameter of the agent. *)
Record NutritionRow : Type := mkRow {
  food_item : string;
  gut_friendly : bool
}.

Record Context : Type := mkContext {
  meal_plan : option WeekPlan;
  user_profile : option Profile.t
}.

Record Result : Type := mkResult {
  passed : bool;
  daily_calories : Q;
  target_calories : Q;
  calorie_met : bool;
  daily_protein : Q;
  target_protein : Q;
  protein_met : bool;
  gut_risk_items : list string;
  gut_safe : bool;
  recommendations : list string
}.

Definition _calculate_daily_calories (meal_plan : WeekPlan) : Q :=
  let total :=
    fold_left
      (fun total day_meals =>
         fold_left
           (fun total meal =>
              match Meal.cal meal with
              | Some cal => total + cal
              | None => total
              end)
           day_meals total)
      (Py.values meal_plan) 0 in
  total / inject_Z (Z.max (Z.of_nat (List.length meal_plan)) 1).

Definition _calculate_daily_protein (meal_plan : WeekPlan) : Q :=
  let '(total, count) :=
    fold_left
      (fun acc day_meals =>
         fold_left
           (fun '(total, count) meal =>
              match Meal.protein_g meal with
              | Some protein_g => (total + protein_g, S count)
              | None => (total, count)
              end)
           day_meals acc)
      (Py.values meal_plan) (0, 0%nat) in
  if (0 <? count)%nat
  then total / inject_Z (Z.max (Z.of_nat (List.length meal_plan)) 1)
  else 0.

Definition _check_gut_risks (nutrition_data : list NutritionRow)
    (meal_plan : WeekPlan) : list string :=
  fold_left
    (fun risk_items day_meals =>
       fold_left
         (fun risk_items meal =>
            let ingredients := Py.get (Meal.ingredients meal) [] in
            fold_left
              (fun risk_items ingredient =>
                 let ingredient_clean :=
                   Py.lower (Py.replace_char " " "_" ingredient) in
                 let nutrition_row :=
                   filter
                     (fun row => String.eqb (food_item row) ingredient_clean)
                     nutrition_data in
                 match nutrition_row with
                 | [] => risk_items
                 | row0 :: _ =>
                     if negb (gut_friendly row0)
                     then Py.set_add ingredient risk_items
                     else risk_items
                 end)
              ingredients risk_items)
         day_meals risk_items)
    (Py.values meal_plan) [].

Definition activity_multipliers : list (string * Q) :=
  [("sedentary", 1.2); ("light", 1.375); ("moderate", 1.55);
   ("active", 1.725); ("very_active", 1.9)].

(** The local [bmr] of [_calculate_target_calories]. *)
Definition bmr (user_profile : Profile.t) : Q :=
  let weight_kg := Py.get (Profile.weight_kg user_profile) 45 in
  let height_cm := Py.get (Profile.height_cm user_profile) 168 in
  let age := Py.get (Profile.age user_profile) 20 in
  10 * weight_kg + 6.25 * height_cm - 5 * age + 5.

(** The local [tdee] of [_calculate_target_calories]. *)
Definition tdee (user_profile : Profile.t) : Q :=
  let activity_level :=
    Py.get (Profile.activity_level user_profile) "moderate" in
  bmr user_profile
  * Py.get (Py.dict_get activity_multipliers activity_level) 1.55.

Definition _calculate_target_calories (user_profile : Profile.t)
    (goal : string) : Q :=
  let tdee := tdee user_profile in
  if String.eqb goal "gain_weight" then tdee + 500
  else if String.eqb goal "lose_weight" then tdee - 500
  else tdee.

Definition _calculate_target_protein (user_profile : Profile.t) : Q :=
  let weight_kg := Py.get (Profile.weight_kg user_profile) 45 in
  weight_kg * 2.0.

Definition calorie_line (target_calories daily_calories : Q) : string :=
  ("Increase calories by "
     ++ Py.format_f 0 (target_calories - daily_calories)
     ++ " kcal to meet weight gain goal")%string.

Definition protein_line (target_protein daily_protein : Q) : string :=
  ("Increase protein by "
     ++ Py.format_f 0 (target_protein - daily_protein)
     ++ "g for muscle growth")%string.

Definition gut_line (gut_risk_items : list string) : string :=
  ("Avoid gut-risk ingredients: " ++ Py.join ", " gut_risk_items)%string.

Definition execute (nutrition_data : list NutritionRow) (context : Context)
    : Result :=
  let meal_plan := Py.get (meal_plan context) [] in
  let user_profile := Py.get (user_profile context) Profile.empty in
  let goal := Py.get (Profile.goal user_profile) "gain_weight" in
  let daily_calories := _calculate_daily_calories meal_plan in
  let daily_protein := _calculate_daily_protein meal_plan in
  let gut_risk_items := _check_gut_risks nutrition_data meal_plan in
  let target_calories := _calculate_target_calories user_profile goal in
  let target_protein := _calculate_target_protein user_profile in
  let calorie_met := Py.Qgeb daily_calories (target_calories * 0.9) in
  let protein_met := Py.Qgeb daily_protein (target_protein * 0.9) in
  let gut_safe := (List.length gut_risk_items =? 0)%nat in
  let verification_passed := calorie_met && protein_met && gut_safe in
  let recommendations := [] in
  let recommendations :=
    if negb calorie_met
    then recommendations ++ [calorie_line target_calories daily_calories]
    else recommendations in
  let recommendations :=
    if negb protein_met
    then recommendations ++ [protein_line target_protein daily_protein]
    else recommendations in
  let recommendations :=
    if negb gut_safe
    then recommendations ++ [gut_line gut_risk_items]
    else recommendations in
  {| passed := verification_passed;
     daily_calories := daily_calories;
     target_calories := target_calories;
     calorie_met := calorie_met;
     daily_protein := daily_protein;
     target_protein := target_protein;
     protein_met := protein_met;
     gut_risk_items := gut_risk_items;
     gut_safe := gut_safe;
     recommendations := recommendations |}.

End NutritionVerifierAgent.

(** The target-calorie formula once more, on IEEE binary64 numbers with the
    rounding of every operation, as CPython evaluates it on floats.  Integer
    inputs of the magnitudes at hand convert to floats exactly. *)

Module Binary64.

#[local] Set Warnings "-inexact-float".

Definition activity_multipliers : list (string * float) :=
  [("sedentary", 1.2); ("light", 1.375); ("moderate", 1.55);
   ("active", 1.725); ("very_active", 1.9)]%float.

Definition _calculate_target_calories (weight_kg height_cm age : float)
    (activity_level goal : string) : float :=
  let bmr := (10 * weight_kg + 6.25 * height_cm - 5 * age + 5)%float in
  let tdee :=
    (bmr * Py.get (Py.dict_get activity_multipliers activity_level) 1.55)%float
  in
  if String.eqb goal "gain_weight" then (tdee + 500)%float
  else if String.eqb goal "lose_weight" then (tdee - 500)%float
  else tdee.

End Binary64.

(** ** SchedulerAgent (src/agents/scheduler_agent.py) *)

Module SchedulerAgent.

Record Context : Type := mkContext {
  meal_plan : option WeekPlan;
  user_profile : option Profile.t
}.

Record ShoppingItem : Type := mkItem {
  item : string;
  qty : string;
  meals_used : Z
}.

Record Result : Type := mkResult {
  scheduled_plan : WeekPlan;
  shopping_list : list ShoppingItem;
  total_items : nat
}.

Definition _schedule_meals (meal_plan : WeekPlan) (user_profile : Profile.t)
    : WeekPlan :=
  let wake_time := Py.get (Profile.wake_time user_profile) "07:00" in
  let sleep_time := Py.get (Profile.sleep_time user_profile) "23:00" in
  fold_left
    (fun scheduled '(day, meals) =>
       let sorted_meals :=
         Py.sort (fun m => Py.get (Meal.time m) "00:00") String.ltb meals in
       Py.dict_set scheduled day sorted_meals)
    meal_plan [].

Definition base_quantities : list (string * Q) :=
  [("rice", 0.5); ("chicken", 0.3); ("chicken_breast", 0.25); ("eggs", 2);
   ("milk", 0.2); ("yogurt", 0.15); ("paneer", 0.2); ("vegetables", 0.3);
   ("potato", 0.2); ("sweet_potato", 0.2); ("spinach", 0.2);
   ("tomatoes", 0.15); ("banana", 1); ("dates", 0.05); ("almonds", 0.03);
   ("cashews", 0.03); ("coconut", 0.1); ("ghee", 0.05); ("olive_oil", 0.03);
   ("whole_wheat_flour", 0.15); ("moong_dal", 0.1); ("urad_dal", 0.1);
   ("lentils", 0.1); ("chickpeas", 0.1); ("kidney_beans", 0.1);
   ("semolina", 0.1); ("oats", 0.1)].

Definition _estimate_quantity (ingredient : string) (meal_count : Q)
    : string :=
  let ingredient_clean := Py.lower (Py.replace_char " " "_" ingredient) in
  let base_qty := Py.get (Py.dict_get base_quantities ingredient_clean) 0.1 in
  let total_kg := base_qty * meal_count in
  if Py.str_in ingredient ["eggs"]
  then (Py.str_of_int (Py.int (total_kg * meal_count)) ++ " pieces")%string
  else if Py.str_in ingredient ["banana"; "dates"]
  then (Py.str_of_int (Py.int (total_kg * meal_count)) ++ " pieces")%string
  else if Py.Qltb total_kg 0.1
  then (Py.str_of_int (Py.int (total_kg * 1000)) ++ "g")%string
  else if Py.Qltb total_kg 1
  then (Py.str_of_int (Py.int (total_kg * 1000)) ++ "g")%string
  else (Py.format_f 1 total_kg ++ "kg")%string.

(** [ingredient_counts[ingredient] += 1] on a [defaultdict(float)]. *)
Definition count_up (ingredient_counts : list (string * Q))
    (ingredient : string) : list (string * Q) :=
  Py.dict_set ingredient_counts ingredient
    (Py.get (Py.dict_get ingredient_counts ingredient) 0 + 1).

(** Order on the [(ingredient, count)] tuples that [sorted] compares. *)
Definition item_ltb (a b : string * Q) : bool :=
  String.ltb (fst a) (fst b)
  || (String.eqb (fst a) (fst b) && Py.Qltb (snd a) (snd b)).

Definition _generate_shopping_list (meal_plan : WeekPlan)
    : list ShoppingItem :=
  let ingredient_counts :=
    fold_left
      (fun ingredient_counts '(day, meals) =>
         fold_left
           (fun ingredient_counts meal =>
              match Meal.ingredients meal with
              | Some ingredients =>
                  fold_left count_up ingredients ingredient_counts
              | None => ingredient_counts
              end)
           meals ingredient_counts)
      meal_plan [] in
  fold_left
    (fun shopping_list '(ingredient, count) =>
       let qty := _estimate_quantity ingredient count in
       shopping_list
         ++ [{| item := ingredient; qty := qty; meals_used := Py.int count |}])
    (Py.sort (fun kv => kv) item_ltb ingredient_counts) [].

Definition execute (context : Context) : Result :=
  let meal_plan := Py.get (meal_plan context) [] in
  let user_profile := Py.get (user_profile context) Profile.empty in
  let scheduled_plan := _schedule_meals meal_plan user_profile in
  let shopping_list := _generate_shopping_list meal_plan in
  {| scheduled_plan := scheduled_plan;
     shopping_list := shopping_list;
     total_items := List.length shopping_list |}.

End SchedulerAgent.

(** ** MemoryBank (src/memory/memory_bank.py) *)

Module MemoryBank.

Record HistoryEntry : Type := mkEntry {
  date : string;
  plan_id : string;
  success_rate : Q
}.

Record Data : Type := mkData {
  user_profile : Profile.t;
  preferences : Preferences.t;
  pantry : list (string * Q);
  history : list HistoryEntry
}.

(** [data] is the dict held in memory, [file] the contents of the memory
    file; they differ between a mutation of [data] and the next [_save]. *)
Record t : Type := mk {
  data : Data;
  file : Data
}.

Definition _save (self : t) : t := {| data := data self; file := data self |}.

Definition get_user_profile (self : t) : Profile.t :=
  user_profile (data self).

Definition get_preferences (self : t) : Preferences.t :=
  preferences (data self).

Definition get_pantry (self : t) : list (string * Q) := pantry (data self).

Definition get_history (self : t) : list HistoryEntry := history (data self).

Definition set_user_profile (self : t) (profile : Profile.t) : t :=
  _save {| data := {| user_profile := profile;
                      preferences := preferences (data self);
                      pantry := pantry (data self);
                      history := history (data self) |};
           file := file self |}.

Definition set_preferences (self : t) (prefs : Preferences.t) : t :=
  _save {| data := {| user_profile := user_profile (data self);
                      preferences := prefs;
                      pantry := pantry (data self);
                      history := history (data self) |};
           file := file self |}.

(** [today] is [datetime.now().strftime("%Y-%m-%d")]. *)
Definition add_plan_to_history (self : t) (today : string)
    (plan_id : string) (success_rate : Q) : t :=
  let history :=
    history (data self)
      ++ [{| date := today; plan_id := plan_id;
             success_rate := success_rate |}] in
  _save {| data := {| user_profile := user_profile (data self);
                      preferences := preferences (data self);
                      pantry := pantry (data self);
                      history := history |};
           file := file self |}.

(** The in-place effect of [get_user_profile().update(...)] and
    [get_preferences().update(...)]: the getters hand out the dicts stored
    in [data], so the caller's update changes [data], not [file]. *)
Definition update_in_place (self : t) (profile : Profile.t)
    (prefs : Preferences.t) : t :=
  {| data := {| user_profile := Profile.update (user_profile (data self))
                                  profile;
                preferences := Preferences.update (preferences (data self))
                                 prefs;
                pantry := pantry (data self);
                history := history (data self) |};
     file := file self |}.

Definition update_pantry (self : t) (items : list (string * Q)) : t :=
  let pantry := Py.dict_update (pantry (data self)) items in
  _save {| data := {| user_profile := user_profile (data self);
                      preferences := preferences (data self);
                      pantry := pantry;
                      history := history (data self) |};
           file := file self |}.

Definition clear_all (self : t) : t :=
  _save {| data := {| user_profile := Profile.empty;
                      preferences := Preferences.empty;
                      pantry := [];
                      history := [] |};
           file := file self |}.

End MemoryBank.

(** The record that [create_meal_plan] returns. *)
Module PlanRecord.

Record Verification : Type := mkVerification {
  passed : bool;
  daily_calories : Q;
  target_calories : Q;
  daily_protein : Q;
  target_protein : Q;
  recommendations : list string
}.

Record t : Type := mk {
  plan_id : string;
  session_id : string;
  user : string;
  days : WeekPlan;
  shopping_list : list SchedulerAgent.ShoppingItem;
  estimated_daily_calories : Q;
  verification : Verification;
  created_at : string
}.

End PlanRecord.

(** ** SessionService (src/sessions/session_service.py)

    The timestamps kept in a session are left out. *)

Module SessionService.

Record Context : Type := mkContext {
  user_profile : Profile.t;
  preferences : Preferences.t;
  pantry : list (string * Q);
  session_id : string
}.

(** The values stored under the keys "context", "meal_plan",
    "verification" and "schedule". *)
Inductive Value : Type :=
| VContext (c : Context)
| VMealPlan (p : WeekPlan)
| VVerification (v : NutritionVerifierAgent.Result)
| VSchedule (s : SchedulerAgent.Result).

Record SessionData : Type := mkSessionData {
  context : option Context;
  meal_plan : option WeekPlan;
  verification : option NutritionVerifierAgent.Result;
  schedule : option SchedulerAgent.Result
}.

Record Session : Type := mkSession {
  id : string;
  status : string;
  data : SessionData;
  result : option PlanRecord.t;
  error : option string
}.

Definition t : Type := list (string * Session).

Definition create_session (sessions : t) (uuid : string) : t :=
  Py.dict_set sessions uuid
    {| id := uuid; status := "active";
       data := mkSessionData None None None None;
       result := None; error := None |}.

Definition get_session (sessions : t) (session_id : string)
    : option Session :=
  Py.dict_get sessions session_id.

Definition put (value : Value) (d : SessionData) : SessionData :=
  match value with
  | VContext c =>
      mkSessionData (Some c) (meal_plan d) (verification d) (schedule d)
  | VMealPlan p =>
      mkSessionData (context d) (Some p) (verification d) (schedule d)
  | VVerification v =>
      mkSessionData (context d) (meal_plan d) (Some v) (schedule d)
  | VSchedule s =>
      mkSessionData (context d) (meal_plan d) (verification d) (Some s)
  end.

Definition update_session (sessions : t) (session_id : string)
    (value : Value) : t :=
  match Py.dict_get sessions session_id with
  | Some s =>
      Py.dict_set sessions session_id
        {| id := id s; status := status s; data := put value (data s);
           result := result s; error := error s |}
  | None => sessions
  end.

Definition complete_session (sessions : t) (session_id : string)
    (final : PlanRecord.t) : t :=
  match Py.dict_get sessions session_id with
  | Some s =>
      Py.dict_set sessions session_id
        {| id := id s; status := "completed"; data := data s;
           result := Some final; error := error s |}
  | None => sessions
  end.

Definition fail_session (sessions : t) (session_id : string)
    (err : string) : t :=
  match Py.dict_get sessions session_id with
  | Some s =>
      Py.dict_set sessions session_id
        {| id := id s; status := "failed"; data := data s;
           result := result s; error := Some err |}
  | None => sessions
  end.

Definition pause_session (sessions : t) (session_id : string) : t :=
  match Py.dict_get sessions session_id with
  | Some s =>
      Py.dict_set sessions session_id
        {| id := id s; status := "paused"; data := data s;
           result := result s; error := error s |}
  | None => sessions
  end.

Definition resume_session (sessions : t) (session_id : string) : t :=
  match Py.dict_get sessions session_id with
  | Some s =>
      Py.dict_set sessions session_id
        {| id := id s; status := "active"; data := data s;
           result := result s; error := error s |}
  | None => sessions
  end.

Definition get_all_sessions (sessions : t) : t := sessions.

End SessionService.

(** ** OrchestratorAgent (src/orchestrator.py) *)

Module OrchestratorAgent.

Record UserInput : Type := mkUserInput {
  profile : option Profile.t;
  preferences : option Preferences.t
}.

(** Truthiness of the optional [user_input] dict. *)
Definition input_truthy (user_input : option UserInput) : bool :=
  match user_input with
  | Some ui => Py.has (profile ui) || Py.has (preferences ui)
  | None => false
  end.

(** The orchestrator and the objects it owns. *)
Record t : Type := mk {
  memory_bank : MemoryBank.t;
  session_service : SessionService.t;
  recipe_worker : list Recipe.t;
  use_real_llm : bool;
  nutrition_data : list NutritionVerifierAgent.NutritionRow
}.

(** What one call reads from outside the program: the fresh session id, the
    Gemini outcome and the renderings of the clock. *)
Record Env : Type := mkEnv {
  uuid4 : string;
  llm : PlannerAgent.LlmOutcome;
  now_plan_stamp : string;
  now_isoformat : string;
  now_date : string
}.

Inductive Exception : Type :=
| ValueError (message : string).

Definition str (e : Exception) : string :=
  match e with
  | ValueError message => message
  end.

Inductive Outcome : Type :=
| Returned (final_result : PlanRecord.t)
| Raised (e : Exception).

Definition with_memory (self : t) (m : MemoryBank.t) : t :=
  {| memory_bank := m; session_service := session_service self;
     recipe_worker := recipe_worker self; use_real_llm := use_real_llm self;
     nutrition_data := nutrition_data self |}.

Definition with_sessions (self : t) (s : SessionService.t) : t :=
  {| memory_bank := memory_bank self; session_service := s;
     recipe_worker := recipe_worker self; use_real_llm := use_real_llm self;
     nutrition_data := nutrition_data self |}.

(** The [except] clause: mark the session failed and re-raise. *)
Definition handler (self : t) (session_id : string) (e : Exception)
    : t * Outcome :=
  (with_sessions self
     (SessionService.fail_session (session_service self) session_id (str e)),
   Raised e).

Definition create_meal_plan (self : t) (env : Env)
    (user_input : option UserInput) : t * Outcome :=
  let session_id := uuid4 env in
  let self :=
    with_sessions self
      (SessionService.create_session (session_service self) session_id) in
  (* try: *)
  let self :=
    if input_truthy user_input
    then
      let ui := Py.get user_input (mkUserInput None None) in
      with_memory self
        (MemoryBank.update_in_place (memory_bank self)
           (Py.get (profile ui) Profile.empty)
           (Py.get (preferences ui) Preferences.empty))
    else self in
  let user_profile := MemoryBank.get_user_profile (memory_bank self) in
  let preferences := MemoryBank.get_preferences (memory_bank self) in
  let pantry := MemoryBank.get_pantry (memory_bank self) in
  if negb (Profile.truthy user_profile)
  then
    handler self session_id
      (ValueError "User profile not found. Please set up profile first.")
  else
    let context :=
      {| SessionService.user_profile := user_profile;
         SessionService.preferences := preferences;
         SessionService.pantry := pantry;
         SessionService.session_id := session_id |} in
    let self :=
      with_sessions self
        (SessionService.update_session (session_service self) session_id
           (SessionService.VContext context)) in
    let planner_result :=
      PlannerAgent.execute (recipe_worker self) (use_real_llm self)
        (llm env)
        {| PlannerAgent.user_profile := Some user_profile;
           PlannerAgent.preferences := Some preferences |} in
    let meal_plan := PlannerAgent.meal_plan planner_result in
    let self :=
      with_sessions self
        (SessionService.update_session (session_service self) session_id
           (SessionService.VMealPlan meal_plan)) in
    let verification_result :=
      NutritionVerifierAgent.execute (nutrition_data self)
        {| NutritionVerifierAgent.meal_plan := Some meal_plan;
           NutritionVerifierAgent.user_profile := Some user_profile |} in
    let self :=
      with_sessions self
        (SessionService.update_session (session_service self) session_id
           (SessionService.VVerification verification_result)) in
    let scheduler_result :=
      SchedulerAgent.execute
        {| SchedulerAgent.meal_plan := Some meal_plan;
           SchedulerAgent.user_profile := Some user_profile |} in
    let self :=
      with_sessions self
        (SessionService.update_session (session_service self) session_id
           (SessionService.VSchedule scheduler_result)) in
    let plan_id := ("plan_" ++ now_plan_stamp env)%string in
    let final_result :=
      {| PlanRecord.plan_id := plan_id;
         PlanRecord.session_id := session_id;
         PlanRecord.user := Py.get (Profile.name user_profile) "User";
         PlanRecord.days := SchedulerAgent.scheduled_plan scheduler_result;
         PlanRecord.shopping_list :=
           SchedulerAgent.shopping_list scheduler_result;
         PlanRecord.estimated_daily_calories :=
           PlannerAgent.estimated_daily_calories planner_result;
         PlanRecord.verification :=
           {| PlanRecord.passed :=
                NutritionVerifierAgent.passed verification_result;
              PlanRecord.daily_calories :=
                NutritionVerifierAgent.daily_calories verification_result;
              PlanRecord.target_calories :=
                NutritionVerifierAgent.target_calories verification_result;
              PlanRecord.daily_protein :=
                NutritionVerifierAgent.daily_protein verification_result;
              PlanRecord.target_protein :=
                NutritionVerifierAgent.target_protein verification_result;
              PlanRecord.recommendations :=
                NutritionVerifierAgent.recommendations
                  verification_result |};
         PlanRecord.created_at := now_isoformat env |} in
    let self :=
      with_memory self
        (MemoryBank.add_plan_to_history (memory_bank self) (now_date env)
           plan_id
           (if NutritionVerifierAgent.passed verification_result
            then 1.0 else 0.8)) in
    let self :=
      with_sessions self
        (SessionService.complete_session (session_service self) session_id
           final_result) in
    (self, Returned final_result).

Definition get_session_state (self : t) (session_id : string)
    : option SessionService.Session :=
  SessionService.get_session (session_service self) session_id.

(** [resume_session]: the [ValueError] is raised outside any [try], so the
    state is left as it is. *)
Definition resume_session (self : t) (env : Env) (session_id : string)
    : t * Outcome :=
  let cannot :=
    (self, Raised (ValueError ("Cannot resume session " ++ session_id)%string))
  in
  match SessionService.get_session (session_service self) session_id with
  | Some session =>
      if String.eqb (SessionService.status session) "paused"
      then create_meal_plan self env None
      else cannot
  | None => cannot
  end.

End OrchestratorAgent.

(** ** Logger: metrics (src/observability/logger.py)

    The metrics kept in memory and the rows of the metrics file.  The log
    file is left out. *)

Module Logger.

Record MetricPoint : Type := mkPoint {
  timestamp : string;
  value : Q;
  metadata : list (string * string)
}.

Record MetricRow : Type := mkRow {
  row_timestamp : string;
  row_metric_name : string;
  row_value : Q;
  row_unit : string;
  row_metadata : list (string * string)
}.

Record Summary : Type := mkSummary {
  count : nat;
  average : Q;
  min : Q;
  max : Q
}.

Record t : Type := mk {
  metrics : list (string * list MetricPoint);
  metrics_file : list MetricRow
}.

Definition _init_metrics (self : t) : t :=
  {| metrics :=
       [("plan_generation_time", []); ("verifier_pass_rate", []);
        ("agent_execution_time", [])];
     metrics_file := metrics_file self |}.

(** [now] is the clock reading; [write_ok] tells whether appending to the
    metrics file goes through (a failure is printed and swallowed). *)
Definition track_metric (self : t) (now : string) (write_ok : bool)
    (metric_name : string) (value : Q) (unit : string)
    (metadata : option (list (string * string))) : t :=
  let timestamp := now in
  let metrics :=
    match Py.dict_get (metrics self) metric_name with
    | Some points =>
        Py.dict_set (metrics self) metric_name
          (points
             ++ [{| timestamp := timestamp; value := value;
                    metadata := Py.get metadata [] |}])
    | None => metrics self
    end in
  {| metrics := metrics;
     metrics_file :=
       if write_ok
       then metrics_file self
              ++ [{| row_timestamp := timestamp;
                     row_metric_name := metric_name;
                     row_value := value;
                     row_unit := unit;
                     row_metadata := Py.get metadata [] |}]
       else metrics_file self |}.

Definition summarise (nums : list Q) : Summary :=
  match nums with
  | [] => {| count := 0; average := 0; min := 0; max := 0 |}
  | first :: rest =>
      {| count := List.length nums;
         average :=
           Py.Qsum_list nums / inject_Z (Z.of_nat (List.length nums));
         min := Py.Qmin_list first rest;
         max := Py.Qmax_list first rest |}
  end.

Definition get_metrics_summary (self : t) : list (string * Summary) :=
  fold_left
    (fun summary '(metric_name, values) =>
       match values with
       | [] => summary
       | _ :: _ =>
           let nums := map value values in
           Py.dict_set summary metric_name (summarise nums)
       end)
    (metrics self) [].

End Logger.

(** * Statements

    The vocabulary of the properties proved below. *)

Module Spec.

(** A search query, as the context that carries it. *)
Definition query (slot : string)
    (exclude_allergens preferred_cuisines : list string)
    (gut_friendly_only : bool) (calorie_target : Q)
    : RecipeWorker.Context :=
  {| RecipeWorker.preferences :=
       Some {| Preferences.cuisine := Some preferred_cuisines;
               Preferences.dislikes := None;
               Preferences.allergies := Some exclude_allergens;
               Preferences.gut_issues := Some gut_friendly_only |};
     RecipeWorker.meal_type := Some slot;
     RecipeWorker.calorie_target := Some calorie_target |}.

(** The four filter predicates of a search. *)
Definition satisfies_filters (slot : string)
    (exclude_allergens preferred_cuisines : list string)
    (gut_friendly_only : bool) (r : Recipe.t) : Prop :=
  In slot (Py.get (Recipe.meal_type r) [])
  /\ (forall a, In a exclude_allergens ->
                ~ In a (Py.get (Recipe.allergens r) []))
  /\ (preferred_cuisines <> [] ->
      exists c, Recipe.cuisine r = Some c
                /\ (In c preferred_cuisines
                    \/ In c ["Indian"; "South Indian"]))
  /\ (gut_friendly_only = true -> Recipe.gut_friendly r = Some true).



(** The context of a verification. *)
Definition verify_context (meal_plan : WeekPlan) (user_profile : Profile.t)
    : NutritionVerifierAgent.Context :=
  {| NutritionVerifierAgent.meal_plan := Some meal_plan;
     NutritionVerifierAgent.user_profile := Some user_profile |}.

Fixpoint Qsum (l : list Q) : Q :=
  match l with
  | [] => 0
  | x :: l' => x + Qsum l'
  end.

(** The [cal] fields of the entries of one day. *)
Definition day_cal_fields (meals : list Meal.t) : list Q :=
  flat_map
    (fun m => match Meal.cal m with Some c => [c] | None => [] end) meals.

(** The [cal] fields of all entries of all days. *)
Definition cal_fields (meal_plan : WeekPlan) : list Q :=
  flat_map day_cal_fields (Py.values meal_plan).

(** No entry of the plan carries [protein_g]. *)
Definition no_protein_field (meal_plan : WeekPlan) : Prop :=
  forall day meals m,
    In (day, meals) meal_plan -> In m meals -> Meal.protein_g m = None.

(** The entries of a day that fill the slot [slot]. *)
Definition in_slot (slot : string) (m : Meal.t) : bool :=
  match Meal.meal m with
  | Some s => String.eqb s slot
  | None => false
  end.

Definition workout_entry (time type focus : string) (duration_min : Z)
    (notes : string) : Meal.t :=
  {| Meal.meal := Some "workout"; Meal.time := Some time;
     Meal.recipe_id := None; Meal.recipe_name := None; Meal.cal := None;
     Meal.protein_g := None; Meal.ingredients := None;
     Meal.prep_time_min := None; Meal.type := Some type;
     Meal.focus := Some focus; Meal.duration_min := Some duration_min;
     Meal.notes := Some notes |}.

(** The workout of each weekday. *)
Definition week_workouts : list (string * list Meal.t) :=
  [("Monday",
    [workout_entry "18:00" "resistance" "Upper Body" 45
       "Upper Body - 45 minutes"]);
   ("Tuesday",
    [workout_entry "07:00" "cardio" "Light Jogging" 30
       "Light Jogging - 30 minutes"]);
   ("Wednesday",
    [workout_entry "18:00" "resistance" "Lower Body" 45
       "Lower Body - 45 minutes"]);
   ("Thursday",
    [workout_entry "07:00" "yoga" "Flexibility & Core" 30
       "Flexibility & Core - 30 minutes"]);
   ("Friday",
    [workout_entry "18:00" "resistance" "Full Body" 50
       "Full Body - 50 minutes"]);
   ("Saturday",
    [workout_entry "10:00" "sports" "Recreational Activity" 60
       "Recreational Activity - 60 minutes"]);
   ("Sunday",
    [workout_entry "08:00" "rest" "Active Recovery" 20
       "Active Recovery - 20 minutes"])].

(** The ranked lunch candidates of a day. *)
Definition lunch_candidates (catalog : list Recipe.t)
    (preferences : Preferences.t) : list Recipe.t :=
  PlannerAgent.search catalog preferences "lunch" 700.

Definition lunch_entry (recipe : Recipe.t) : Meal.t :=
  PlannerAgent.meal_entry "lunch" "13:30" recipe "Protein-rich lunch".

(** The lunch index as stated: 1 on every day except Monday, which takes 0;
    0 when there are fewer than 2 candidates. *)
Definition stated_lunch_index (day : string) (candidate_count : nat) : nat :=
  if (candidate_count <? 2)%nat then 0%nat
  else if String.eqb day "Monday" then 0%nat else 1%nat.

(** The lunch index of the source: 0 on every day except Monday, which takes
    1; 0 when there are fewer than 2 candidates. *)
Definition source_lunch_index (day : string) (candidate_count : nat) : nat :=
  if (candidate_count <? 2)%nat then 0%nat
  else if String.eqb day "Monday" then 1%nat else 0%nat.

(** The week plan that [build] produces. *)
Definition build (catalog : list Recipe.t) (user_profile : Profile.t)
    (preferences : Preferences.t) : WeekPlan :=
  PlannerAgent.meal_plan
    (PlannerAgent._generate_mock_plan catalog user_profile preferences).

(** On every day of the week with lunch candidates, the lunch entry of the
    plan is made from the candidate at [index day (number of candidates)]. *)
Definition lunch_takes (index : string -> nat -> nat)
    (catalog : list Recipe.t) (user_profile : Profile.t)
    (preferences : Preferences.t) : Prop :=
  forall day,
    In day PlannerAgent.days ->
    lunch_candidates catalog preferences <> [] ->
    exists meals recipe,
      Py.dict_get (build catalog user_profile preferences) day = Some meals
      /\ nth_error (lunch_candidates catalog preferences)
           (index day (List.length (lunch_candidates catalog preferences)))
         = Some recipe
      /\ filter (in_slot "lunch") meals = [lunch_entry recipe].

(** The profile keys that the caller of [create_meal_plan] passes in. *)
Definition input_profile (user_input : option OrchestratorAgent.UserInput)
    : Profile.t :=
  match user_input with
  | Some ui => Py.get (OrchestratorAgent.profile ui) Profile.empty
  | None => Profile.empty
  end.

Definition missing_profile : OrchestratorAgent.Exception :=
  OrchestratorAgent.ValueError
    "User profile not found. Please set up profile first.".

(** The boolean filter of a search, [_matches_criteria] at the query. *)
Definition matches (slot : string)
    (exclude_allergens preferred_cuisines : list string)
    (gut_friendly_only : bool) (r : Recipe.t) : bool :=
  RecipeWorker._matches_criteria r slot exclude_allergens preferred_cuisines
    gut_friendly_only.

(** The meal slots of a day, in the order in which the planner fills them. *)
Definition meal_slots : list string :=
  ["breakfast"; "snack"; "lunch"; "evening_snack"; "dinner"].

(** The ranked candidates that the planner asks for, per slot. *)
Definition slot_candidates (catalog : list Recipe.t)
    (preferences : Preferences.t) (slot : string) : list Recipe.t :=
  if String.eqb slot "breakfast"
  then PlannerAgent.search catalog preferences "breakfast" 500
  else if String.eqb slot "snack"
  then PlannerAgent.search catalog preferences "snack" 400
  else if String.eqb slot "lunch"
  then PlannerAgent.search catalog preferences "lunch" 700
  else if String.eqb slot "evening_snack"
  then PlannerAgent.search catalog preferences "snack" 450
  else if String.eqb slot "dinner"
  then PlannerAgent.search catalog preferences "dinner" 650
  else [].

Definition is_digit (c : ascii) : bool :=
  ((48 <=? nat_of_ascii c) && (nat_of_ascii c <=? 57))%nat.

Definition digit (c : ascii) : nat := (nat_of_ascii c - 48)%nat.

(** A zero-padded 24-hour "HH:MM" string. *)
Definition valid_hhmm (time : string) : bool :=
  match time with
  | String h1 (String h2 (String colon (String m1 (String m2 EmptyString)))) =>
      is_digit h1 && is_digit h2 && Ascii.eqb colon ":" && is_digit m1
      && is_digit m2
      && (10 * digit h1 + digit h2 <? 24)%nat
      && (10 * digit m1 + digit m2 <? 60)%nat
  | _ => false
  end.

(** The [protein_g] fields of all entries of all days. *)
Definition protein_fields (meal_plan : WeekPlan) : list Q :=
  flat_map
    (fun meals =>
       flat_map
         (fun m =>
            match Meal.protein_g m with Some p => [p] | None => [] end)
         meals)
    (Py.values meal_plan).

(** Every ingredient occurrence of the week, in plan order. *)
Definition all_ingredients (meal_plan : WeekPlan) : list string :=
  flat_map
    (fun meals => flat_map (fun m => Py.get (Meal.ingredients m) []) meals)
    (Py.values meal_plan).

(** The table marks the ingredient as not gut-friendly: the first row for
    its normalised name (spaces to underscores, lower case) says so. *)
Definition gut_unfriendly
    (nutrition_data : list NutritionVerifierAgent.NutritionRow)
    (ingredient : string) : bool :=
  match
    find
      (fun row =>
         String.eqb (NutritionVerifierAgent.food_item row)
           (Py.lower (Py.replace_char " " "_" ingredient)))
      nutrition_data
  with
  | Some row => negb (NutritionVerifierAgent.gut_friendly row)
  | None => false
  end.

Definition activity_levels : list string :=
  ["sedentary"; "light"; "moderate"; "active"; "very_active"].

(** The sort key of the scheduler, [m.get("time", "00:00")]. *)
Definition entry_time (m : Meal.t) : string := Py.get (Meal.time m) "00:00".

(** [a] is scheduled no later than [b]. *)
Definition not_later (a b : Meal.t) : Prop :=
  String.leb (entry_time a) (entry_time b) = true.

Definition at_time (time : string) (m : Meal.t) : bool :=
  String.eqb (entry_time m) time.

(** The context of a scheduling run. *)
Definition schedule_context (meal_plan : WeekPlan) (user_profile : Profile.t)
    : SchedulerAgent.Context :=
  {| SchedulerAgent.meal_plan := Some meal_plan;
     SchedulerAgent.user_profile := Some user_profile |}.


(** The operations of the memory bank that change it. *)
Inductive MemoryOp : Type :=
| SetUserProfile (profile : Profile.t)
| SetPreferences (preferences : Preferences.t)
| UpdatePantry (items : list (string * Q))
| AddPlanToHistory (today plan_id : string) (success_rate : Q)
| ClearAll.

Definition apply_memory_op (self : MemoryBank.t) (op : MemoryOp)
    : MemoryBank.t :=
  match op with
  | SetUserProfile profile => MemoryBank.set_user_profile self profile
  | SetPreferences preferences => MemoryBank.set_preferences self preferences
  | UpdatePantry items => MemoryBank.update_pantry self items
  | AddPlanToHistory today plan_id success_rate =>
      MemoryBank.add_plan_to_history self today plan_id success_rate
  | ClearAll => MemoryBank.clear_all self
  end.

(** The history entries that a sequence of operations adds. *)
Definition added_entries (ops : list MemoryOp)
    : list MemoryBank.HistoryEntry :=
  flat_map
    (fun op =>
       match op with
       | AddPlanToHistory today plan_id success_rate =>
           [MemoryBank.mkEntry today plan_id success_rate]
       | _ => []
       end)
    ops.

Definition is_clear_all (op : MemoryOp) : bool :=
  match op with
  | ClearAll => true
  | _ => false
  end.

(** The operations of the session service on one session id. *)
Inductive SessionOp : Type :=
| Update (value : SessionService.Value)
| Pause
| Resume
| Complete (final : PlanRecord.t)
| Fail (err : string).

Definition apply_session_op (sessions : SessionService.t)
    (session_id : string) (op : SessionOp) : SessionService.t :=
  match op with
  | Update value => SessionService.update_session sessions session_id value
  | Pause => SessionService.pause_session sessions session_id
  | Resume => SessionService.resume_session sessions session_id
  | Complete final =>
      SessionService.complete_session sessions session_id final
  | Fail err => SessionService.fail_session sessions session_id err
  end.

(** The preference keys that the caller of [create_meal_plan] passes in. *)
Definition input_preferences
    (user_input : option OrchestratorAgent.UserInput) : Preferences.t :=
  match user_input with
  | Some ui => Py.get (OrchestratorAgent.preferences ui) Preferences.empty
  | None => Preferences.empty
  end.

(** One call of [track_metric]. *)
Record Track : Type := mkTrack {
  track_now : string;
  track_write_ok : bool;
  track_name : string;
  track_value : Q;
  track_unit : string;
  track_metadata : option (list (string * string))
}.

Definition track (self : Logger.t) (call : Track) : Logger.t :=
  Logger.track_metric self (track_now call) (track_write_ok call)
    (track_name call) (track_value call) (track_unit call)
    (track_metadata call).

(** The values tracked under a metric name, in call order. *)
Definition tracked_values (metric_name : string) (calls : list Track)
    : list Q :=
  map track_value
    (filter (fun call => String.eqb (track_name call) metric_name) calls).

Definition known_metrics : list string :=
  ["plan_generation_time"; "verifier_pass_rate"; "agent_execution_time"].

End Spec.

(** Concrete inputs used to exercise the statements. *)

Module Example.

Definition entry (slot : string) (cal : Q) : Meal.t :=
  {| Meal.meal := Some slot; Meal.time := None; Meal.recipe_id := None;
     Meal.recipe_name := None; Meal.cal := Some cal; Meal.protein_g := None;
     Meal.ingredients := None; Meal.prep_time_min := None;
     Meal.type := None; Meal.focus := None; Meal.duration_min := None;
     Meal.notes := None |}.

(** A week in which only Monday has meals. *)
Definition sparse_week : WeekPlan :=
  [("Monday", [entry "lunch" 700; entry "dinner" 700]); ("Tuesday", []);
   ("Wednesday", []); ("Thursday", []); ("Friday", []); ("Saturday", []);
   ("Sunday", [])].

(** The profile of the target-calorie scenario. *)
Definition scenario_profile : Profile.t :=
  {| Profile.name := None; Profile.age := Some 20;
     Profile.height_cm := Some 168; Profile.weight_kg := Some 45;
     Profile.goal := Some "gain_weight";
     Profile.activity_level := Some "moderate";
     Profile.wake_time := None; Profile.sleep_time := None |}.

Definition lunch (id : string) (calories : Q) : Recipe.t :=
  {| Recipe.id := id; Recipe.title := id;
     Recipe.meal_type := Some ["lunch"]; Recipe.cuisine := Some "Indian";
     Recipe.calories := calories; Recipe.protein_g := Some 30;
     Recipe.ingredients := Some ["rice"; "lentils"];
     Recipe.prep_time_min := Some 25; Recipe.allergens := Some [];
     Recipe.gut_friendly := Some true |}.

(** A catalog of two lunches; "dal" is nearer to the 700 kcal target and
    ranks first. *)
Definition two_lunches : list Recipe.t := [lunch "dal" 700; lunch "pulao" 600].

(** A freshly created memory bank and an orchestrator on top of it. *)
Definition fresh_data : MemoryBank.Data :=
  {| MemoryBank.user_profile := Profile.empty;
     MemoryBank.preferences := Preferences.empty;
     MemoryBank.pantry := [];
     MemoryBank.history := [] |}.

Definition fresh_orchestrator : OrchestratorAgent.t :=
  {| OrchestratorAgent.memory_bank :=
       {| MemoryBank.data := fresh_data; MemoryBank.file := fresh_data |};
     OrchestratorAgent.session_service := [];
     OrchestratorAgent.recipe_worker := two_lunches;
     OrchestratorAgent.use_real_llm := false;
     OrchestratorAgent.nutrition_data := [] |}.

Definition env : OrchestratorAgent.Env :=
  {| OrchestratorAgent.uuid4 := "5f0c";
     OrchestratorAgent.llm := PlannerAgent.NoApiKey;
     OrchestratorAgent.now_plan_stamp := "20240101_120000";
     OrchestratorAgent.now_isoformat := "2024-01-01T12:00:00";
     OrchestratorAgent.now_date := "2024-01-01" |}.

Definition dinner (id : string) (calories : Q) (allergens : list string)
    : Recipe.t :=
  {| Recipe.id := id; Recipe.title := id;
     Recipe.meal_type := Some ["dinner"]; Recipe.cuisine := Some "Indian";
     Recipe.calories := calories; Recipe.protein_g := Some 25;
     Recipe.ingredients := Some ["rice"; "eggs"];
     Recipe.prep_time_min := Some 30; Recipe.allergens := Some allergens;
     Recipe.gut_friendly := Some true |}.

(** Three dinners, ranked khichdi, curry, biryani for the 650 kcal target. *)
Definition three_dinners : list Recipe.t :=
  [dinner "biryani" 800 ["nuts"]; dinner "khichdi" 650 [];
   dinner "curry" 700 []].

Definition nut_allergy : Preferences.t :=
  {| Preferences.cuisine := None; Preferences.dislikes := None;
     Preferences.allergies := Some ["nuts"];
     Preferences.gut_issues := None |}.

End Example.

(** * Properties *)

(** ** Facts about the Python primitives *)

Section PyFacts.

Lemma str_in_iff (s : string) (l : list string) :
  Py.str_in s l = true <-> In s l.
Proof.
  unfold Py.str_in. rewrite existsb_exists. split.
  - intros [x [Hin Heq]]. apply String.eqb_eq in Heq. now subst.
  - intros Hin. exists s. split; [assumption | apply String.eqb_refl].
Qed.

Lemma str_in_false_iff (s : string) (l : list string) :
  Py.str_in s l = false <-> ~ In s l.
Proof.
  rewrite <- str_in_iff. destruct (Py.str_in s l); split; congruence.
Qed.

Lemma truthy_iff {A : Type} (l : list A) : Py.truthy l = true <-> l <> [].
Proof. destruct l; simpl; split; congruence. Qed.

Lemma Qltb_true (a b : Q) : Py.Qltb a b = true <-> (a < b)%Q.
Proof.
  unfold Py.Qltb. rewrite negb_true_iff. split.
  - intros H. apply Qnot_le_lt. intros Hle.
    apply Qle_bool_iff in Hle. congruence.
  - intros H. destruct (Qle_bool b a) eqn:E; [|reflexivity].
    apply Qle_bool_iff in E. exfalso. exact (Qlt_not_le _ _ H E).
Qed.

Lemma Qltb_false (a b : Q) : Py.Qltb a b = false <-> (b <= a)%Q.
Proof.
  unfold Py.Qltb. rewrite negb_false_iff. apply Qle_bool_iff.
Qed.

Lemma Qgeb_true (a b : Q) : Py.Qgeb a b = true <-> (b <= a)%Q.
Proof. unfold Py.Qgeb. apply Qle_bool_iff. Qed.

End PyFacts.

(** ** The stable sort, for numeric keys *)

Section SortFacts.

Context {A : Type} (key : A -> Q).

Let ordered (a b : A) : Prop := (key a <= key b)%Q.

Lemma insert_perm (x : A) (l : list A) :
  Permutation (Py.insert key Py.Qltb x l) (x :: l).
Proof.
  induction l as [|y l IH]; simpl.
  - apply Permutation_refl.
  - destruct (Py.Qltb (key y) (key x)).
    + eapply perm_trans; [apply perm_skip, IH | apply perm_swap].
    + apply Permutation_refl.
Qed.

Lemma sort_perm (l : list A) : Permutation (Py.sort key Py.Qltb l) l.
Proof.
  induction l as [|x l IH]; simpl.
  - apply perm_nil.
  - eapply perm_trans; [apply insert_perm | apply perm_skip, IH].
Qed.

Lemma insert_sorted (x : A) (l : list A) :
  StronglySorted ordered l ->
  StronglySorted ordered (Py.insert key Py.Qltb x l).
Proof.
  induction 1 as [|y l Hs IH Hall]; simpl.
  - constructor; constructor.
  - destruct (Py.Qltb (key y) (key x)) eqn:E.
    + constructor; [exact IH|].
      apply (Permutation_Forall (Permutation_sym (insert_perm x l))).
      constructor; [|exact Hall].
      apply Qltb_true in E. apply Qlt_le_weak, E.
    + apply Qltb_false in E.
      constructor; [constructor; assumption|].
      constructor; [exact E|].
      eapply Forall_impl; [|exact Hall].
      intros a Ha. unfold ordered in *. eapply Qle_trans; eassumption.
Qed.

Lemma sort_sorted (l : list A) :
  StronglySorted ordered (Py.sort key Py.Qltb l).
Proof.
  induction l as [|x l IH]; simpl.
  - constructor.
  - apply insert_sorted, IH.
Qed.



End SortFacts.



(** ** RecipeWorker *)

Section RecipeWorkerFacts.

Lemma collect_matches {A : Type} (f : A -> bool) (l acc : list A) :
  fold_left (fun matched x => if negb (f x) then matched else matched ++ [x])
    l acc
  = acc ++ filter f l.
Proof.
  revert acc. induction l as [|x l IH]; intros acc; simpl.
  - now rewrite app_nil_r.
  - rewrite IH. destruct (f x); simpl.
    + now rewrite <- app_assoc.
    + reflexivity.
Qed.

Lemma opt_str_in_iff (x : option string) (l : list string) :
  Py.opt_str_in x l = true <-> exists c, x = Some c /\ In c l.
Proof.
  destruct x as [c|]; simpl.
  - rewrite str_in_iff. split.
    + intros H. now exists c.
    + intros [c' [E H]]. now inversion E; subst.
  - split; [discriminate | intros [c [E _]]; discriminate].
Qed.

Lemma no_allergen_iff (allergens exclude_allergens : list string) :
  existsb (fun allergen => Py.str_in allergen allergens) exclude_allergens
  = false
  <-> forall a, In a exclude_allergens -> ~ In a allergens.
Proof.
  split.
  - intros H a Ha Hin.
    assert (E : existsb (fun allergen => Py.str_in allergen allergens)
                  exclude_allergens = true).
    { apply existsb_exists. exists a. split; [exact Ha|].
      now apply str_in_iff. }
    congruence.
  - intros H.
    destruct (existsb _ exclude_allergens) eqn:E; [|reflexivity].
    apply existsb_exists in E. destruct E as [a [Ha Hin]].
    apply str_in_iff in Hin. exfalso. exact (H a Ha Hin).
Qed.

Lemma cuisine_ok_iff (cuisine : option string)
    (preferred_cuisines : list string) :
  Py.truthy preferred_cuisines
  && negb (Py.opt_str_in cuisine preferred_cuisines)
  && negb (Py.opt_str_in cuisine ["Indian"; "South Indian"]) = false
  <-> (preferred_cuisines <> [] ->
       exists c, cuisine = Some c
                 /\ (In c preferred_cuisines
                     \/ In c ["Indian"; "South Indian"])).
Proof.
  split.
  - intros H Hne. apply truthy_iff in Hne. rewrite Hne in H. simpl in H.
    destruct (Py.opt_str_in cuisine preferred_cuisines) eqn:E1.
    + apply opt_str_in_iff in E1. destruct E1 as [c [Ec Hin]].
      exists c. auto.
    + simpl in H. apply negb_false_iff in H.
      apply opt_str_in_iff in H. destruct H as [c [Ec Hin]].
      exists c. auto.
  - intros H. destruct (Py.truthy preferred_cuisines) eqn:Et;
      [|reflexivity].
    apply truthy_iff in Et. destruct (H Et) as [c [Ec [Hin|Hin]]].
    + assert (E : Py.opt_str_in cuisine preferred_cuisines = true)
        by (apply opt_str_in_iff; eauto).
      now rewrite E.
    + assert (E : Py.opt_str_in cuisine ["Indian"; "South Indian"] = true)
        by (apply opt_str_in_iff; eauto).
      rewrite E. simpl. apply andb_false_r.
Qed.

Lemma gut_ok_iff (gut_friendly : option bool) (gut_friendly_only : bool) :
  gut_friendly_only && negb (Py.get gut_friendly false) = false
  <-> (gut_friendly_only = true -> gut_friendly = Some true).
Proof.
  destruct gut_friendly_only, gut_friendly as [[|]|]; simpl;
    split; intros; try reflexivity; try discriminate; auto.
  - assert (Some false = Some true) by auto. discriminate.
  - assert (@None bool = Some true) by auto. discriminate.
Qed.

(** The boolean filter of the source decides the four predicates. *)
Lemma matches_criteria_iff (r : Recipe.t) (slot : string)
    (exclude_allergens preferred_cuisines : list string)
    (gut_friendly_only : bool) :
  RecipeWorker._matches_criteria r slot exclude_allergens preferred_cuisines
    gut_friendly_only = true
  <-> Spec.satisfies_filters slot exclude_allergens preferred_cuisines
        gut_friendly_only r.
Proof.
  unfold RecipeWorker._matches_criteria, Spec.satisfies_filters.
  rewrite <- str_in_iff, <- no_allergen_iff, <- cuisine_ok_iff,
    <- gut_ok_iff.
  destruct (Py.str_in slot _); simpl;
    [|split; [discriminate | intros [H _]; discriminate]].
  destruct (existsb _ exclude_allergens); simpl;
    [split; [discriminate | intros [_ [H _]]; discriminate]|].
  destruct (Py.truthy preferred_cuisines && _ && _); simpl;
    [split; [discriminate | intros [_ [_ [H _]]]; discriminate]|].
  destruct (gut_friendly_only && _); simpl;
    [split; [discriminate | intros [_ [_ [_ H]]]; discriminate]|].
  tauto.
Qed.

(** [execute] is: filter in catalog order, stable sort by distance, keep
    five. *)
Lemma execute_query (catalog : list Recipe.t) (slot : string)
    (exclude_allergens preferred_cuisines : list string)
    (gut_friendly_only : bool) (calorie_target : Q) :
  RecipeWorker.recipes
    (RecipeWorker.execute catalog
       (Spec.query slot exclude_allergens preferred_cuisines
          gut_friendly_only calorie_target))
  = firstn 5
      (Py.sort (RecipeWorker.distance calorie_target) Py.Qltb
         (filter
            (fun r =>
               RecipeWorker._matches_criteria r slot exclude_allergens
                 preferred_cuisines gut_friendly_only)
            catalog)).
Proof.
  unfold RecipeWorker.execute, Spec.query, Py.slice_to. simpl.
  rewrite collect_matches. reflexivity.
Qed.


End RecipeWorkerFacts.



(** ** NutritionVerifierAgent *)

Section VerifierFacts.

Lemma Qsum_app (l1 l2 : list Q) :
  (Spec.Qsum (l1 ++ l2) == Spec.Qsum l1 + Spec.Qsum l2)%Q.
Proof.
  induction l1 as [|x l1 IH]; simpl.
  - now rewrite Qplus_0_l.
  - rewrite IH. now rewrite Qplus_assoc.
Qed.

(** The inner loop adds the [cal] fields of a day to the running total. *)
Lemma day_total (meals : list Meal.t) (total : Q) :
  (fold_left
     (fun total meal =>
        match Meal.cal meal with
        | Some cal => total + cal
        | None => total
        end)
     meals total
   == total + Spec.Qsum (Spec.day_cal_fields meals))%Q.
Proof.
  revert total. induction meals as [|m meals IH]; intros total; simpl.
  - now rewrite Qplus_0_r.
  - rewrite IH. unfold Spec.day_cal_fields. simpl.
    destruct (Meal.cal m) as [c|]; simpl.
    + now rewrite Qplus_assoc.
    + reflexivity.
Qed.

(** The outer loop adds the [cal] fields of every day. *)
Lemma week_total (days : list (list Meal.t)) (total : Q) :
  (fold_left
     (fun total day_meals =>
        fold_left
          (fun total meal =>
             match Meal.cal meal with
             | Some cal => total + cal
             | None => total
             end)
          day_meals total)
     days total
   == total + Spec.Qsum (flat_map Spec.day_cal_fields days))%Q.
Proof.
  revert total. induction days as [|d days IH]; intros total; simpl.
  - now rewrite Qplus_0_r.
  - rewrite IH, day_total, Qsum_app. now rewrite Qplus_assoc.
Qed.

Lemma daily_calories_sum (meal_plan : WeekPlan) :
  (NutritionVerifierAgent._calculate_daily_calories meal_plan
   == Spec.Qsum (Spec.cal_fields meal_plan)
      / inject_Z (Z.max (Z.of_nat (List.length meal_plan)) 1))%Q.
Proof.
  unfold NutritionVerifierAgent._calculate_daily_calories, Spec.cal_fields.
  rewrite week_total. now rewrite Qplus_0_l.
Qed.

(** Without [protein_g] fields the protein loop leaves its state alone. *)
Lemma protein_loop_idle (days : list (list Meal.t)) (acc : Q * nat) :
  (forall meals m, In meals days -> In m meals -> Meal.protein_g m = None) ->
  fold_left
    (fun acc day_meals =>
       fold_left
         (fun '(total, count) meal =>
            match Meal.protein_g meal with
            | Some protein_g => ((total + protein_g)%Q, S count)
            | None => (total, count)
            end)
         day_meals acc)
    days acc
  = acc.
Proof.
  revert acc. induction days as [|d days IH]; intros acc H; simpl.
  - reflexivity.
  - assert (Hd : fold_left
                   (fun '(total, count) meal =>
                      match Meal.protein_g meal with
                      | Some protein_g => ((total + protein_g)%Q, S count)
                      | None => (total, count)
                      end)
                   d acc = acc).
    { assert (Hm : forall m, In m d -> Meal.protein_g m = None)
        by (intros m Hin; apply (H d m); [now left | exact Hin]).
      clear H IH. revert acc. induction d as [|m d IHd]; intros acc; simpl.
      - reflexivity.
      - destruct acc as [total count].
        rewrite (Hm m) by now left.
        apply IHd. intros m' Hin. apply Hm. now right. }
    rewrite Hd. apply IH. intros meals m Hin. apply H. now right.
Qed.

Lemma daily_protein_zero (meal_plan : WeekPlan) :
  Spec.no_protein_field meal_plan ->
  NutritionVerifierAgent._calculate_daily_protein meal_plan = 0%Q.
Proof.
  intros H. unfold NutritionVerifierAgent._calculate_daily_protein.
  rewrite protein_loop_idle; [reflexivity|].
  intros meals m Hin Hm. unfold Py.values in Hin.
  apply in_map_iff in Hin. destruct Hin as [[day meals'] [E Hin]].
  simpl in E. subst meals'. exact (H day meals m Hin Hm).
Qed.

End VerifierFacts.


(** C4. For every week plan with 7 day keys, the [daily_calories] that
    [execute] reports equals the sum of the [cal] fields of all entries of
    all days, divided by 7. *)
Theorem daily_calories_is_week_total_over_seven :
  forall (nutrition_data : list NutritionVerifierAgent.NutritionRow)
         (meal_plan : WeekPlan) (user_profile : Profile.t),
    List.length (Py.keys meal_plan) = 7%nat ->
    (NutritionVerifierAgent.daily_calories
       (NutritionVerifierAgent.execute nutrition_data
          (Spec.verify_context meal_plan user_profile))
     == Spec.Qsum (Spec.cal_fields meal_plan) / 7)%Q.
Proof.
  intros nutrition_data meal_plan user_profile H7.
  unfold Py.keys in H7. rewrite length_map in H7.
  unfold NutritionVerifierAgent.execute, Spec.verify_context.
  cbn [NutritionVerifierAgent.daily_calories
         NutritionVerifierAgent.meal_plan Py.get].
  rewrite daily_calories_sum, H7. reflexivity.
Qed.

Lemma daily_calories_is_week_total_over_seven_witness :
  List.length (Py.keys Example.sparse_week) = 7%nat
  /\ (NutritionVerifierAgent.daily_calories
        (NutritionVerifierAgent.execute []
           (Spec.verify_context Example.sparse_week Profile.empty))
      == Spec.Qsum (Spec.cal_fields Example.sparse_week) / 7)%Q.
Proof.
  split; [reflexivity|].
  apply (daily_calories_is_week_total_over_seven [] Example.sparse_week
           Profile.empty).
  reflexivity.
Defined.

(** The divisor is the number of days, not the number of days with meals:
    1400 kcal eaten on Monday alone average to 200 kcal, not to 1400. *)
Example daily_calories_sparse_week :
  (NutritionVerifierAgent._calculate_daily_calories Example.sparse_week
   == 200)%Q
  /\ ~ (NutritionVerifierAgent._calculate_daily_calories Example.sparse_week
        == 1400)%Q.
Proof. split; [reflexivity | discriminate]. Qed.

(** C7. For the profile [{age: 20, height_cm: 168, weight_kg: 45, goal:
    gain_weight, activity_level: moderate}] the BMR is 1405, the TDEE is
    2177.75 and the target calories are exactly 2677.75, also as reported by
    [execute] for any table and week plan. *)
Theorem target_calories_scenario :
  (NutritionVerifierAgent.bmr Example.scenario_profile == 1405)%Q
  /\ (NutritionVerifierAgent.tdee Example.scenario_profile == 2177.75)%Q
  /\ (NutritionVerifierAgent._calculate_target_calories
        Example.scenario_profile "gain_weight" == 2677.75)%Q
  /\ forall nutrition_data meal_plan,
       (NutritionVerifierAgent.target_calories
          (NutritionVerifierAgent.execute nutrition_data
             (Spec.verify_context meal_plan Example.scenario_profile))
        == 2677.75)%Q.
Proof.
  repeat split; try reflexivity.
Qed.

(** The same scenario on binary64 floats: no rounding error survives, the
    result is the float 2677.75. *)
Lemma target_calories_scenario_binary64 :
  Binary64._calculate_target_calories 45 168 20 "moderate" "gain_weight"
  = 2677.75%float.
Proof. vm_compute. reflexivity. Qed.

(** C9. For every week plan in which no entry carries [protein_g] and every
    profile whose weight is positive (absent, it is 45), [execute] reports
    [daily_protein = 0] and [protein_met = false], and its recommendations
    contain the protein line. *)
Theorem no_protein_fields_fail_protein :
  forall (nutrition_data : list NutritionVerifierAgent.NutritionRow)
         (meal_plan : WeekPlan) (user_profile : Profile.t),
    Spec.no_protein_field meal_plan ->
    (0 < Py.get (Profile.weight_kg user_profile) 45)%Q ->
    let r :=
      NutritionVerifierAgent.execute nutrition_data
        (Spec.verify_context meal_plan user_profile) in
    NutritionVerifierAgent.daily_protein r = 0%Q
    /\ NutritionVerifierAgent.protein_met r = false
    /\ In (NutritionVerifierAgent.protein_line
             (NutritionVerifierAgent.target_protein r)
             (NutritionVerifierAgent.daily_protein r))
          (NutritionVerifierAgent.recommendations r).
Proof.
  intros nutrition_data meal_plan user_profile Hnone Hw r.
  assert (Hmet : Py.Qgeb
                   (NutritionVerifierAgent._calculate_daily_protein meal_plan)
                   (NutritionVerifierAgent._calculate_target_protein
                      user_profile * 0.9) = false).
  { rewrite (daily_protein_zero _ Hnone).
    destruct (Py.Qgeb 0 _) eqn:E; [|reflexivity].
    apply Qgeb_true in E. exfalso.
    unfold NutritionVerifierAgent._calculate_target_protein in E.
    apply (Qlt_not_le _ _ Hw).
    setoid_replace (Py.get (Profile.weight_kg user_profile) 45)
      with (Py.get (Profile.weight_kg user_profile) 45 * 2.0 * 0.9
            * (10 # 18))%Q by field.
    setoid_replace 0%Q with (0 * (10 # 18))%Q by field.
    apply Qmult_le_compat_r; [exact E | discriminate]. }
  unfold r, NutritionVerifierAgent.execute, Spec.verify_context.
  cbn [NutritionVerifierAgent.daily_protein NutritionVerifierAgent.protein_met
         NutritionVerifierAgent.target_protein
         NutritionVerifierAgent.recommendations
         NutritionVerifierAgent.meal_plan
         NutritionVerifierAgent.user_profile Py.get].
  rewrite Hmet. cbn [negb].
  split; [exact (daily_protein_zero _ Hnone)|].
  split; [reflexivity|].
  destruct (negb (Py.Qgeb _ _)); destruct (negb (_ =? 0)%nat);
    cbn [app]; repeat (rewrite in_app_iff); simpl; auto.
Qed.

Lemma no_protein_fields_fail_protein_witness :
  Spec.no_protein_field Example.sparse_week
  /\ (0 < Py.get (Profile.weight_kg Example.scenario_profile) 45)%Q
  /\ In "Increase protein by 90g for muscle growth"
        (NutritionVerifierAgent.recommendations
           (NutritionVerifierAgent.execute []
              (Spec.verify_context Example.sparse_week
                 Example.scenario_profile))).
Proof.
  assert (Hnone : Spec.no_protein_field Example.sparse_week).
  { intros day meals m Hin Hm. simpl in Hin.
    repeat (destruct Hin as [Hin|Hin];
            [inversion Hin; subst; simpl in Hm;
             repeat (destruct Hm as [Hm|Hm]; [now subst|]); contradiction|]).
    contradiction. }
  assert (Hw : (0 < Py.get (Profile.weight_kg Example.scenario_profile) 45)%Q)
    by reflexivity.
  split; [exact Hnone|]. split; [exact Hw|].
  exact (proj2 (proj2 (no_protein_fields_fail_protein []
                         Example.sparse_week Example.scenario_profile
                         Hnone Hw))).
Defined.

(** ** SchedulerAgent *)

Section SchedulerFacts.

Lemma int_of_integer (z : Z) (k : Z) :
  Py.int (inject_Z k * inject_Z z * inject_Z z) = (k * z * z)%Z.
Proof.
  unfold Py.int, Qmult, inject_Z. cbn [Qnum Qden].
  change (Z.pos (1 * 1 * 1)) with 1%Z. apply Z.quot_1_r.
Qed.

Lemma int_of_twentieth (z : Z) :
  (0 <= z)%Z ->
  Py.int (0.05 * inject_Z z * inject_Z z) = (z * z / 20)%Z.
Proof.
  intros Hz. unfold Py.int, Qmult, inject_Z. cbn [Qnum Qden].
  change (Z.pos (100 * 1 * 1)) with (20 * 5)%Z.
  change (Qnum 0.05) with 5%Z.
  rewrite Z.quot_div_nonneg by nia.
  replace (5 * z * z)%Z with (z * z * 5)%Z by ring.
  apply Z.div_mul_cancel_r; discriminate.
Qed.

End SchedulerFacts.

(** C6. For the piece-counted ingredients "eggs", "banana" and "dates" and
    every occurrence count [n], the quantity string is the integer part of
    [base_qty * n * n] followed by " pieces", with [base_qty] 2 for eggs, 1
    for banana and 0.05 for dates: the count enters twice.  The integer
    parts are [2 n^2], [n^2] and the quotient of [n^2] by 20. *)
Theorem piece_counted_quantities :
  forall n : nat,
    let count := inject_Z (Z.of_nat n) in
    SchedulerAgent._estimate_quantity "eggs" count
    = (Py.str_of_int (Py.int (2 * count * count)) ++ " pieces")%string
    /\ SchedulerAgent._estimate_quantity "banana" count
       = (Py.str_of_int (Py.int (1 * count * count)) ++ " pieces")%string
    /\ SchedulerAgent._estimate_quantity "dates" count
       = (Py.str_of_int (Py.int (0.05 * count * count)) ++ " pieces")%string
    /\ Py.int (2 * count * count) = (2 * Z.of_nat n * Z.of_nat n)%Z
    /\ Py.int (1 * count * count) = (Z.of_nat n * Z.of_nat n)%Z
    /\ Py.int (0.05 * count * count) = (Z.of_nat n * Z.of_nat n / 20)%Z.
Proof.
  intros n count.
  split; [reflexivity|]. split; [reflexivity|]. split; [reflexivity|].
  split; [exact (int_of_integer (Z.of_nat n) 2)|].
  split.
  - etransitivity; [exact (int_of_integer (Z.of_nat n) 1)|].
    now rewrite Z.mul_1_l.
  - apply int_of_twentieth. apply Nat2Z.is_nonneg.
Qed.

(** Three eggs-bearing entries are estimated at 18 eggs, not 6. *)
Example eggs_three_occurrences :
  SchedulerAgent._estimate_quantity "eggs" 3 = "18 pieces".
Proof. reflexivity. Qed.

(** ** PlannerAgent *)

Section PlannerFacts.

Lemma dict_set_fresh {V : Type} (d : list (string * V)) (k : string) (v : V) :
  ~ In k (Py.keys d) -> Py.dict_set d k v = d ++ [(k, v)].
Proof.
  induction d as [|[k' v'] d IH]; simpl; intros H.
  - reflexivity.
  - destruct (String.eqb k k') eqn:E.
    + apply String.eqb_eq in E. exfalso. apply H. now left.
    + rewrite IH; [reflexivity|]. intros Hin. apply H. now right.
Qed.

(** Assigning distinct new keys in turn appends them in that order. *)
Lemma fold_dict_set_fresh {V : Type} (f : string -> V) (ks : list string)
    (acc : list (string * V)) :
  NoDup (Py.keys acc ++ ks) ->
  fold_left (fun d k => Py.dict_set d k (f k)) ks acc
  = acc ++ map (fun k => (k, f k)) ks.
Proof.
  revert acc. induction ks as [|k ks IH]; intros acc H; simpl.
  - now rewrite app_nil_r.
  - assert (Hk : ~ In k (Py.keys acc)).
    { apply NoDup_remove_2 in H. intros Hin. apply H.
      apply in_or_app. now left. }
    rewrite (dict_set_fresh acc k (f k) Hk), IH.
    + now rewrite <- app_assoc.
    + unfold Py.keys in *. rewrite map_app. simpl.
      rewrite <- app_assoc. exact H.
Qed.

Lemma dict_get_map {V : Type} (f : string -> V) (ks : list string)
    (k : string) :
  In k ks -> Py.dict_get (map (fun k => (k, f k)) ks) k = Some (f k).
Proof.
  induction ks as [|k' ks IH]; simpl; intros H.
  - contradiction.
  - destruct (String.eqb k k') eqn:E.
    + apply String.eqb_eq in E. now subst.
    + apply IH. destruct H as [H|H]; [|exact H].
      subst. rewrite String.eqb_refl in E. discriminate.
Qed.

Lemma days_nodup : NoDup PlannerAgent.days.
Proof.
  unfold PlannerAgent.days.
  repeat constructor; simpl; intros H;
    repeat (destruct H as [H|H]; [discriminate|]); exact H.
Qed.

(** The loop over [days] yields one key per day, in the order of [days]. *)
Lemma build_by_day (catalog : list Recipe.t) (user_profile : Profile.t)
    (preferences : Preferences.t) :
  Spec.build catalog user_profile preferences
  = map (fun day =>
           (day, PlannerAgent.daily_meals_for catalog preferences day))
      PlannerAgent.days.
Proof.
  unfold Spec.build, PlannerAgent._generate_mock_plan.
  cbn [PlannerAgent.meal_plan].
  rewrite (fold_dict_set_fresh
             (PlannerAgent.daily_meals_for catalog preferences)
             PlannerAgent.days []); [reflexivity|].
  exact days_nodup.
Qed.

(** What a slot contributes to the entries of a given slot name. *)
Lemma filter_append_slot (s : string) (daily_meals : list Meal.t)
    (candidates : list Recipe.t) (idx : nat) (slot time notes : string) :
  filter (Spec.in_slot s)
    (PlannerAgent.append_slot daily_meals candidates idx slot time notes)
  = filter (Spec.in_slot s) daily_meals
    ++ match candidates with
       | [] => []
       | first :: _ =>
           if String.eqb slot s
           then [PlannerAgent.meal_entry slot time
                   (nth idx candidates first) notes]
           else []
       end.
Proof.
  unfold PlannerAgent.append_slot. destruct candidates as [|first rest].
  - now rewrite app_nil_r.
  - rewrite filter_app. simpl. unfold Spec.in_slot at 2. simpl.
    destruct (String.eqb slot s); reflexivity.
Qed.

Lemma workout_for_day (day : string) :
  forall w, PlannerAgent._get_workout_for_day day = Some w ->
            Meal.meal w = Some "workout".
Proof.
  unfold PlannerAgent._get_workout_for_day. intros w.
  destruct (Py.dict_get PlannerAgent.workout_schedule day);
    [|discriminate].
  intros E. inversion E. reflexivity.
Qed.

(** The workout entries of a day are the one looked up for that day. *)
Lemma day_workouts (catalog : list Recipe.t) (preferences : Preferences.t)
    (day : string) :
  filter (Spec.in_slot "workout")
    (PlannerAgent.daily_meals_for catalog preferences day)
  = match PlannerAgent._get_workout_for_day day with
    | Some workout => [workout]
    | None => []
    end.
Proof.
  unfold PlannerAgent.daily_meals_for.
  destruct (PlannerAgent._get_workout_for_day day) as [w|] eqn:Ew.
  - rewrite filter_app, !filter_append_slot. simpl.
    unfold Spec.in_slot at 1. rewrite (workout_for_day day w Ew). simpl.
    repeat match goal with
           | |- context [match ?c with [] => _ | _ :: _ => _ end] =>
               destruct c
           end; reflexivity.
  - rewrite !filter_append_slot. simpl.
    repeat match goal with
           | |- context [match ?c with [] => _ | _ :: _ => _ end] =>
               destruct c
           end; reflexivity.
Qed.

(** Every index that [daily_meals_for] uses is inside its candidate list. *)
Lemma index_in_range (day : string) (candidates : list Recipe.t) :
  candidates <> [] ->
  (PlannerAgent.lunch_index day candidates < List.length candidates)%nat
  /\ ((if (1 <? List.length candidates)%nat then 1 else 0)
      < List.length candidates)%nat
  /\ (Py.list_index day PlannerAgent.days mod List.length candidates
      < List.length candidates)%nat.
Proof.
  intros Hne.
  assert (Hlen : (0 < List.length candidates)%nat)
    by (destruct candidates; [congruence | simpl; lia]).
  unfold PlannerAgent.lunch_index.
  destruct (1 <? List.length candidates)%nat eqn:E.
  - apply Nat.ltb_lt in E. repeat split.
    + destruct (negb _); lia.
    + lia.
    + apply Nat.mod_upper_bound. lia.
  - repeat split.
    + destruct (negb _); lia.
    + lia.
    + apply Nat.mod_upper_bound. lia.
Qed.

Lemma daily_meals_end_with_workout (catalog : list Recipe.t)
    (preferences : Preferences.t) (day : string) :
  In day PlannerAgent.days ->
  exists meals workout,
    PlannerAgent.daily_meals_for catalog preferences day = meals ++ [workout].
Proof.
  intros Hin. unfold PlannerAgent.daily_meals_for.
  assert (Hw : exists w, PlannerAgent._get_workout_for_day day = Some w).
  { unfold PlannerAgent.days in Hin. simpl in Hin.
    repeat (destruct Hin as [Hin|Hin];
            [subst day; eexists; reflexivity|]).
    contradiction. }
  destruct Hw as [w Hw]. rewrite Hw. eauto.
Qed.

Lemma build_days_nonempty (catalog : list Recipe.t)
    (user_profile : Profile.t) (preferences : Preferences.t) :
  Forall (fun day_meals => snd day_meals <> [])
    (Spec.build catalog user_profile preferences).
Proof.
  rewrite build_by_day. apply Forall_forall. intros [day meals] Hin.
  apply in_map_iff in Hin. destruct Hin as [d [E Hd]].
  inversion E; subst. simpl.
  destruct (daily_meals_end_with_workout catalog preferences day Hd)
    as [ms [w Hms]].
  rewrite Hms. intros Habs. now apply app_eq_nil in Habs.
Qed.

End PlannerFacts.

(** C8. For every catalog, profile and preferences, the week plan that
    [build] produces has exactly 7 day keys, in the order Monday to Sunday,
    and each day's entry sequence is non-empty whenever the catalog is
    non-empty. *)
Theorem build_seven_days_in_order :
  forall (catalog : list Recipe.t) (user_profile : Profile.t)
         (preferences : Preferences.t),
    let plan := Spec.build catalog user_profile preferences in
    Py.keys plan
    = ["Monday"; "Tuesday"; "Wednesday"; "Thursday"; "Friday"; "Saturday";
       "Sunday"]
    /\ List.length (Py.keys plan) = 7%nat
    /\ NoDup (Py.keys plan)
    /\ (catalog <> [] -> Forall (fun day_meals => snd day_meals <> []) plan).
Proof.
  intros catalog user_profile preferences plan.
  assert (Hkeys : Py.keys plan = PlannerAgent.days).
  { unfold plan. rewrite build_by_day. reflexivity. }
  split; [exact Hkeys|]. split; [now rewrite Hkeys|].
  split; [rewrite Hkeys; exact days_nodup|].
  intros _. apply build_days_nonempty.
Qed.

(** C10. For every catalog, profile and preferences, each of the 7 days of
    the week plan contains exactly one workout entry, the one fixed for that
    weekday (type, focus, duration, time); so every day's sequence is
    non-empty, and with an empty catalog each day holds its workout only. *)
Theorem one_workout_per_day :
  forall (catalog : list Recipe.t) (user_profile : Profile.t)
         (preferences : Preferences.t),
    map (fun day_meals =>
           (fst day_meals, filter (Spec.in_slot "workout") (snd day_meals)))
      (Spec.build catalog user_profile preferences)
    = Spec.week_workouts
    /\ Forall (fun day_meals => snd day_meals <> [])
         (Spec.build catalog user_profile preferences)
    /\ Spec.build [] user_profile preferences = Spec.week_workouts.
Proof.
  intros catalog user_profile preferences.
  split; [|split].
  - rewrite build_by_day. unfold PlannerAgent.days.
    cbn [map fst snd]. rewrite !day_workouts. reflexivity.
  - apply build_days_nonempty.
  - rewrite build_by_day. reflexivity.
Qed.

Section LunchFacts.

Lemma nth_error_in_range {A : Type} (l : list A) (n : nat) (d : A) :
  (n < List.length l)%nat -> nth_error l n = Some (nth n l d).
Proof.
  revert n. induction l as [|x l IH]; intros n H; simpl in H.
  - lia.
  - destruct n as [|n]; simpl; [reflexivity|]. apply IH. lia.
Qed.

Lemma lunch_index_source (day : string) (candidates : list Recipe.t) :
  PlannerAgent.lunch_index day candidates
  = Spec.source_lunch_index day (List.length candidates).
Proof.
  unfold PlannerAgent.lunch_index, Spec.source_lunch_index.
  destruct (String.eqb day "Monday"); simpl.
  - destruct (List.length candidates) as [|[|n]]; reflexivity.
  - destruct (List.length candidates <? 2)%nat; reflexivity.
Qed.

(** The lunch entries of a day: one, made from the indexed candidate, when
    there are candidates; none otherwise. *)
Lemma day_lunches (catalog : list Recipe.t) (preferences : Preferences.t)
    (day : string) :
  filter (Spec.in_slot "lunch")
    (PlannerAgent.daily_meals_for catalog preferences day)
  = match Spec.lunch_candidates catalog preferences with
    | [] => []
    | first :: _ =>
        [Spec.lunch_entry
           (nth (PlannerAgent.lunch_index day
                   (Spec.lunch_candidates catalog preferences))
              (Spec.lunch_candidates catalog preferences) first)]
    end.
Proof.
  unfold PlannerAgent.daily_meals_for, Spec.lunch_candidates,
    Spec.lunch_entry.
  generalize (PlannerAgent.search catalog preferences "breakfast" 500).
  generalize (PlannerAgent.search catalog preferences "snack" 400).
  generalize (PlannerAgent.search catalog preferences "snack" 450).
  generalize (PlannerAgent.search catalog preferences "dinner" 650).
  generalize (PlannerAgent.search catalog preferences "lunch" 700).
  intros ls ds es ss bs.
  assert (Hw : forall l,
             filter (Spec.in_slot "lunch")
               match PlannerAgent._get_workout_for_day day with
               | Some workout => l ++ [workout]
               | None => l
               end
             = filter (Spec.in_slot "lunch") l).
  { intros l.
    destruct (PlannerAgent._get_workout_for_day day) as [w|] eqn:Ew;
      [|reflexivity].
    rewrite filter_app. simpl. unfold Spec.in_slot at 2.
    rewrite (workout_for_day day w Ew). simpl. apply app_nil_r. }
  rewrite Hw, !filter_append_slot. simpl.
  destruct bs, ss, es, ds, ls; reflexivity.
Qed.

(** With the index of the source, the lunch statement holds. *)
Lemma lunch_takes_source_index (catalog : list Recipe.t)
    (user_profile : Profile.t) (preferences : Preferences.t) :
  Spec.lunch_takes Spec.source_lunch_index catalog user_profile preferences.
Proof.
  intros day Hday Hne.
  exists (PlannerAgent.daily_meals_for catalog preferences day).
  destruct (Spec.lunch_candidates catalog preferences) as [|first rest] eqn:E;
    [congruence|].
  exists (nth (PlannerAgent.lunch_index day (first :: rest)) (first :: rest)
            first).
  split; [|split].
  - rewrite build_by_day. now apply dict_get_map.
  - rewrite <- lunch_index_source.
    apply nth_error_in_range.
    apply (index_in_range day (first :: rest)). discriminate.
  - rewrite day_lunches, E. reflexivity.
Qed.

End LunchFacts.

(** C2, as amended.  On every day of the week with lunch candidates, the
    lunch entry of the plan is made from candidate 0, except on Monday,
    where it is made from candidate 1; with fewer than 2 candidates it is
    candidate 0 on every day. *)
Theorem lunch_index_by_day :
  forall (catalog : list Recipe.t) (user_profile : Profile.t)
         (preferences : Preferences.t) (day : string),
    In day PlannerAgent.days ->
    Spec.lunch_candidates catalog preferences <> [] ->
    exists meals recipe,
      Py.dict_get (Spec.build catalog user_profile preferences) day
      = Some meals
      /\ nth_error (Spec.lunch_candidates catalog preferences)
           (if (List.length (Spec.lunch_candidates catalog preferences) <? 2)%nat
            then 0%nat
            else if String.eqb day "Monday" then 1%nat else 0%nat)
         = Some recipe
      /\ filter (Spec.in_slot "lunch") meals = [Spec.lunch_entry recipe].
Proof.
  intros catalog user_profile preferences day Hday Hne.
  exact (lunch_takes_source_index catalog user_profile preferences day Hday
           Hne).
Qed.

Lemma lunch_index_by_day_witness :
  In "Monday" PlannerAgent.days
  /\ Spec.lunch_candidates Example.two_lunches Preferences.empty <> []
  /\ exists meals recipe,
       Py.dict_get
         (Spec.build Example.two_lunches Profile.empty Preferences.empty)
         "Monday"
       = Some meals
       /\ nth_error
            (Spec.lunch_candidates Example.two_lunches Preferences.empty) 1
          = Some recipe
       /\ filter (Spec.in_slot "lunch") meals = [Spec.lunch_entry recipe].
Proof.
  assert (Hday : In "Monday" PlannerAgent.days) by (now left).
  assert (Hne : Spec.lunch_candidates Example.two_lunches Preferences.empty
                <> []) by discriminate.
  split; [exact Hday|]. split; [exact Hne|].
  exact (lunch_index_by_day Example.two_lunches Profile.empty
           Preferences.empty "Monday" Hday Hne).
Defined.

(** C2, as stated, fails: with the two-lunch catalog the plan's Tuesday lunch
    is candidate 0 ("dal"), where the statement wants candidate 1. *)
Lemma lunch_index_as_stated_fails :
  ~ Spec.lunch_takes Spec.stated_lunch_index Example.two_lunches
      Profile.empty Preferences.empty.
Proof.
  intros H.
  destruct (H "Tuesday") as [meals [recipe [Hmeals [Hnth Hlunch]]]].
  - right. now left.
  - discriminate.
  - vm_compute in Hmeals. inversion Hmeals; subst meals. clear Hmeals.
    vm_compute in Hnth. inversion Hnth; subst recipe. clear Hnth.
    vm_compute in Hlunch. discriminate Hlunch.
Qed.

(** ** OrchestratorAgent *)

Section OrchestratorFacts.

Lemma dict_get_set_same {V : Type} (d : list (string * V)) (k : string)
    (v : V) :
  Py.dict_get (Py.dict_set d k v) k = Some v.
Proof.
  induction d as [|[k' v'] d IH]; simpl.
  - now rewrite String.eqb_refl.
  - destruct (String.eqb k k') eqn:E; simpl.
    + now rewrite String.eqb_refl.
    + now rewrite E.
Qed.

Lemma override_has {A : Type} (old new : option A) :
  Py.has (Py.override old new) = Py.has old || Py.has new.
Proof. destruct old, new; reflexivity. Qed.

(** An updated dict is empty only when both dicts are. *)
Lemma truthy_update (p q : Profile.t) :
  Profile.truthy p = false -> Profile.truthy q = false ->
  Profile.truthy (Profile.update p q) = false.
Proof.
  unfold Profile.truthy, Profile.update. cbn [Profile.name Profile.age
    Profile.height_cm Profile.weight_kg Profile.goal Profile.activity_level
    Profile.wake_time Profile.sleep_time].
  rewrite !override_has, !orb_false_iff.
  intros Hp Hq. intuition (rewrite ?orb_false_iff; auto).
Qed.

(** A failed session: created, marked failed, no result. *)
Lemma failed_session (sessions : SessionService.t) (uuid err : string) :
  exists s,
    SessionService.get_session
      (SessionService.fail_session
         (SessionService.create_session sessions uuid) uuid err) uuid
    = Some s
    /\ SessionService.status s = "failed"
    /\ SessionService.result s = None
    /\ SessionService.error s = Some err.
Proof.
  unfold SessionService.get_session, SessionService.fail_session,
    SessionService.create_session.
  rewrite dict_get_set_same. eexists. rewrite dict_get_set_same.
  repeat split; reflexivity.
Qed.

(** The profile that [create_meal_plan] tests, and what the test leads to
    when that profile is empty. *)
Lemma create_meal_plan_empty_profile (self : OrchestratorAgent.t)
    (env : OrchestratorAgent.Env)
    (user_input : option OrchestratorAgent.UserInput) :
  Profile.truthy (MemoryBank.get_user_profile
                    (OrchestratorAgent.memory_bank self)) = false ->
  Profile.truthy (Spec.input_profile user_input) = false ->
  exists memory_bank,
    OrchestratorAgent.create_meal_plan self env user_input
    = (OrchestratorAgent.mk memory_bank
         (SessionService.fail_session
            (SessionService.create_session
               (OrchestratorAgent.session_service self)
               (OrchestratorAgent.uuid4 env))
            (OrchestratorAgent.uuid4 env)
            "User profile not found. Please set up profile first.")
         (OrchestratorAgent.recipe_worker self)
         (OrchestratorAgent.use_real_llm self)
         (OrchestratorAgent.nutrition_data self),
       OrchestratorAgent.Raised Spec.missing_profile)
    /\ MemoryBank.get_history memory_bank
       = MemoryBank.get_history (OrchestratorAgent.memory_bank self)
    /\ MemoryBank.file memory_bank
       = MemoryBank.file (OrchestratorAgent.memory_bank self).
Proof.
  intros Hstored Hinput. unfold OrchestratorAgent.create_meal_plan.
  cbv zeta.
  destruct (OrchestratorAgent.input_truthy user_input) eqn:Et.
  - destruct user_input as [ui|]; [|discriminate].
    simpl in Hinput. cbn [Py.get].
    match goal with
    | |- context [negb (Profile.truthy ?p)] =>
        replace (Profile.truthy p) with false
          by (symmetry; exact (truthy_update _ _ Hstored Hinput))
    end.
    cbn [negb]. eexists. split; [reflexivity|]. split; reflexivity.
  - match goal with
    | |- context [negb (Profile.truthy ?p)] =>
        replace (Profile.truthy p) with false
          by (symmetry; exact Hstored)
    end.
    cbn [negb]. eexists. split; [reflexivity|]. split; reflexivity.
Qed.

End OrchestratorFacts.

(** C5. When [create_meal_plan] is called with an empty profile (none stored
    and none passed in), it raises the missing-profile error to the caller;
    the history is the same after the call as before it, and so is its
    length; the memory file is not written; the session of the call is
    marked failed and holds no plan record. *)
Theorem empty_profile_raises_without_history :
  forall (self : OrchestratorAgent.t) (env : OrchestratorAgent.Env)
         (user_input : option OrchestratorAgent.UserInput),
    Profile.truthy (MemoryBank.get_user_profile
                      (OrchestratorAgent.memory_bank self)) = false ->
    Profile.truthy (Spec.input_profile user_input) = false ->
    let after := fst (OrchestratorAgent.create_meal_plan self env user_input) in
    let outcome :=
      snd (OrchestratorAgent.create_meal_plan self env user_input) in
    outcome = OrchestratorAgent.Raised Spec.missing_profile
    /\ MemoryBank.get_history (OrchestratorAgent.memory_bank after)
       = MemoryBank.get_history (OrchestratorAgent.memory_bank self)
    /\ List.length
         (MemoryBank.get_history (OrchestratorAgent.memory_bank after))
       = List.length
           (MemoryBank.get_history (OrchestratorAgent.memory_bank self))
    /\ MemoryBank.file (OrchestratorAgent.memory_bank after)
       = MemoryBank.file (OrchestratorAgent.memory_bank self)
    /\ exists s,
         SessionService.get_session
           (OrchestratorAgent.session_service after)
           (OrchestratorAgent.uuid4 env)
         = Some s
         /\ SessionService.status s = "failed"
         /\ SessionService.result s = None.
Proof.
  intros self env user_input Hstored Hinput after outcome.
  destruct (create_meal_plan_empty_profile self env user_input Hstored
              Hinput) as [memory_bank [Hrun [Hhist Hfile]]].
  unfold after, outcome. rewrite Hrun.
  cbn [fst snd OrchestratorAgent.memory_bank
         OrchestratorAgent.session_service].
  split; [reflexivity|]. split; [exact Hhist|].
  split; [now rewrite Hhist|]. split; [exact Hfile|].
  destruct (failed_session (OrchestratorAgent.session_service self)
              (OrchestratorAgent.uuid4 env)
              "User profile not found. Please set up profile first.")
    as [s [Hs [Hstatus [Hresult _]]]].
  exists s. auto.
Qed.

Lemma empty_profile_raises_without_history_witness :
  Profile.truthy (MemoryBank.get_user_profile
                    (OrchestratorAgent.memory_bank
                       Example.fresh_orchestrator)) = false
  /\ Profile.truthy (Spec.input_profile None) = false
  /\ snd (OrchestratorAgent.create_meal_plan Example.fresh_orchestrator
            Example.env None)
     = OrchestratorAgent.Raised Spec.missing_profile
  /\ List.length
       (MemoryBank.get_history
          (OrchestratorAgent.memory_bank
             (fst (OrchestratorAgent.create_meal_plan
                     Example.fresh_orchestrator Example.env None))))
     = 0%nat.
Proof.
  split; [reflexivity|]. split; [reflexivity|].
  pose proof (empty_profile_raises_without_history
                Example.fresh_orchestrator Example.env None eq_refl eq_refl)
    as H.
  split; [exact (proj1 H) | exact (proj1 (proj2 (proj2 H)))].
Defined.

(** By contrast, with a stored profile the call returns a plan record and
    appends exactly one history entry, which is saved to the memory file. *)
Lemma stored_profile_returns_plan (self : OrchestratorAgent.t)
    (env : OrchestratorAgent.Env) :
  Profile.truthy (MemoryBank.get_user_profile
                    (OrchestratorAgent.memory_bank self)) = true ->
  let after := fst (OrchestratorAgent.create_meal_plan self env None) in
  exists final_result,
    snd (OrchestratorAgent.create_meal_plan self env None)
    = OrchestratorAgent.Returned final_result
    /\ PlanRecord.plan_id final_result
       = ("plan_" ++ OrchestratorAgent.now_plan_stamp env)%string
    /\ List.length
         (MemoryBank.get_history (OrchestratorAgent.memory_bank after))
       = S (List.length
              (MemoryBank.get_history (OrchestratorAgent.memory_bank self)))
    /\ MemoryBank.file (OrchestratorAgent.memory_bank after)
       = MemoryBank.data (OrchestratorAgent.memory_bank after).
Proof.
  intros Hstored after. unfold after, OrchestratorAgent.create_meal_plan.
  cbv zeta. cbn [OrchestratorAgent.input_truthy].
  match goal with
  | |- context [negb (Profile.truthy ?p)] =>
      replace (Profile.truthy p) with true by (symmetry; exact Hstored)
  end.
  cbn [negb fst snd]. eexists. split; [reflexivity|].
  split; [reflexivity|]. split; [|reflexivity].
  unfold OrchestratorAgent.with_sessions, OrchestratorAgent.with_memory,
    MemoryBank.add_plan_to_history, MemoryBank._save, MemoryBank.get_history.
  cbn [OrchestratorAgent.memory_bank MemoryBank.data MemoryBank.history].
  rewrite length_app. simpl. lia.
Qed.

Lemma build_seven_days_in_order_witness :
  Example.two_lunches <> []
  /\ Forall (fun day_meals => snd day_meals <> [])
       (Spec.build Example.two_lunches Profile.empty Preferences.empty).
Proof.
  assert (Hne : Example.two_lunches <> []) by discriminate.
  split; [exact Hne|].
  exact (proj2 (proj2 (proj2 (build_seven_days_in_order Example.two_lunches
                                Profile.empty Preferences.empty))) Hne).
Defined.

(** The lunches of the week built from the two-lunch catalog: candidate 1 on
    Monday, candidate 0 on the other days. *)
Example lunches_of_two_lunch_week :
  map (fun day_meals =>
         (fst day_meals,
          map Meal.recipe_id
            (filter (Spec.in_slot "lunch") (snd day_meals))))
    (Spec.build Example.two_lunches Profile.empty Preferences.empty)
  = [("Monday", [Some "pulao"]); ("Tuesday", [Some "dal"]);
     ("Wednesday", [Some "dal"]); ("Thursday", [Some "dal"]);
     ("Friday", [Some "dal"]); ("Saturday", [Some "dal"]);
     ("Sunday", [Some "dal"])]
  /\ map Recipe.id
       (Spec.lunch_candidates Example.two_lunches Preferences.empty)
     = ["dal"; "pulao"].
Proof. split; reflexivity. Qed.


(** * Further properties of the code *)

(** ** RecipeWorker: counts, completeness, best match, lookup by id *)

Section SearchFacts.

Variables (catalog : list Recipe.t) (slot : string)
          (exclude_allergens preferred_cuisines : list string)
          (gut_friendly_only : bool) (calorie_target : Q).

Let context : RecipeWorker.Context :=
  Spec.query slot exclude_allergens preferred_cuisines gut_friendly_only
    calorie_target.

Let matching : list Recipe.t :=
  filter
    (Spec.matches slot exclude_allergens preferred_cuisines gut_friendly_only)
    catalog.

Lemma total_found_matching :
  RecipeWorker.total_found (RecipeWorker.execute catalog context)
  = List.length matching.
Proof.
  unfold RecipeWorker.execute, context, Spec.query. simpl.
  rewrite collect_matches. simpl.
  apply Permutation_length, sort_perm.
Qed.

Lemma found_in_sorted :
  RecipeWorker.recipes (RecipeWorker.execute catalog context)
  = firstn 5 (Py.sort (RecipeWorker.distance calorie_target) Py.Qltb matching).
Proof. apply execute_query. Qed.

End SearchFacts.

(** X1. [total_found] is the number of catalog recipes that pass the filter,
    the returned list holds the smaller of 5 and that number, and it is
    empty exactly when nothing passes. *)
Theorem total_found_counts_matches :
  forall (catalog : list Recipe.t) (slot : string)
         (exclude_allergens preferred_cuisines : list string)
         (gut_friendly_only : bool) (calorie_target : Q),
    let result :=
      RecipeWorker.execute catalog
        (Spec.query slot exclude_allergens preferred_cuisines
           gut_friendly_only calorie_target) in
    RecipeWorker.total_found result
    = List.length
        (filter
           (Spec.matches slot exclude_allergens preferred_cuisines
              gut_friendly_only)
           catalog)
    /\ List.length (RecipeWorker.recipes result)
       = Nat.min 5 (RecipeWorker.total_found result)
    /\ (RecipeWorker.recipes result = []
        <-> RecipeWorker.total_found result = 0%nat).
Proof.
  intros catalog slot excl pref gut target result.
  assert (Htotal := total_found_matching catalog slot excl pref gut target).
  assert (Hfound := found_in_sorted catalog slot excl pref gut target).
  fold result in Htotal, Hfound.
  assert (Hlen : List.length (RecipeWorker.recipes result)
                 = Nat.min 5 (RecipeWorker.total_found result)).
  { rewrite Hfound, length_firstn, Htotal.
    f_equal. apply Permutation_length, sort_perm. }
  split; [exact Htotal|]. split; [exact Hlen|].
  rewrite <- length_zero_iff_nil, Hlen. lia.
Qed.

(** X2. When at most five recipes pass the filter, the result is a
    rearrangement of all of them: none is lost and none is repeated. *)
Theorem few_matches_all_returned :
  forall (catalog : list Recipe.t) (slot : string)
         (exclude_allergens preferred_cuisines : list string)
         (gut_friendly_only : bool) (calorie_target : Q),
    (List.length
       (filter
          (Spec.matches slot exclude_allergens preferred_cuisines
             gut_friendly_only)
          catalog) <= 5)%nat ->
    Permutation
      (RecipeWorker.recipes
         (RecipeWorker.execute catalog
            (Spec.query slot exclude_allergens preferred_cuisines
               gut_friendly_only calorie_target)))
      (filter
         (Spec.matches slot exclude_allergens preferred_cuisines
            gut_friendly_only)
         catalog).
Proof.
  intros catalog slot excl pref gut target Hfew.
  rewrite (found_in_sorted catalog slot excl pref gut target).
  rewrite firstn_all2; [apply sort_perm|].
  rewrite (Permutation_length (sort_perm _ _)). exact Hfew.
Qed.

Lemma few_matches_all_returned_witness :
  (List.length
     (filter (Spec.matches "lunch" [] [] false) Example.two_lunches) <= 5)%nat
  /\ Permutation
       (RecipeWorker.recipes
          (RecipeWorker.execute Example.two_lunches
             (Spec.query "lunch" [] [] false 600)))
       (filter (Spec.matches "lunch" [] [] false) Example.two_lunches).
Proof.
  assert (Hfew : (List.length
                    (filter (Spec.matches "lunch" [] [] false)
                       Example.two_lunches) <= 5)%nat)
    by (vm_compute; lia).
  split; [exact Hfew|].
  exact (few_matches_all_returned Example.two_lunches "lunch" [] [] false 600
           Hfew).
Defined.

(** X3. The first returned recipe is a best match: no recipe of the catalog
    that passes the filter is nearer to the calorie target. *)
Theorem first_recipe_is_nearest :
  forall (catalog : list Recipe.t) (slot : string)
         (exclude_allergens preferred_cuisines : list string)
         (gut_friendly_only : bool) (calorie_target : Q)
         (best : Recipe.t) (rest : list Recipe.t),
    RecipeWorker.recipes
      (RecipeWorker.execute catalog
         (Spec.query slot exclude_allergens preferred_cuisines
            gut_friendly_only calorie_target))
    = best :: rest ->
    forall r,
      In r catalog ->
      Spec.satisfies_filters slot exclude_allergens preferred_cuisines
        gut_friendly_only r ->
      (RecipeWorker.distance calorie_target best
       <= RecipeWorker.distance calorie_target r)%Q.
Proof.
  intros catalog slot excl pref gut target best rest Hfound r Hin Hr.
  rewrite (found_in_sorted catalog slot excl pref gut target) in Hfound.
  pose proof (sort_sorted (RecipeWorker.distance target)
                (filter (Spec.matches slot excl pref gut) catalog)) as Hs.
  assert (Hr' : In r (Py.sort (RecipeWorker.distance target) Py.Qltb
                        (filter (Spec.matches slot excl pref gut) catalog))).
  { apply (Permutation_in _ (Permutation_sym (sort_perm _ _))).
    apply filter_In. split; [exact Hin|].
    now apply matches_criteria_iff. }
  destruct (Py.sort (RecipeWorker.distance target) Py.Qltb
              (filter (Spec.matches slot excl pref gut) catalog))
    as [|h sorted]; [contradiction|].
  simpl in Hfound. inversion Hfound; subst h.
  inversion Hs as [|? ? _ Hall]; subst.
  destruct Hr' as [E|Hr'].
  - subst r. apply Qle_refl.
  - rewrite Forall_forall in Hall. exact (Hall r Hr').
Qed.

Lemma first_recipe_is_nearest_witness :
  (RecipeWorker.distance 600 (Example.lunch "pulao" 600)
   <= RecipeWorker.distance 600 (Example.lunch "dal" 700))%Q.
Proof.
  apply (first_recipe_is_nearest Example.two_lunches "lunch" [] [] false 600
           (Example.lunch "pulao" 600) [Example.lunch "dal" 700]).
  - reflexivity.
  - now left.
  - apply matches_criteria_iff. reflexivity.
Defined.

(** X4. [get_recipe_by_id] returns the first recipe of the catalog with the
    given id, and [None] exactly when no recipe has it. *)
Theorem get_recipe_by_id_first :
  forall (catalog : list Recipe.t) (recipe_id : string),
    match RecipeWorker.get_recipe_by_id catalog recipe_id with
    | Some recipe =>
        exists before after,
          catalog = before ++ recipe :: after
          /\ Recipe.id recipe = recipe_id
          /\ Forall (fun r => Recipe.id r <> recipe_id) before
    | None => Forall (fun r => Recipe.id r <> recipe_id) catalog
    end.
Proof.
  intros catalog recipe_id. induction catalog as [|r catalog IH]; simpl.
  - constructor.
  - destruct (String.eqb (Recipe.id r) recipe_id) eqn:E.
    + apply String.eqb_eq in E. exists [], catalog. auto.
    + apply String.eqb_neq in E.
      destruct (RecipeWorker.get_recipe_by_id catalog recipe_id) as [found|].
      * destruct IH as [before [after [Hcat [Hid Hbefore]]]].
        exists (r :: before), after. rewrite Hcat. auto.
      * constructor; assumption.
Qed.

(** ** PlannerAgent: layout of a day, slot selection, filters, times *)

Section DayFacts.

Variables (catalog : list Recipe.t) (preferences : Preferences.t).

Lemma workout_of_weekday (day : string) :
  In day PlannerAgent.days ->
  exists w,
    PlannerAgent._get_workout_for_day day = Some w
    /\ Meal.meal w = Some "workout"
    /\ exists t, Meal.time w = Some t /\ Spec.valid_hhmm t = true.
Proof.
  unfold PlannerAgent.days. simpl. intros Hin.
  repeat (destruct Hin as [Hin|Hin];
          [subst day; eexists; split; [reflexivity|];
           split; [reflexivity|]; eexists; split; reflexivity|]).
  contradiction.
Qed.

Lemma in_append_slot (m : Meal.t) (daily_meals : list Meal.t)
    (candidates : list Recipe.t) (idx : nat) (slot time notes : string) :
  In m (PlannerAgent.append_slot daily_meals candidates idx slot time notes) ->
  In m daily_meals
  \/ exists r, In r candidates /\ m = PlannerAgent.meal_entry slot time r notes.
Proof.
  unfold PlannerAgent.append_slot.
  destruct candidates as [|first rest]; [now left|].
  intros Hin. apply in_app_or in Hin. destruct Hin as [Hin|[E|[]]];
    [now left|].
  right. exists (nth idx (first :: rest) first). split; [|now symmetry].
  destruct (Nat.lt_ge_cases idx (List.length (first :: rest))) as [Hlt|Hge].
  - now apply nth_In.
  - rewrite nth_overflow by exact Hge. now left.
Qed.

(** Every entry of a day is that day's workout or a meal entry made from a
    candidate of its slot, at the slot's fixed time. *)
Lemma in_daily_meals (day : string) (m : Meal.t) :
  In m (PlannerAgent.daily_meals_for catalog preferences day) ->
  PlannerAgent._get_workout_for_day day = Some m
  \/ exists slot time notes r,
       In (slot, time)
         [("breakfast", "08:00"); ("snack", "11:00"); ("lunch", "13:30");
          ("evening_snack", "17:00"); ("dinner", "20:00")]
       /\ In r (Spec.slot_candidates catalog preferences slot)
       /\ m = PlannerAgent.meal_entry slot time r notes.
Proof.
  unfold PlannerAgent.daily_meals_for. intros Hin.
  destruct (PlannerAgent._get_workout_for_day day) as [w|].
  - apply in_app_or in Hin. destruct Hin as [Hin|[E|[]]];
      [|left; now subst].
    right.
    repeat (apply in_append_slot in Hin;
            destruct Hin as [Hin|[r [Hr E]]];
            [|do 4 eexists; split; [|split; [|exact E]];
              [simpl; auto 10 | exact Hr]]).
    contradiction.
  - right.
    repeat (apply in_append_slot in Hin;
            destruct Hin as [Hin|[r [Hr E]]];
            [|do 4 eexists; split; [|split; [|exact E]];
              [simpl; auto 10 | exact Hr]]).
    contradiction.
Qed.


End DayFacts.

(** X5. On every day of the week the entries come in the order breakfast,
    snack, lunch, evening snack, dinner, workout; a meal slot appears once
    when its search found candidates and is skipped, without error, when it
    found none. *)
Theorem day_layout :
  forall (catalog : list Recipe.t) (preferences : Preferences.t)
         (day : string),
    In day PlannerAgent.days ->
    map Meal.meal (PlannerAgent.daily_meals_for catalog preferences day)
    = map Some
        (filter
           (fun slot =>
              Py.truthy (Spec.slot_candidates catalog preferences slot))
           Spec.meal_slots)
      ++ [Some "workout"].
Proof.
  intros catalog preferences day Hday.
  destruct (workout_of_weekday day Hday) as [w [Hw [Hmeal _]]].
  unfold PlannerAgent.daily_meals_for, Spec.meal_slots, Spec.slot_candidates.
  rewrite Hw.
  generalize (PlannerAgent.lunch_index day
                (PlannerAgent.search catalog preferences "lunch" 700)).
  generalize (Py.list_index day PlannerAgent.days).
  generalize (PlannerAgent.search catalog preferences "breakfast" 500).
  generalize (PlannerAgent.search catalog preferences "snack" 400).
  generalize (PlannerAgent.search catalog preferences "snack" 450).
  generalize (PlannerAgent.search catalog preferences "dinner" 650).
  generalize (PlannerAgent.search catalog preferences "lunch" 700).
  intros ls ds es ss bs i j.
  rewrite map_app. cbn [map]. rewrite Hmeal.
  destruct bs, ss, ls, es, ds; reflexivity.
Qed.

Lemma day_layout_witness :
  In "Friday" PlannerAgent.days
  /\ map Meal.meal
       (PlannerAgent.daily_meals_for Example.two_lunches Preferences.empty
          "Friday")
     = [Some "lunch"; Some "workout"].
Proof.
  assert (Hday : In "Friday" PlannerAgent.days)
    by (unfold PlannerAgent.days; simpl; auto 10).
  split; [exact Hday|].
  exact (day_layout Example.two_lunches Preferences.empty "Friday" Hday).
Defined.

Section SlotFacts.

Variables (catalog : list Recipe.t) (preferences : Preferences.t).

(** The entries of one meal slot, whatever indices the slots use. *)
Lemma slot_entries (day slot : string) :
  In slot Spec.meal_slots ->
  filter (Spec.in_slot slot)
    (PlannerAgent.daily_meals_for catalog preferences day)
  = match Spec.slot_candidates catalog preferences slot with
    | [] => []
    | first :: _ =>
        let candidates := Spec.slot_candidates catalog preferences slot in
        if String.eqb slot "breakfast"
        then [PlannerAgent.meal_entry "breakfast" "08:00"
                (nth 0 candidates first) "High-protein breakfast for energy"]
        else if String.eqb slot "snack"
        then [PlannerAgent.meal_entry "snack" "11:00"
                (nth 0 candidates first) "Mid-morning snack"]
        else if String.eqb slot "lunch"
        then [PlannerAgent.meal_entry "lunch" "13:30"
                (nth (PlannerAgent.lunch_index day candidates) candidates
                   first)
                "Protein-rich lunch"]
        else if String.eqb slot "evening_snack"
        then [PlannerAgent.meal_entry "evening_snack" "17:00"
                (nth (if (1 <? List.length candidates)%nat then 1 else 0)
                   candidates first)
                "Pre-workout fuel"]
        else [PlannerAgent.meal_entry "dinner" "20:00"
                (nth (Py.list_index day PlannerAgent.days
                      mod List.length candidates)
                   candidates first)
                "Light dinner for gut health"]
    end.
Proof.
  intros Hslot.
  unfold PlannerAgent.daily_meals_for, Spec.slot_candidates.
  assert (Hw : forall l,
             filter (Spec.in_slot slot)
               match PlannerAgent._get_workout_for_day day with
               | Some workout => l ++ [workout]
               | None => l
               end
             = filter (Spec.in_slot slot) l).
  { intros l.
    destruct (PlannerAgent._get_workout_for_day day) as [w|] eqn:Ew;
      [|reflexivity].
    rewrite filter_app. simpl. unfold Spec.in_slot at 2.
    rewrite (workout_for_day day w Ew).
    unfold Spec.meal_slots in Hslot. simpl in Hslot.
    repeat (destruct Hslot as [Hslot|Hslot];
            [subst slot; simpl; apply app_nil_r|]).
    contradiction. }
  rewrite Hw, !filter_append_slot. cbn [filter app].
  generalize (PlannerAgent.search catalog preferences "breakfast" 500).
  generalize (PlannerAgent.search catalog preferences "snack" 400).
  generalize (PlannerAgent.search catalog preferences "snack" 450).
  generalize (PlannerAgent.search catalog preferences "dinner" 650).
  generalize (PlannerAgent.search catalog preferences "lunch" 700).
  intros ls ds es ss bs.
  unfold Spec.meal_slots in Hslot. simpl in Hslot.
  repeat (destruct Hslot as [Hslot|Hslot];
          [subst slot; cbn [String.eqb Ascii.eqb Bool.eqb];
           destruct bs, ss, ls, es, ds; reflexivity|]).
  contradiction.
Qed.

Lemma list_index_weekday (i : nat) :
  (i < 7)%nat -> Py.list_index (nth i PlannerAgent.days "") PlannerAgent.days = i.
Proof.
  intros Hi.
  do 7 (destruct i as [|i]; [reflexivity|]). lia.
Qed.

End SlotFacts.

(** X6. Breakfast and the morning snack are made from the top-ranked
    candidate of their searches; the evening snack is made from the second
    candidate of its own search when there is one and from the only
    candidate otherwise; and this is the same on every day. *)
Theorem top_ranked_breakfast_and_snacks :
  forall (catalog : list Recipe.t) (preferences : Preferences.t)
         (day : string),
    let meals := PlannerAgent.daily_meals_for catalog preferences day in
    filter (Spec.in_slot "breakfast") meals
    = match PlannerAgent.search catalog preferences "breakfast" 500 with
      | [] => []
      | top :: _ =>
          [PlannerAgent.meal_entry "breakfast" "08:00" top
             "High-protein breakfast for energy"]
      end
    /\ filter (Spec.in_slot "snack") meals
       = match PlannerAgent.search catalog preferences "snack" 400 with
         | [] => []
         | top :: _ =>
             [PlannerAgent.meal_entry "snack" "11:00" top "Mid-morning snack"]
         end
    /\ filter (Spec.in_slot "evening_snack") meals
       = match PlannerAgent.search catalog preferences "snack" 450 with
         | [] => []
         | [only] =>
             [PlannerAgent.meal_entry "evening_snack" "17:00" only
                "Pre-workout fuel"]
         | _ :: second :: _ =>
             [PlannerAgent.meal_entry "evening_snack" "17:00" second
                "Pre-workout fuel"]
         end.
Proof.
  intros catalog preferences day meals. unfold meals.
  split; [|split].
  - rewrite (slot_entries catalog preferences day "breakfast")
      by (unfold Spec.meal_slots; simpl; auto).
    unfold Spec.slot_candidates. cbn [String.eqb Ascii.eqb Bool.eqb].
    destruct (PlannerAgent.search catalog preferences "breakfast" 500);
      reflexivity.
  - rewrite (slot_entries catalog preferences day "snack")
      by (unfold Spec.meal_slots; simpl; auto).
    unfold Spec.slot_candidates. cbn [String.eqb Ascii.eqb Bool.eqb].
    destruct (PlannerAgent.search catalog preferences "snack" 400);
      reflexivity.
  - rewrite (slot_entries catalog preferences day "evening_snack")
      by (unfold Spec.meal_slots; simpl; auto 10).
    unfold Spec.slot_candidates. cbn [String.eqb Ascii.eqb Bool.eqb].
    destruct (PlannerAgent.search catalog preferences "snack" 450)
      as [|first [|second rest]]; reflexivity.
Qed.

(** X7. Dinner rotates through its candidates: the [i]-th day of the week
    (Monday is day 0) takes candidate [i mod n] of the [n] dinner
    candidates, and always stays inside the candidate list. *)
Theorem dinner_rotates :
  forall (catalog : list Recipe.t) (preferences : Preferences.t) (i : nat),
    (i < 7)%nat ->
    let dinners := PlannerAgent.search catalog preferences "dinner" 650 in
    filter (Spec.in_slot "dinner")
      (PlannerAgent.daily_meals_for catalog preferences
         (nth i PlannerAgent.days ""))
    = match nth_error dinners (i mod List.length dinners) with
      | Some recipe =>
          [PlannerAgent.meal_entry "dinner" "20:00" recipe
             "Light dinner for gut health"]
      | None => []
      end
    /\ (dinners <> [] ->
        nth_error dinners (i mod List.length dinners) <> None).
Proof.
  intros catalog preferences i Hi dinners.
  rewrite (slot_entries catalog preferences (nth i PlannerAgent.days "")
             "dinner") by (unfold Spec.meal_slots; simpl; auto 10).
  unfold Spec.slot_candidates. cbn [String.eqb Ascii.eqb Bool.eqb].
  rewrite (list_index_weekday i Hi). fold dinners.
  destruct dinners as [|first rest] eqn:E.
  - split; [|congruence]. simpl. now destruct i.
  - assert (Hlt : (i mod List.length (first :: rest)
                   < List.length (first :: rest))%nat)
      by (apply Nat.mod_upper_bound; discriminate).
    rewrite (nth_error_in_range (first :: rest) _ first Hlt).
    split; [reflexivity | discriminate].
Qed.

Lemma dinner_rotates_witness :
  (3 < 7)%nat
  /\ map Meal.recipe_id
       (filter (Spec.in_slot "dinner")
          (PlannerAgent.daily_meals_for Example.three_dinners
             Preferences.empty "Thursday"))
     = [Some "khichdi"].
Proof.
  assert (Hi : (3 < 7)%nat) by lia.
  split; [exact Hi|].
  exact (f_equal (map Meal.recipe_id)
           (proj1 (dinner_rotates Example.three_dinners Preferences.empty 3
                     Hi))).
Defined.

(** The dinners of a week over three candidates. *)
Example dinners_of_three_dinner_week :
  map (fun day_meals =>
         map Meal.recipe_id (filter (Spec.in_slot "dinner") (snd day_meals)))
    (Spec.build Example.three_dinners Profile.empty Preferences.empty)
  = [[Some "khichdi"]; [Some "curry"]; [Some "biryani"]; [Some "khichdi"];
     [Some "curry"]; [Some "biryani"]; [Some "khichdi"]].
Proof. reflexivity. Qed.



(** X9. Every entry of the built week plan, meal or workout, carries a
    [time] that is a zero-padded 24-hour "HH:MM" string. *)
Theorem planned_times_are_hhmm :
  forall (catalog : list Recipe.t) (user_profile : Profile.t)
         (preferences : Preferences.t) (day : string) (meals : list Meal.t)
         (m : Meal.t),
    In (day, meals) (Spec.build catalog user_profile preferences) ->
    In m meals ->
    exists time, Meal.time m = Some time /\ Spec.valid_hhmm time = true.
Proof.
  intros catalog user_profile preferences day meals m Hday Hm.
  rewrite build_by_day in Hday. apply in_map_iff in Hday.
  destruct Hday as [d [E Hd]]. inversion E; subst d meals. clear E.
  apply in_daily_meals in Hm.
  destruct Hm as [Hw|[slot [time [notes [r [Hslot [_ Em]]]]]]].
  - destruct (workout_of_weekday day Hd) as [w [Hw' [_ Ht]]].
    rewrite Hw in Hw'. inversion Hw'; subst w. exact Ht.
  - subst m. exists time. split; [reflexivity|]. simpl in Hslot.
    repeat (destruct Hslot as [Hslot|Hslot];
            [inversion Hslot; reflexivity|]).
    contradiction.
Qed.

Lemma planned_times_are_hhmm_witness :
  exists time,
    Some "20:00" = Some time /\ Spec.valid_hhmm time = true.
Proof.
  apply (planned_times_are_hhmm Example.three_dinners Profile.empty
           Example.nut_allergy "Monday"
           (PlannerAgent.daily_meals_for Example.three_dinners
              Example.nut_allergy "Monday")
           (PlannerAgent.meal_entry "dinner" "20:00"
              (Example.dinner "khichdi" 650 [])
              "Light dinner for gut health")).
  - now left.
  - now left.
Defined.

(** X10. Whatever the optional LLM call does, [execute] returns a plan built
    by the deterministic builder with 3000 estimated calories: from the
    caller's preferences when the LLM is off, has no key or raises, and from
    empty preferences, dropping the caller's, when the LLM responds.  In
    every case the plan has the seven weekdays in order and each day's
    workout. *)
Theorem planner_execute_any_llm :
  forall (catalog : list Recipe.t) (use_real_llm : bool)
         (llm : PlannerAgent.LlmOutcome) (context : PlannerAgent.Context),
    let result := PlannerAgent.execute catalog use_real_llm llm context in
    let preferences :=
      Py.get (PlannerAgent.preferences context) Preferences.empty in
    PlannerAgent.meal_plan result
    = Spec.build catalog Profile.empty
        match use_real_llm, llm with
        | true, PlannerAgent.LlmResponded _ => Preferences.empty
        | _, _ => preferences
        end
    /\ PlannerAgent.estimated_daily_calories result = 3000%Q
    /\ Py.keys (PlannerAgent.meal_plan result) = PlannerAgent.days
    /\ map (fun day_meals =>
              (fst day_meals,
               filter (Spec.in_slot "workout") (snd day_meals)))
         (PlannerAgent.meal_plan result)
       = Spec.week_workouts.
Proof.
  intros catalog use_real_llm llm context result preferences.
  assert (Hplan :
            PlannerAgent.meal_plan result
            = Spec.build catalog Profile.empty
                match use_real_llm, llm with
                | true, PlannerAgent.LlmResponded _ => Preferences.empty
                | _, _ => preferences
                end).
  { unfold result, PlannerAgent.execute. destruct use_real_llm, llm;
      reflexivity. }
  split; [exact Hplan|]. split.
  - unfold result, PlannerAgent.execute. destruct use_real_llm, llm;
      reflexivity.
  - rewrite Hplan, build_by_day. split.
    + reflexivity.
    + unfold PlannerAgent.days. cbn [map fst snd].
      rewrite !day_workouts. reflexivity.
Qed.

(** ** NutritionVerifierAgent: averages, recommendations, gut risks, defaults *)

Section AverageFacts.

Lemma protein_loop (days : list (list Meal.t)) (total : Q) (count : nat) :
  let result :=
    fold_left
      (fun acc day_meals =>
         fold_left
           (fun '(total, count) meal =>
              match Meal.protein_g meal with
              | Some protein_g => ((total + protein_g)%Q, S count)
              | None => (total, count)
              end)
           day_meals acc)
      days (total, count) in
  let fields :=
    flat_map
      (fun meals =>
         flat_map
           (fun m =>
              match Meal.protein_g m with Some p => [p] | None => [] end)
           meals)
      days in
  (fst result == total + Spec.Qsum fields)%Q
  /\ snd result = (count + List.length fields)%nat.
Proof.
  revert total count. induction days as [|d days IH]; intros total count.
  - simpl. split; [now rewrite Qplus_0_r | lia].
  - cbn [fold_left flat_map].
    assert (Hd :
              let r :=
                fold_left
                  (fun '(total, count) meal =>
                     match Meal.protein_g meal with
                     | Some protein_g => ((total + protein_g)%Q, S count)
                     | None => (total, count)
                     end)
                  d (total, count) in
              let f :=
                flat_map
                  (fun m =>
                     match Meal.protein_g m with
                     | Some p => [p]
                     | None => []
                     end)
                  d in
              (fst r == total + Spec.Qsum f)%Q
              /\ snd r = (count + List.length f)%nat).
    { clear IH. revert total count.
      induction d as [|m d IHd]; intros total count.
      - simpl. split; [now rewrite Qplus_0_r | lia].
      - cbn [fold_left flat_map].
        destruct (Meal.protein_g m) as [p|].
        + destruct (IHd (total + p)%Q (S count)) as [H1 H2].
          cbv zeta in *. split.
          * rewrite H1. simpl. now rewrite Qplus_assoc.
          * rewrite H2. simpl. lia.
        + exact (IHd total count). }
    cbv zeta in Hd.
    destruct (fold_left _ d (total, count)) as [total' count'].
    simpl in Hd. destruct Hd as [Hd1 Hd2].
    destruct (IH total' count') as [H1 H2]. cbv zeta in *.
    split.
    + rewrite H1, Hd1, Qsum_app. now rewrite Qplus_assoc.
    + rewrite H2, Hd2, length_app. lia.
Qed.

End AverageFacts.

(** X11. For a week plan of any size, [daily_calories] is the sum of all
    [cal] fields divided by the number of day keys, or by 1 when there is no
    day at all: a missing or empty plan averages to 0 and never divides by
    zero. *)
Theorem daily_calories_any_plan :
  forall (nutrition_data : list NutritionVerifierAgent.NutritionRow)
         (context : NutritionVerifierAgent.Context),
    let meal_plan := Py.get (NutritionVerifierAgent.meal_plan context) [] in
    let r := NutritionVerifierAgent.execute nutrition_data context in
    (NutritionVerifierAgent.daily_calories r
     == Spec.Qsum (Spec.cal_fields meal_plan)
        / inject_Z (Z.of_nat (Nat.max (List.length meal_plan) 1)))%Q
    /\ (meal_plan = [] -> (NutritionVerifierAgent.daily_calories r == 0)%Q).
Proof.
  intros nutrition_data context meal_plan r.
  assert (H : (NutritionVerifierAgent.daily_calories r
               == Spec.Qsum (Spec.cal_fields meal_plan)
                  / inject_Z (Z.of_nat (Nat.max (List.length meal_plan) 1)))%Q).
  { unfold r, NutritionVerifierAgent.execute.
    cbn [NutritionVerifierAgent.daily_calories]. fold meal_plan.
    rewrite daily_calories_sum, Nat2Z.inj_max. reflexivity. }
  split; [exact H|].
  intros E. rewrite H, E. reflexivity.
Qed.

(** X12. When at least one entry carries [protein_g], [daily_protein] is the
    sum of all [protein_g] fields divided by the number of day keys. *)
Theorem daily_protein_is_week_total_over_days :
  forall (nutrition_data : list NutritionVerifierAgent.NutritionRow)
         (meal_plan : WeekPlan) (user_profile : Profile.t),
    Spec.protein_fields meal_plan <> [] ->
    (NutritionVerifierAgent.daily_protein
       (NutritionVerifierAgent.execute nutrition_data
          (Spec.verify_context meal_plan user_profile))
     == Spec.Qsum (Spec.protein_fields meal_plan)
        / inject_Z (Z.of_nat (List.length meal_plan)))%Q.
Proof.
  intros nutrition_data meal_plan user_profile Hsome.
  unfold NutritionVerifierAgent.execute, Spec.verify_context.
  cbn [NutritionVerifierAgent.daily_protein NutritionVerifierAgent.meal_plan
         Py.get].
  unfold NutritionVerifierAgent._calculate_daily_protein.
  pose proof (protein_loop (Py.values meal_plan) 0 0) as H.
  cbv zeta in H. fold (Spec.protein_fields meal_plan) in H.
  destruct H as [Htotal Hcount].
  destruct (fold_left _ (Py.values meal_plan) (0%Q, 0%nat))
    as [total count].
  simpl in Htotal, Hcount.
  assert (Hpos : (0 < count)%nat).
  { rewrite Hcount. destruct (Spec.protein_fields meal_plan);
      [congruence | simpl; lia]. }
  apply Nat.ltb_lt in Hpos. rewrite Hpos.
  assert (Hdays : (0 < List.length meal_plan)%nat).
  { destruct meal_plan; [|simpl; lia]. exfalso. now apply Hsome. }
  rewrite Z.max_l by lia.
  rewrite Htotal. now rewrite Qplus_0_l.
Qed.

Lemma daily_protein_is_week_total_over_days_witness :
  Spec.protein_fields
    (Spec.build Example.two_lunches Profile.empty Preferences.empty) <> []
  /\ (NutritionVerifierAgent.daily_protein
        (NutritionVerifierAgent.execute []
           (Spec.verify_context
              (Spec.build Example.two_lunches Profile.empty
                 Preferences.empty)
              Profile.empty))
      == 30)%Q.
Proof.
  assert (Hsome : Spec.protein_fields
                    (Spec.build Example.two_lunches Profile.empty
                       Preferences.empty) <> []) by discriminate.
  split; [exact Hsome|].
  exact (Qeq_trans _ _ _
           (daily_protein_is_week_total_over_days []
              (Spec.build Example.two_lunches Profile.empty
                 Preferences.empty)
              Profile.empty Hsome)
           (eq_refl : (210 / 7 == 30)%Q)).
Defined.

(** X13. Verification passes exactly when it has no recommendation to make,
    and the number of recommendation lines is the number of failed criteria
    among calories, protein and gut safety. *)
Theorem passed_iff_no_recommendation :
  forall (nutrition_data : list NutritionVerifierAgent.NutritionRow)
         (context : NutritionVerifierAgent.Context),
    let r := NutritionVerifierAgent.execute nutrition_data context in
    (NutritionVerifierAgent.passed r = true
     <-> NutritionVerifierAgent.recommendations r = [])
    /\ List.length (NutritionVerifierAgent.recommendations r)
       = ((if NutritionVerifierAgent.calorie_met r then 0 else 1)
          + (if NutritionVerifierAgent.protein_met r then 0 else 1)
          + (if NutritionVerifierAgent.gut_safe r then 0 else 1))%nat.
Proof.
  intros nutrition_data context r.
  unfold r, NutritionVerifierAgent.execute.
  cbn [NutritionVerifierAgent.passed NutritionVerifierAgent.recommendations
         NutritionVerifierAgent.calorie_met NutritionVerifierAgent.protein_met
         NutritionVerifierAgent.gut_safe].
  destruct (Py.Qgeb _ _), (Py.Qgeb _ _), (_ =? 0)%nat; cbn [negb andb app];
    (split; [split; [reflexivity || discriminate | reflexivity || discriminate]
            | reflexivity]).
Qed.

Lemma fold_left_flat_map {A B C : Type} (f : A -> C -> A) (g : B -> list C)
    (l : list B) (acc : A) :
  fold_left (fun a b => fold_left f (g b) a) l acc
  = fold_left f (flat_map g l) acc.
Proof.
  revert acc. induction l as [|b l IH]; intros acc; simpl.
  - reflexivity.
  - rewrite fold_left_app. apply IH.
Qed.

Lemma fold_left_ext {A B : Type} (f g : A -> B -> A) (l : list B) (acc : A) :
  (forall a b, f a b = g a b) -> fold_left f l acc = fold_left g l acc.
Proof.
  intros H. revert acc. induction l as [|b l IH]; intros acc; simpl.
  - reflexivity.
  - rewrite H. apply IH.
Qed.

Section GutFacts.

Variable nutrition_data : list NutritionVerifierAgent.NutritionRow.

(** One step of the innermost loop of [_check_gut_risks]. *)
Let flag (risk_items : list string) (ingredient : string) : list string :=
  let ingredient_clean := Py.lower (Py.replace_char " " "_" ingredient) in
  match
    filter
      (fun row =>
         String.eqb (NutritionVerifierAgent.food_item row) ingredient_clean)
      nutrition_data
  with
  | [] => risk_items
  | row0 :: _ =>
      if negb (NutritionVerifierAgent.gut_friendly row0)
      then Py.set_add ingredient risk_items
      else risk_items
  end.

Lemma filter_head_find {A : Type} (p : A -> bool) (l : list A) :
  find p l = match filter p l with [] => None | x :: _ => Some x end.
Proof.
  induction l as [|x l IH]; simpl; [reflexivity|].
  destruct (p x); [reflexivity | exact IH].
Qed.

Lemma flag_spec (risk_items : list string) (ingredient : string) :
  flag risk_items ingredient
  = if Spec.gut_unfriendly nutrition_data ingredient
    then Py.set_add ingredient risk_items
    else risk_items.
Proof.
  unfold flag, Spec.gut_unfriendly. rewrite filter_head_find.
  destruct (filter _ nutrition_data) as [|row0 rows]; reflexivity.
Qed.

Lemma set_add_in (x y : string) (s : list string) :
  In y (Py.set_add x s) <-> y = x \/ In y s.
Proof.
  unfold Py.set_add. destruct (Py.str_in x s) eqn:E.
  - apply str_in_iff in E. split; [auto|]. intros [H|H]; [now subst | exact H].
  - rewrite in_app_iff. simpl. split; intros H; intuition auto.
Qed.

Lemma set_add_nodup (x : string) (s : list string) :
  NoDup s -> NoDup (Py.set_add x s).
Proof.
  intros Hs. unfold Py.set_add. destruct (Py.str_in x s) eqn:E;
    [exact Hs|].
  apply str_in_false_iff in E.
  apply NoDup_app; [exact Hs | repeat constructor; auto | ].
  intros y Hy [Hx|[]]. subst. contradiction.
Qed.

Lemma flag_loop (ingredients risk_items : list string) :
  NoDup risk_items ->
  NoDup (fold_left flag ingredients risk_items)
  /\ forall x,
       In x (fold_left flag ingredients risk_items)
       <-> In x risk_items
           \/ (In x ingredients /\ Spec.gut_unfriendly nutrition_data x = true).
Proof.
  revert risk_items. induction ingredients as [|i ingredients IH];
    intros risk_items Hnd; simpl.
  - split; [exact Hnd|]. intros x. tauto.
  - assert (Hnd' : NoDup (flag risk_items i)).
    { rewrite flag_spec. destruct (Spec.gut_unfriendly nutrition_data i);
        [now apply set_add_nodup | exact Hnd]. }
    destruct (IH _ Hnd') as [H1 H2]. split; [exact H1|].
    intros x. rewrite H2, flag_spec.
    destruct (Spec.gut_unfriendly nutrition_data i) eqn:Ei.
    + rewrite set_add_in. split.
      * intros [[E|H]|[H Hx]]; [subst; auto | auto | auto].
      * intros [H|[[E|H] Hx]]; [auto | subst; auto | auto].
    + split.
      * intros [H|[H Hx]]; auto.
      * intros [H|[[E|H] Hx]]; [auto | subst; congruence | auto].
Qed.

(** The three nested loops visit the ingredient occurrences in plan order. *)
Lemma check_gut_risks_flat (meal_plan : WeekPlan) :
  NutritionVerifierAgent._check_gut_risks nutrition_data meal_plan
  = fold_left flag (Spec.all_ingredients meal_plan) [].
Proof.
  unfold NutritionVerifierAgent._check_gut_risks, Spec.all_ingredients.
  rewrite <- (fold_left_flat_map flag
                (fun meals : list Meal.t =>
                   flat_map (fun m => Py.get (Meal.ingredients m) []) meals)).
  apply fold_left_ext. intros risk_items meals.
  rewrite <- (fold_left_flat_map flag
                (fun m : Meal.t => Py.get (Meal.ingredients m) [])).
  reflexivity.
Qed.

End GutFacts.

(** X14. The gut-risk items are exactly the ingredients of the week plan,
    under their original names, that the nutrition table marks as not
    gut-friendly after normalising the name; each is listed once;
    ingredients that the table does not know are never flagged. *)
Theorem gut_risk_items_are_flagged_ingredients :
  forall (nutrition_data : list NutritionVerifierAgent.NutritionRow)
         (meal_plan : WeekPlan),
    let risk_items :=
      NutritionVerifierAgent._check_gut_risks nutrition_data meal_plan in
    NoDup risk_items
    /\ (forall ingredient,
          In ingredient risk_items
          <-> In ingredient (Spec.all_ingredients meal_plan)
              /\ Spec.gut_unfriendly nutrition_data ingredient = true)
    /\ (forall ingredient,
          (forall row,
             In row nutrition_data ->
             NutritionVerifierAgent.food_item row
             <> Py.lower (Py.replace_char " " "_" ingredient)) ->
          ~ In ingredient risk_items).
Proof.
  intros nutrition_data meal_plan risk_items. unfold risk_items.
  rewrite check_gut_risks_flat.
  destruct (flag_loop nutrition_data (Spec.all_ingredients meal_plan) []
              (NoDup_nil _)) as [Hnd Hin].
  split; [exact Hnd|]. split.
  { intros x. rewrite Hin. simpl. tauto. }
  intros ingredient Hunknown Hrisk. apply Hin in Hrisk.
  destruct Hrisk as [[]|[_ Hflag]]. unfold Spec.gut_unfriendly in Hflag.
  destruct (find _ nutrition_data) as [row|] eqn:E; [|discriminate].
  apply find_some in E. destruct E as [Hrow Heq].
  apply String.eqb_eq in Heq. exact (Hunknown row Hrow Heq).
Qed.

(** Eggs are flagged under the name the plan uses, "Boiled Eggs", although
    the table knows them as "boiled_eggs". *)
Example gut_risk_keeps_original_name :
  NutritionVerifierAgent._check_gut_risks
    [NutritionVerifierAgent.mkRow "boiled_eggs" false;
     NutritionVerifierAgent.mkRow "rice" true]
    [("Monday",
      [{| Meal.meal := Some "breakfast"; Meal.time := None;
          Meal.recipe_id := None; Meal.recipe_name := None;
          Meal.cal := None; Meal.protein_g := None;
          Meal.ingredients := Some ["Boiled Eggs"; "rice"; "Boiled Eggs"];
          Meal.prep_time_min := None; Meal.type := None;
          Meal.focus := None; Meal.duration_min := None;
          Meal.notes := None |}])]
  = ["Boiled Eggs"].
Proof. reflexivity. Qed.

Section DefaultFacts.

Lemma unknown_activity_level (name : string) :
  ~ In name Spec.activity_levels ->
  Py.dict_get NutritionVerifierAgent.activity_multipliers name = None.
Proof.
  intros H. unfold NutritionVerifierAgent.activity_multipliers.
  unfold Spec.activity_levels in H. simpl in H. simpl.
  repeat match goal with
         | |- context [String.eqb name ?k] =>
             destruct (String.eqb_spec name k) as [E|_];
             [exfalso; apply H; subst; auto 10|]
         end.
  reflexivity.
Qed.

End DefaultFacts.

(** X15. Defaults of the target-calorie computation: an activity level that
    is absent or not one of the five known names counts as moderate (1.55),
    an absent goal counts as gain_weight (+500), and a goal that is neither
    gain_weight nor lose_weight adds no offset. *)
Theorem target_calories_defaults :
  forall (nutrition_data : list NutritionVerifierAgent.NutritionRow)
         (meal_plan : WeekPlan) (user_profile : Profile.t),
    let target :=
      NutritionVerifierAgent.target_calories
        (NutritionVerifierAgent.execute nutrition_data
           (Spec.verify_context meal_plan user_profile)) in
    ((forall name, Profile.activity_level user_profile = Some name ->
                   ~ In name Spec.activity_levels) ->
     NutritionVerifierAgent.tdee user_profile
     = (NutritionVerifierAgent.bmr user_profile * 1.55)%Q)
    /\ (Profile.goal user_profile = None ->
        target = (NutritionVerifierAgent.tdee user_profile + 500)%Q)
    /\ (forall goal, Profile.goal user_profile = Some goal ->
                     goal <> "gain_weight" -> goal <> "lose_weight" ->
                     target = NutritionVerifierAgent.tdee user_profile).
Proof.
  intros nutrition_data meal_plan user_profile target.
  split; [|split].
  - intros Hunknown. unfold NutritionVerifierAgent.tdee.
    destruct (Profile.activity_level user_profile) as [name|] eqn:E.
    + cbn [Py.get]. rewrite (unknown_activity_level name (Hunknown name eq_refl)).
      reflexivity.
    + reflexivity.
  - intros Hgoal. unfold target, NutritionVerifierAgent.execute,
      Spec.verify_context.
    cbn [NutritionVerifierAgent.target_calories
           NutritionVerifierAgent.user_profile Py.get].
    rewrite Hgoal. reflexivity.
  - intros goal Hgoal Hgain Hlose. unfold target,
      NutritionVerifierAgent.execute, Spec.verify_context.
    cbn [NutritionVerifierAgent.target_calories
           NutritionVerifierAgent.user_profile Py.get].
    rewrite Hgoal. cbn [Py.get].
    unfold NutritionVerifierAgent._calculate_target_calories.
    apply String.eqb_neq in Hgain, Hlose. now rewrite Hgain, Hlose.
Qed.

(** ** The stable sort, for any order *)

Section StableSortFacts.

Context {A K : Type} (key : A -> K) (ltb : K -> K -> bool).

Hypothesis ltb_asym : forall a b, ltb a b = true -> ltb b a = false.
Hypothesis geb_trans :
  forall a b c, ltb b a = false -> ltb c b = false -> ltb c a = false.

Let ordered (a b : A) : Prop := ltb (key b) (key a) = false.

Lemma insert_perm_any (x : A) (l : list A) :
  Permutation (Py.insert key ltb x l) (x :: l).
Proof.
  induction l as [|y l IH]; simpl.
  - apply Permutation_refl.
  - destruct (ltb (key y) (key x)).
    + eapply perm_trans; [apply perm_skip, IH | apply perm_swap].
    + apply Permutation_refl.
Qed.

Lemma sort_perm_any (l : list A) : Permutation (Py.sort key ltb l) l.
Proof.
  induction l as [|x l IH]; simpl.
  - apply perm_nil.
  - eapply perm_trans; [apply insert_perm_any | apply perm_skip, IH].
Qed.

Lemma insert_sorted_any (x : A) (l : list A) :
  StronglySorted ordered l -> StronglySorted ordered (Py.insert key ltb x l).
Proof.
  induction 1 as [|y l Hs IH Hall]; simpl.
  - constructor; constructor.
  - destruct (ltb (key y) (key x)) eqn:E.
    + constructor; [exact IH|].
      apply (Permutation_Forall (Permutation_sym (insert_perm_any x l))).
      constructor; [|exact Hall].
      unfold ordered. now apply ltb_asym.
    + constructor; [constructor; assumption|].
      constructor; [exact E|].
      eapply Forall_impl; [|exact Hall].
      intros a Ha. unfold ordered in *. eapply geb_trans; eassumption.
Qed.

Lemma sort_sorted_any (l : list A) : StronglySorted ordered (Py.sort key ltb l).
Proof.
  induction l as [|x l IH]; simpl.
  - constructor.
  - apply insert_sorted_any, IH.
Qed.

(** Elements that the order does not separate keep their relative order. *)
Lemma sort_stable_any (p : A -> bool) (l : list A) :
  (forall a b, p a = true -> p b = true -> ltb (key a) (key b) = false) ->
  filter p (Py.sort key ltb l) = filter p l.
Proof.
  intros Htie. induction l as [|x l IH]; simpl; [reflexivity|].
  rewrite <- IH. generalize (Py.sort key ltb l) as sorted.
  induction sorted as [|y sorted IHs]; simpl; [reflexivity|].
  destruct (ltb (key y) (key x)) eqn:E; simpl.
  - rewrite IHs. destruct (p x) eqn:Ex; [|reflexivity].
    destruct (p y) eqn:Ey; [|reflexivity].
    rewrite (Htie y x Ey Ex) in E. discriminate.
  - reflexivity.
Qed.

End StableSortFacts.

(** ** The order on strings *)

Section StringOrderFacts.

Lemma string_ltb_lt (a b : string) :
  String.ltb a b = true <-> String_as_OT.lt a b.
Proof.
  unfold String.ltb, String_as_OT.lt.
  change (String_as_OT.compare a b) with (String.compare a b).
  destruct (String.compare a b); split; congruence.
Qed.

Lemma string_ltb_irrefl (a : string) : String.ltb a a = false.
Proof.
  destruct (String.ltb a a) eqn:E; [|reflexivity].
  apply string_ltb_lt in E.
  exfalso. exact (StrictOrder_Irreflexive (R := String_as_OT.lt) a E).
Qed.

Lemma string_ltb_trans (a b c : string) :
  String.ltb a b = true -> String.ltb b c = true -> String.ltb a c = true.
Proof.
  rewrite !string_ltb_lt.
  apply (StrictOrder_Transitive (R := String_as_OT.lt)).
Qed.

Lemma string_ltb_asym (a b : string) :
  String.ltb a b = true -> String.ltb b a = false.
Proof.
  intros H. destruct (String.ltb b a) eqn:E; [|reflexivity].
  pose proof (string_ltb_trans a b a H E) as Haa.
  rewrite string_ltb_irrefl in Haa. discriminate.
Qed.

Lemma string_geb_cases (a b : string) :
  String.ltb b a = false -> a = b \/ String.ltb a b = true.
Proof.
  intros H. unfold String.ltb in *.
  rewrite (String.compare_antisym a b).
  destruct (String.compare b a) eqn:E; simpl.
  - left. symmetry. now apply String.compare_eq_iff.
  - discriminate.
  - now right.
Qed.

Lemma string_geb_trans (a b c : string) :
  String.ltb b a = false -> String.ltb c b = false -> String.ltb c a = false.
Proof.
  intros Hab Hbc.
  destruct (string_geb_cases a b Hab) as [E|Hlt]; [now subst|].
  destruct (string_geb_cases b c Hbc) as [E|Hlt']; [subst|].
  - now apply string_ltb_asym.
  - apply string_ltb_asym. now apply (string_ltb_trans a b c).
Qed.

Lemma string_leb_geb (a b : string) :
  String.leb a b = true <-> String.ltb b a = false.
Proof.
  unfold String.leb, String.ltb. rewrite (String.compare_antisym a b).
  destruct (String.compare b a); simpl; split; congruence.
Qed.

End StringOrderFacts.

(** ** SchedulerAgent: time ordering *)

Section ScheduleFacts.

Lemma fold_dict_set_pairs {V W : Type} (g : V -> W) (d : list (string * V))
    (acc : list (string * W)) :
  NoDup (Py.keys acc ++ Py.keys d) ->
  fold_left (fun acc '(k, v) => Py.dict_set acc k (g v)) d acc
  = acc ++ map (fun kv => (fst kv, g (snd kv))) d.
Proof.
  revert acc. induction d as [|[k v] d IH]; intros acc H; simpl.
  - now rewrite app_nil_r.
  - assert (Hk : ~ In k (Py.keys acc)).
    { simpl in H. apply NoDup_remove_2 in H. intros Hin. apply H.
      apply in_or_app. now left. }
    rewrite (dict_set_fresh acc k (g v) Hk), IH.
    + now rewrite <- app_assoc.
    + unfold Py.keys in *. rewrite map_app. simpl.
      rewrite <- app_assoc. exact H.
Qed.

Definition sort_by_time (meals : list Meal.t) : list Meal.t :=
  Py.sort (fun m => Py.get (Meal.time m) "00:00") String.ltb meals.

(** With distinct day keys, scheduling sorts each day in place. *)
Lemma schedule_by_day (meal_plan : WeekPlan) (user_profile : Profile.t) :
  NoDup (Py.keys meal_plan) ->
  SchedulerAgent._schedule_meals meal_plan user_profile
  = map (fun day_meals => (fst day_meals, sort_by_time (snd day_meals)))
      meal_plan.
Proof.
  intros Hnd. unfold SchedulerAgent._schedule_meals.
  exact (fold_dict_set_pairs sort_by_time meal_plan [] Hnd).
Qed.

Lemma sort_by_time_spec (meals : list Meal.t) :
  Permutation (sort_by_time meals) meals
  /\ StronglySorted Spec.not_later (sort_by_time meals)
  /\ forall time,
       filter (Spec.at_time time) (sort_by_time meals)
       = filter (Spec.at_time time) meals.
Proof.
  split; [apply sort_perm_any|]. split.
  - pose proof (sort_sorted_any (fun m => Py.get (Meal.time m) "00:00")
                  String.ltb string_ltb_asym string_geb_trans meals) as Hs.
    eapply StronglySorted_ind with (P := StronglySorted Spec.not_later);
      [constructor | | exact Hs].
    intros a l _ IH Hall. constructor; [exact IH|].
    eapply Forall_impl; [|exact Hall].
    intros b Hb. now apply string_leb_geb.
  - intros time. apply sort_stable_any.
    intros a b Ha Hb. unfold Spec.at_time, Spec.entry_time in Ha, Hb.
    apply String.eqb_eq in Ha, Hb. rewrite Ha, Hb.
    apply string_ltb_irrefl.
Qed.

Lemma Forall2_map_right {A B : Type} (R : A -> B -> Prop) (f : A -> B)
    (l : list A) :
  (forall x, In x l -> R x (f x)) -> Forall2 R l (map f l).
Proof.
  induction l as [|x l IH]; intros H; simpl; constructor.
  - apply H. now left.
  - apply IH. intros y Hy. apply H. now right.
Qed.

Lemma filter_perm {A : Type} (p : A -> bool) (l l' : list A) :
  Permutation l l' -> Permutation (filter p l) (filter p l').
Proof.
  induction 1 as [|x l l' Hp IH|x y l|l l' l'' Hp1 IH1 Hp2 IH2]; simpl.
  - constructor.
  - destruct (p x); [now constructor | assumption].
  - destruct (p x), (p y); try apply Permutation_refl. apply perm_swap.
  - eapply perm_trans; eassumption.
Qed.

End ScheduleFacts.

(** X16. Scheduling a week plan with distinct day keys keeps the days and
    their order, and keeps each day's entries while arranging them by
    ascending [time] (an entry without [time] counts as "00:00"); entries
    with the same time keep the order they had. *)
Theorem schedule_sorts_each_day :
  forall (meal_plan : WeekPlan) (user_profile : Profile.t),
    NoDup (Py.keys meal_plan) ->
    let scheduled := SchedulerAgent._schedule_meals meal_plan user_profile in
    Py.keys scheduled = Py.keys meal_plan
    /\ Forall2
         (fun before after =>
            Permutation (snd after) (snd before)
            /\ StronglySorted Spec.not_later (snd after)
            /\ forall time,
                 filter (Spec.at_time time) (snd after)
                 = filter (Spec.at_time time) (snd before))
         meal_plan scheduled.
Proof.
  intros meal_plan user_profile Hnd scheduled. unfold scheduled.
  rewrite (schedule_by_day meal_plan user_profile Hnd). split.
  - unfold Py.keys. rewrite map_map. reflexivity.
  - apply Forall2_map_right. intros [day meals] _. simpl.
    apply sort_by_time_spec.
Qed.

Lemma schedule_sorts_each_day_witness :
  NoDup (Py.keys (Spec.build Example.three_dinners Profile.empty
                    Preferences.empty))
  /\ Py.keys
       (SchedulerAgent._schedule_meals
          (Spec.build Example.three_dinners Profile.empty Preferences.empty)
          Profile.empty)
     = PlannerAgent.days.
Proof.
  assert (Hnd : NoDup (Py.keys (Spec.build Example.three_dinners
                                  Profile.empty Preferences.empty)))
    by exact days_nodup.
  split; [exact Hnd|].
  exact (proj1 (schedule_sorts_each_day
                  (Spec.build Example.three_dinners Profile.empty
                     Preferences.empty)
                  Profile.empty Hnd)).
Defined.

(** The scheduled Monday of the three-dinner week: the 18:00 workout now
    comes before the 20:00 dinner. *)
Example scheduled_monday :
  map (fun m => (Meal.time m, Meal.meal m))
    (Py.get
       (Py.dict_get
          (SchedulerAgent._schedule_meals
             (Spec.build Example.three_dinners Profile.empty
                Preferences.empty)
             Profile.empty)
          "Monday")
       [])
  = [(Some "18:00", Some "workout"); (Some "20:00", Some "dinner")].
Proof. reflexivity. Qed.

(** X17. Planner and scheduler composed: the scheduled plan of any built
    week still has the seven weekdays in order, each day holds the entries
    the planner chose, ordered by time, with that day's single workout. *)
Theorem scheduled_build_keeps_week :
  forall (catalog : list Recipe.t) (user_profile : Profile.t)
         (preferences : Preferences.t),
    let plan := Spec.build catalog user_profile preferences in
    let scheduled :=
      SchedulerAgent.scheduled_plan
        (SchedulerAgent.execute (Spec.schedule_context plan user_profile)) in
    Py.keys scheduled = PlannerAgent.days
    /\ Forall2
         (fun before after =>
            Permutation (snd after) (snd before)
            /\ StronglySorted Spec.not_later (snd after))
         plan scheduled
    /\ map (fun day_meals =>
              (fst day_meals,
               filter (Spec.in_slot "workout") (snd day_meals)))
         scheduled
       = Spec.week_workouts.
Proof.
  intros catalog user_profile preferences plan scheduled.
  assert (Hnd : NoDup (Py.keys plan)).
  { unfold plan. rewrite build_by_day. exact days_nodup. }
  assert (Hs : scheduled
               = map (fun day_meals =>
                        (fst day_meals, sort_by_time (snd day_meals)))
                   plan).
  { unfold scheduled, SchedulerAgent.execute, Spec.schedule_context.
    cbn [SchedulerAgent.scheduled_plan SchedulerAgent.meal_plan
           SchedulerAgent.user_profile Py.get].
    now apply schedule_by_day. }
  rewrite Hs. split; [|split].
  - unfold plan. rewrite build_by_day. reflexivity.
  - apply Forall2_map_right. intros [day meals] _. simpl.
    destruct (sort_by_time_spec meals) as [Hp [Hsorted _]]. auto.
  - rewrite map_map. cbn [fst snd].
    unfold plan. rewrite build_by_day, map_map. cbn [fst snd].
    unfold PlannerAgent.days. cbn [map].
    assert (Hw : forall day,
               In day PlannerAgent.days ->
               filter (Spec.in_slot "workout")
                 (sort_by_time
                    (PlannerAgent.daily_meals_for catalog preferences day))
               = filter (Spec.in_slot "workout")
                   (PlannerAgent.daily_meals_for catalog preferences day)).
    { intros day Hday.
      destruct (sort_by_time_spec
                  (PlannerAgent.daily_meals_for catalog preferences day))
        as [Hp _].
      pose proof (day_workouts catalog preferences day) as Hone.
      destruct (workout_of_weekday day Hday) as [w [Hw _]].
      rewrite Hw in Hone. rewrite Hone.
      assert (Hpf : Permutation
                      (filter (Spec.in_slot "workout")
                         (sort_by_time
                            (PlannerAgent.daily_meals_for catalog
                               preferences day)))
                      [w]).
      { rewrite <- Hone. now apply filter_perm. }
      apply Permutation_sym in Hpf.
      now apply Permutation_length_1_inv in Hpf. }
    rewrite !Hw by (unfold PlannerAgent.days; simpl; auto 10).
    rewrite !day_workouts. reflexivity.
Qed.

(** ** SchedulerAgent: the shopping list *)

Section DictFacts.

Context {V : Type}.

Lemma dict_get_set_other (d : list (string * V)) (k k' : string) (v : V) :
  k' <> k -> Py.dict_get (Py.dict_set d k v) k' = Py.dict_get d k'.
Proof.
  intros Hne. induction d as [|[k0 v0] d IH]; simpl.
  - apply String.eqb_neq in Hne. now rewrite Hne.
  - destruct (String.eqb k k0) eqn:E; simpl.
    + apply String.eqb_eq in E. subst k0.
      apply String.eqb_neq in Hne. now rewrite Hne.
    + destruct (String.eqb k' k0); [reflexivity | exact IH].
Qed.

Lemma dict_get_set (d : list (string * V)) (k k' : string) (v : V) :
  Py.dict_get (Py.dict_set d k v) k'
  = if String.eqb k' k then Some v else Py.dict_get d k'.
Proof.
  destruct (String.eqb_spec k' k) as [E|Hne].
  - subst. apply dict_get_set_same.
  - now apply dict_get_set_other.
Qed.

Lemma keys_dict_set (d : list (string * V)) (k : string) (v : V) :
  Py.keys (Py.dict_set d k v)
  = if Py.str_in k (Py.keys d) then Py.keys d else Py.keys d ++ [k].
Proof.
  unfold Py.keys, Py.str_in.
  induction d as [|[k0 v0] d IH]; simpl; [reflexivity|].
  destruct (String.eqb k k0) eqn:E; simpl.
  - apply String.eqb_eq in E. now subst.
  - rewrite IH. destruct (existsb (String.eqb k) (map fst d)); reflexivity.
Qed.


Lemma dict_get_none_iff (d : list (string * V)) (k : string) :
  Py.dict_get d k = None <-> ~ In k (Py.keys d).
Proof.
  induction d as [|[k0 v0] d IH]; simpl.
  - tauto.
  - destruct (String.eqb_spec k k0) as [E|Hne].
    + subst. split; [discriminate|]. intros H. exfalso. apply H. now left.
    + rewrite IH. split.
      * intros H [E|Hin]; [now subst | contradiction].
      * intros H Hin. apply H. now right.
Qed.


End DictFacts.

Section CountFacts.







End CountFacts.

Section ItemOrderFacts.




End ItemOrderFacts.

Section ShoppingFacts.






End ShoppingFacts.


(** The shopping list of the three-dinner week: rice and eggs, seven dinners
    each; the eggs are estimated at 2 x 7 x 7 pieces. *)
Example shopping_list_three_dinner_week :
  SchedulerAgent._generate_shopping_list
    (Spec.build Example.three_dinners Profile.empty Preferences.empty)
  = [SchedulerAgent.mkItem "eggs" "98 pieces" 7;
     SchedulerAgent.mkItem "rice" "3.5kg" 7].
Proof. reflexivity. Qed.

(** ** MemoryBank *)

Section MemoryFacts.

Lemma memory_op_saves (self : MemoryBank.t) (op : Spec.MemoryOp) :
  MemoryBank.file (Spec.apply_memory_op self op)
  = MemoryBank.data (Spec.apply_memory_op self op).
Proof. destruct op; reflexivity. Qed.

Lemma memory_op_history (self : MemoryBank.t) (op : Spec.MemoryOp) :
  Spec.is_clear_all op = false ->
  MemoryBank.get_history (Spec.apply_memory_op self op)
  = MemoryBank.get_history self ++ Spec.added_entries [op].
Proof.
  destruct op; intros H; try discriminate H; simpl;
    try (now rewrite app_nil_r); reflexivity.
Qed.

Lemma dict_update_get (d e : list (string * Q)) (k : string) :
  NoDup (Py.keys e) ->
  Py.dict_get (Py.dict_update d e) k
  = match Py.dict_get e k with
    | Some v => Some v
    | None => Py.dict_get d k
    end.
Proof.
  unfold Py.dict_update. revert d.
  induction e as [|[k0 v0] e IH]; intros d Hnd; simpl; [reflexivity|].
  inversion Hnd as [|? ? Hfresh Hnd']; subst.
  rewrite (IH _ Hnd'). rewrite dict_get_set.
  destruct (String.eqb_spec k k0) as [E|Hne]; [|reflexivity].
  subst k0. apply dict_get_none_iff in Hfresh. now rewrite Hfresh.
Qed.

End MemoryFacts.

(** X19. Every mutating operation of the memory bank saves: after any
    non-empty sequence of set_user_profile, set_preferences, update_pantry,
    add_plan_to_history and clear_all, the memory file holds exactly the
    data in memory. *)
Theorem memory_bank_always_saved :
  forall (self : MemoryBank.t) (ops : list Spec.MemoryOp),
    ops <> [] ->
    MemoryBank.file (fold_left Spec.apply_memory_op ops self)
    = MemoryBank.data (fold_left Spec.apply_memory_op ops self).
Proof.
  intros self ops Hne.
  destruct (exists_last Hne) as [ops' [op E]]. subst ops.
  rewrite fold_left_app. simpl. apply memory_op_saves.
Qed.

Lemma memory_bank_always_saved_witness :
  [Spec.SetUserProfile Example.scenario_profile; Spec.UpdatePantry []] <> []
  /\ Profile.goal
       (MemoryBank.user_profile
          (MemoryBank.file
             (fold_left Spec.apply_memory_op
                [Spec.SetUserProfile Example.scenario_profile;
                 Spec.UpdatePantry []]
                (OrchestratorAgent.memory_bank Example.fresh_orchestrator))))
     = Some "gain_weight".
Proof.
  assert (Hne : [Spec.SetUserProfile Example.scenario_profile;
                 Spec.UpdatePantry []] <> []) by discriminate.
  split; [exact Hne|].
  exact (f_equal (fun d => Profile.goal (MemoryBank.user_profile d))
           (memory_bank_always_saved
              (OrchestratorAgent.memory_bank Example.fresh_orchestrator)
              _ Hne)).
Defined.

(** X20. The history is append-only: through any sequence of operations
    without clear_all, the earlier history stays as a prefix and exactly the
    entries of the add_plan_to_history calls are appended, in call order. *)
Theorem history_is_append_only :
  forall (self : MemoryBank.t) (ops : list Spec.MemoryOp),
    forallb (fun op => negb (Spec.is_clear_all op)) ops = true ->
    MemoryBank.get_history (fold_left Spec.apply_memory_op ops self)
    = MemoryBank.get_history self ++ Spec.added_entries ops.
Proof.
  intros self ops. revert self.
  induction ops as [|op ops IH]; intros self Hops; simpl.
  - now rewrite app_nil_r.
  - simpl in Hops. apply andb_true_iff in Hops. destruct Hops as [Hop Hops].
    apply negb_true_iff in Hop.
    rewrite (IH _ Hops), (memory_op_history self op Hop).
    unfold Spec.added_entries. simpl. rewrite app_nil_r.
    now rewrite <- app_assoc.
Qed.

Lemma history_is_append_only_witness :
  MemoryBank.get_history
    (fold_left Spec.apply_memory_op
       [Spec.AddPlanToHistory "2024-01-01" "plan_a" 1.0;
        Spec.SetPreferences Preferences.empty;
        Spec.AddPlanToHistory "2024-01-02" "plan_b" 0.8]
       (OrchestratorAgent.memory_bank Example.fresh_orchestrator))
  = [MemoryBank.mkEntry "2024-01-01" "plan_a" 1.0;
     MemoryBank.mkEntry "2024-01-02" "plan_b" 0.8].
Proof.
  exact (history_is_append_only
           (OrchestratorAgent.memory_bank Example.fresh_orchestrator)
           [Spec.AddPlanToHistory "2024-01-01" "plan_a" 1.0;
            Spec.SetPreferences Preferences.empty;
            Spec.AddPlanToHistory "2024-01-02" "plan_b" 0.8]
           eq_refl).
Defined.

(** X21. After update_pantry a pantry lookup gives the new quantity for the
    items passed in and the old quantity for every other item; profile,
    preferences and history are untouched. *)
Theorem update_pantry_lookup :
  forall (self : MemoryBank.t) (items : list (string * Q)) (name : string),
    NoDup (Py.keys items) ->
    let after := MemoryBank.update_pantry self items in
    Py.dict_get (MemoryBank.get_pantry after) name
    = match Py.dict_get items name with
      | Some quantity => Some quantity
      | None => Py.dict_get (MemoryBank.get_pantry self) name
      end
    /\ MemoryBank.get_user_profile after = MemoryBank.get_user_profile self
    /\ MemoryBank.get_preferences after = MemoryBank.get_preferences self
    /\ MemoryBank.get_history after = MemoryBank.get_history self.
Proof.
  intros self items name Hnd after.
  split; [|repeat split].
  unfold after, MemoryBank.update_pantry, MemoryBank.get_pantry,
    MemoryBank._save.
  cbn [MemoryBank.data MemoryBank.pantry].
  now apply dict_update_get.
Qed.

Lemma update_pantry_lookup_witness :
  NoDup (Py.keys [("rice", 2%Q); ("ghee", 0.5%Q)])
  /\ Py.dict_get
       (MemoryBank.get_pantry
          (MemoryBank.update_pantry
             (MemoryBank.update_pantry
                (OrchestratorAgent.memory_bank Example.fresh_orchestrator)
                [("rice", 1%Q); ("oats", 3%Q)])
             [("rice", 2%Q); ("ghee", 0.5%Q)]))
       "rice"
     = Some 2%Q.
Proof.
  assert (Hnd : NoDup (Py.keys [("rice", 2%Q); ("ghee", 0.5%Q)])).
  { repeat constructor; simpl; intuition discriminate. }
  split; [exact Hnd|].
  exact (proj1 (update_pantry_lookup
                  (MemoryBank.update_pantry
                     (OrchestratorAgent.memory_bank
                        Example.fresh_orchestrator)
                     [("rice", 1%Q); ("oats", 3%Q)])
                  [("rice", 2%Q); ("ghee", 0.5%Q)] "rice" Hnd)).
Defined.

(** ** SessionService *)

Section SessionFacts.

Lemma session_op_unknown (sessions : SessionService.t) (session_id : string)
    (op : Spec.SessionOp) :
  SessionService.get_session sessions session_id = None ->
  Spec.apply_session_op sessions session_id op = sessions.
Proof.
  unfold SessionService.get_session. intros H.
  destruct op; simpl;
    unfold SessionService.update_session, SessionService.pause_session,
      SessionService.resume_session, SessionService.complete_session,
      SessionService.fail_session;
    now rewrite H.
Qed.

Lemma session_op_frame (sessions : SessionService.t)
    (session_id other : string) (op : Spec.SessionOp) :
  other <> session_id ->
  SessionService.get_session
    (Spec.apply_session_op sessions session_id op) other
  = SessionService.get_session sessions other.
Proof.
  unfold SessionService.get_session. intros Hne.
  destruct op; simpl;
    unfold SessionService.update_session, SessionService.pause_session,
      SessionService.resume_session, SessionService.complete_session,
      SessionService.fail_session;
    destruct (Py.dict_get sessions session_id); try reflexivity;
    now apply dict_get_set_other.
Qed.

Lemma session_op_keys (sessions : SessionService.t) (session_id : string)
    (op : Spec.SessionOp) :
  Py.keys (Spec.apply_session_op sessions session_id op) = Py.keys sessions.
Proof.
  assert (Hset : forall s x,
             Py.dict_get sessions session_id = Some x ->
             Py.keys (Py.dict_set sessions session_id s) = Py.keys sessions).
  { intros s x Hx. rewrite keys_dict_set.
    destruct (Py.str_in session_id (Py.keys sessions)) eqn:E;
      [reflexivity|].
    apply str_in_false_iff, dict_get_none_iff in E. congruence. }
  destruct op; simpl;
    unfold SessionService.update_session, SessionService.pause_session,
      SessionService.resume_session, SessionService.complete_session,
      SessionService.fail_session;
    destruct (Py.dict_get sessions session_id) eqn:E; try reflexivity;
    eapply Hset; reflexivity.
Qed.

End SessionFacts.

(** X22. The operations on a session (update, pause, resume, complete, fail)
    touch that session only: an unknown session id leaves the table as it
    is, the sessions of all other ids read back unchanged, and no session id
    is ever added, removed or reordered by them. *)
Theorem session_ops_are_local :
  forall (sessions : SessionService.t) (session_id : string)
         (op : Spec.SessionOp),
    let after := Spec.apply_session_op sessions session_id op in
    (SessionService.get_session sessions session_id = None ->
     after = sessions)
    /\ (forall other,
          other <> session_id ->
          SessionService.get_session after other
          = SessionService.get_session sessions other)
    /\ Py.keys after = Py.keys sessions.
Proof.
  intros sessions session_id op after. split; [|split].
  - apply session_op_unknown.
  - intros other. apply session_op_frame.
  - apply session_op_keys.
Qed.

(** X23. Status transitions of an existing session: update keeps the status
    and stores the value, pause gives "paused", resume gives "active",
    complete gives "completed" with the result, fail gives "failed" with the
    error message.  None of them is guarded by the current status, so a
    completed or failed session can be resumed to "active". *)
Theorem session_status_transitions :
  forall (sessions : SessionService.t) (session_id : string)
         (op : Spec.SessionOp) (s : SessionService.Session),
    SessionService.get_session sessions session_id = Some s ->
    SessionService.get_session
      (Spec.apply_session_op sessions session_id op) session_id
    = Some
        {| SessionService.id := SessionService.id s;
           SessionService.status :=
             match op with
             | Spec.Update _ => SessionService.status s
             | Spec.Pause => "paused"
             | Spec.Resume => "active"
             | Spec.Complete _ => "completed"
             | Spec.Fail _ => "failed"
             end;
           SessionService.data :=
             match op with
             | Spec.Update value =>
                 SessionService.put value (SessionService.data s)
             | _ => SessionService.data s
             end;
           SessionService.result :=
             match op with
             | Spec.Complete final => Some final
             | _ => SessionService.result s
             end;
           SessionService.error :=
             match op with
             | Spec.Fail err => Some err
             | _ => SessionService.error s
             end |}.
Proof.
  unfold SessionService.get_session. intros sessions session_id op s Hs.
  destruct op; simpl;
    unfold SessionService.update_session, SessionService.pause_session,
      SessionService.resume_session, SessionService.complete_session,
      SessionService.fail_session;
    rewrite Hs; apply dict_get_set_same.
Qed.

Lemma session_status_transitions_witness :
  option_map SessionService.status
    (SessionService.get_session
       (Spec.apply_session_op
          (SessionService.fail_session
             (SessionService.create_session [] "5f0c") "5f0c" "boom")
          "5f0c" Spec.Resume)
       "5f0c")
  = Some "active".
Proof.
  exact (f_equal (option_map SessionService.status)
           (session_status_transitions
              (SessionService.fail_session
                 (SessionService.create_session [] "5f0c") "5f0c" "boom")
              "5f0c" Spec.Resume _ eq_refl)).
Defined.

(** ** OrchestratorAgent: the successful run, resuming, merged input *)

Section RunFacts.

Lemma planner_execute_build (catalog : list Recipe.t) (use_real_llm : bool)
    (llm : PlannerAgent.LlmOutcome) (context : PlannerAgent.Context) :
  exists preferences,
    PlannerAgent.meal_plan
      (PlannerAgent.execute catalog use_real_llm llm context)
    = Spec.build catalog Profile.empty preferences.
Proof.
  unfold PlannerAgent.execute.
  destruct use_real_llm, llm; eexists; reflexivity.
Qed.

Lemma planner_estimate (catalog : list Recipe.t) (use_real_llm : bool)
    (llm : PlannerAgent.LlmOutcome) (context : PlannerAgent.Context) :
  PlannerAgent.estimated_daily_calories
    (PlannerAgent.execute catalog use_real_llm llm context)
  = 3000%Q.
Proof.
  unfold PlannerAgent.execute. destruct use_real_llm, llm; reflexivity.
Qed.

Lemma scheduled_keys (catalog : list Recipe.t) (use_real_llm : bool)
    (llm : PlannerAgent.LlmOutcome) (context : PlannerAgent.Context)
    (user_profile : Profile.t) :
  Py.keys
    (SchedulerAgent.scheduled_plan
       (SchedulerAgent.execute
          (Spec.schedule_context
             (PlannerAgent.meal_plan
                (PlannerAgent.execute catalog use_real_llm llm context))
             user_profile)))
  = PlannerAgent.days.
Proof.
  destruct (planner_execute_build catalog use_real_llm llm context)
    as [preferences E].
  rewrite E. unfold SchedulerAgent.execute, Spec.schedule_context.
  cbn [SchedulerAgent.scheduled_plan SchedulerAgent.meal_plan
         SchedulerAgent.user_profile Py.get].
  rewrite schedule_by_day.
  - rewrite build_by_day. reflexivity.
  - rewrite build_by_day. exact days_nodup.
Qed.

(** The session of a successful run, read back. *)
Lemma completed_session (sessions : SessionService.t) (uuid : string)
    (c : SessionService.Context) (p : WeekPlan)
    (v : NutritionVerifierAgent.Result) (s : SchedulerAgent.Result)
    (final : PlanRecord.t) :
  SessionService.get_session
    (SessionService.complete_session
       (SessionService.update_session
          (SessionService.update_session
             (SessionService.update_session
                (SessionService.update_session
                   (SessionService.create_session sessions uuid) uuid
                   (SessionService.VContext c))
                uuid (SessionService.VMealPlan p))
             uuid (SessionService.VVerification v))
          uuid (SessionService.VSchedule s))
       uuid final)
    uuid
  = Some
      {| SessionService.id := uuid;
         SessionService.status := "completed";
         SessionService.data :=
           SessionService.mkSessionData (Some c) (Some p) (Some v) (Some s);
         SessionService.result := Some final;
         SessionService.error := None |}.
Proof.
  unfold SessionService.get_session, SessionService.complete_session,
    SessionService.update_session, SessionService.create_session.
  repeat (rewrite dict_get_set_same; cbn [SessionService.id
            SessionService.status SessionService.data SessionService.result
            SessionService.error SessionService.put SessionService.context
            SessionService.meal_plan SessionService.verification
            SessionService.schedule]).
  reflexivity.
Qed.

End RunFacts.

Section RunOutcomes.

Lemma truthy_update_true (p q : Profile.t) :
  Profile.truthy p = true \/ Profile.truthy q = true ->
  Profile.truthy (Profile.update p q) = true.
Proof.
  unfold Profile.truthy, Profile.update. cbn [Profile.name Profile.age
    Profile.height_cm Profile.weight_kg Profile.goal Profile.activity_level
    Profile.wake_time Profile.sleep_time].
  rewrite !override_has, !orb_true_iff. tauto.
Qed.

(** What a run with a non-empty merged profile returns and leaves behind. *)
Lemma run_with_profile (self : OrchestratorAgent.t)
    (env : OrchestratorAgent.Env)
    (user_input : option OrchestratorAgent.UserInput) :
  Profile.truthy
    (Profile.update
       (MemoryBank.get_user_profile (OrchestratorAgent.memory_bank self))
       (Spec.input_profile user_input)) = true ->
  exists final_result after,
    OrchestratorAgent.create_meal_plan self env user_input
    = (after, OrchestratorAgent.Returned final_result)
    /\ PlanRecord.plan_id final_result
       = ("plan_" ++ OrchestratorAgent.now_plan_stamp env)%string
    /\ PlanRecord.session_id final_result = OrchestratorAgent.uuid4 env
    /\ PlanRecord.user final_result
       = Py.get
           (Profile.name
              (Profile.update
                 (MemoryBank.get_user_profile
                    (OrchestratorAgent.memory_bank self))
                 (Spec.input_profile user_input)))
           "User"
    /\ PlanRecord.estimated_daily_calories final_result = 3000%Q
    /\ Py.keys (PlanRecord.days final_result) = PlannerAgent.days
    /\ MemoryBank.get_history (OrchestratorAgent.memory_bank after)
       = MemoryBank.get_history (OrchestratorAgent.memory_bank self)
         ++ [{| MemoryBank.date := OrchestratorAgent.now_date env;
                MemoryBank.plan_id := PlanRecord.plan_id final_result;
                MemoryBank.success_rate :=
                  if PlanRecord.passed (PlanRecord.verification final_result)
                  then 1.0 else 0.8 |}]
    /\ MemoryBank.file (OrchestratorAgent.memory_bank after)
       = MemoryBank.data (OrchestratorAgent.memory_bank after)
    /\ exists s,
         SessionService.get_session (OrchestratorAgent.session_service after)
           (OrchestratorAgent.uuid4 env)
         = Some s
         /\ SessionService.status s = "completed"
         /\ SessionService.result s = Some final_result.
Proof.
  intros Hmerged. unfold OrchestratorAgent.create_meal_plan. cbv zeta.
  destruct (OrchestratorAgent.input_truthy user_input) eqn:Et.
  - destruct user_input as [ui|]; [|discriminate].
    cbn [Py.get Spec.input_profile] in *.
    match goal with
    | |- context [negb (Profile.truthy ?p)] =>
        replace (Profile.truthy p) with true by (symmetry; exact Hmerged)
    end.
    cbn [negb]. do 2 eexists. split; [reflexivity|].
    split; [reflexivity|]. split; [reflexivity|]. split; [reflexivity|].
    cbn [PlanRecord.days PlanRecord.estimated_daily_calories].
    split; [apply planner_estimate|].
    split; [exact (scheduled_keys _ _ _ _ _)|].
    split; [reflexivity|]. split; [reflexivity|].
    eexists. split; [apply completed_session|]. split; reflexivity.
  - assert (Hstored : Profile.truthy
                        (MemoryBank.get_user_profile
                           (OrchestratorAgent.memory_bank self)) = true).
    { destruct user_input as [[[pr|] [pf|]]|]; try discriminate Et;
        exact Hmerged. }
    assert (Hname : Profile.name
                      (Profile.update
                         (MemoryBank.get_user_profile
                            (OrchestratorAgent.memory_bank self))
                         (Spec.input_profile user_input))
                    = Profile.name
                        (MemoryBank.get_user_profile
                           (OrchestratorAgent.memory_bank self))).
    { destruct user_input as [[[pr|] [pf|]]|]; try discriminate Et;
        reflexivity. }
    rewrite Hname.
    match goal with
    | |- context [negb (Profile.truthy ?p)] =>
        replace (Profile.truthy p) with true by (symmetry; exact Hstored)
    end.
    cbn [negb]. do 2 eexists. split; [reflexivity|].
    split; [reflexivity|]. split; [reflexivity|]. split; [reflexivity|].
    cbn [PlanRecord.days PlanRecord.estimated_daily_calories].
    split; [apply planner_estimate|].
    split; [exact (scheduled_keys _ _ _ _ _)|].
    split; [reflexivity|]. split; [reflexivity|].
    eexists. split; [apply completed_session|]. split; reflexivity.
Qed.

End RunOutcomes.

(** X24. With a non-empty profile (stored, passed in, or both merged)
    [create_meal_plan] returns a plan record: its id is "plan_" followed by
    the clock stamp, its user is the profile name or "User", its estimate is
    3000, its days are the seven weekdays in order; exactly one history
    entry is appended, with success rate 1.0 when verification passed and
    0.8 otherwise, and saved to the memory file; the session of the run is
    "completed" and holds the returned record. *)
Theorem run_returns_plan_record :
  forall (self : OrchestratorAgent.t) (env : OrchestratorAgent.Env)
         (user_input : option OrchestratorAgent.UserInput),
    let merged :=
      Profile.update
        (MemoryBank.get_user_profile (OrchestratorAgent.memory_bank self))
        (Spec.input_profile user_input) in
    Profile.truthy merged = true ->
    let after := fst (OrchestratorAgent.create_meal_plan self env user_input) in
    exists final_result,
      snd (OrchestratorAgent.create_meal_plan self env user_input)
      = OrchestratorAgent.Returned final_result
      /\ PlanRecord.plan_id final_result
         = ("plan_" ++ OrchestratorAgent.now_plan_stamp env)%string
      /\ PlanRecord.user final_result = Py.get (Profile.name merged) "User"
      /\ PlanRecord.estimated_daily_calories final_result = 3000%Q
      /\ Py.keys (PlanRecord.days final_result)
         = ["Monday"; "Tuesday"; "Wednesday"; "Thursday"; "Friday";
            "Saturday"; "Sunday"]
      /\ MemoryBank.get_history (OrchestratorAgent.memory_bank after)
         = MemoryBank.get_history (OrchestratorAgent.memory_bank self)
           ++ [{| MemoryBank.date := OrchestratorAgent.now_date env;
                  MemoryBank.plan_id := PlanRecord.plan_id final_result;
                  MemoryBank.success_rate :=
                    if PlanRecord.passed
                         (PlanRecord.verification final_result)
                    then 1.0 else 0.8 |}]
      /\ MemoryBank.file (OrchestratorAgent.memory_bank after)
         = MemoryBank.data (OrchestratorAgent.memory_bank after)
      /\ exists s,
           SessionService.get_session
             (OrchestratorAgent.session_service after)
             (OrchestratorAgent.uuid4 env)
           = Some s
           /\ SessionService.status s = "completed"
           /\ SessionService.result s = Some final_result.
Proof.
  intros self env user_input merged Hmerged after.
  destruct (run_with_profile self env user_input Hmerged)
    as [r [after' [Hrun [Hid [_ [Huser [Hest [Hdays [Hhist [Hfile Hs]]]]]]]]]].
  unfold after. rewrite Hrun. cbn [fst snd].
  exists r. auto 10.
Qed.

Lemma run_returns_plan_record_witness :
  exists final_result,
    snd (OrchestratorAgent.create_meal_plan Example.fresh_orchestrator
           Example.env
           (Some (OrchestratorAgent.mkUserInput
                    (Some Example.scenario_profile) None)))
    = OrchestratorAgent.Returned final_result
    /\ PlanRecord.plan_id final_result = "plan_20240101_120000"
    /\ PlanRecord.user final_result = "User".
Proof.
  destruct (run_returns_plan_record Example.fresh_orchestrator Example.env
              (Some (OrchestratorAgent.mkUserInput
                       (Some Example.scenario_profile) None))
              eq_refl)
    as [r [Hrun [Hid [Huser _]]]].
  exists r. split; [exact Hrun|]. split; [exact Hid | exact Huser].
Defined.

(** X25. A run never leaves its session active or paused: after
    [create_meal_plan], whatever its outcome, the session of the call is
    "completed" or "failed".  Hence [resume_session] on that session raises
    "Cannot resume session <id>" and changes nothing; so does resuming an
    unknown session id. *)
Theorem run_sessions_cannot_be_resumed :
  forall (self : OrchestratorAgent.t) (env env' : OrchestratorAgent.Env)
         (user_input : option OrchestratorAgent.UserInput),
    let after := fst (OrchestratorAgent.create_meal_plan self env user_input) in
    let session_id := OrchestratorAgent.uuid4 env in
    (exists s,
       OrchestratorAgent.get_session_state after session_id = Some s
       /\ (SessionService.status s = "completed"
           \/ SessionService.status s = "failed"))
    /\ OrchestratorAgent.resume_session after env' session_id
       = (after,
          OrchestratorAgent.Raised
            (OrchestratorAgent.ValueError
               ("Cannot resume session " ++ session_id)%string))
    /\ (forall unknown,
          OrchestratorAgent.get_session_state after unknown = None ->
          OrchestratorAgent.resume_session after env' unknown
          = (after,
             OrchestratorAgent.Raised
               (OrchestratorAgent.ValueError
                  ("Cannot resume session " ++ unknown)%string))).
Proof.
  intros self env env' user_input after session_id.
  assert (Hs : exists s,
             OrchestratorAgent.get_session_state after session_id = Some s
             /\ (SessionService.status s = "completed"
                 \/ SessionService.status s = "failed")).
  { unfold after, session_id, OrchestratorAgent.get_session_state.
    destruct (Profile.truthy
                (MemoryBank.get_user_profile
                   (OrchestratorAgent.memory_bank self))) eqn:Ep;
      [|destruct (Profile.truthy (Spec.input_profile user_input)) eqn:Ei].
    - destruct (run_with_profile self env user_input
                  (truthy_update_true _ _ (or_introl Ep)))
        as [r [a [Hrun [_ [_ [_ [_ [_ [_ [_ [s [Hget [Hst _]]]]]]]]]]]]].
      rewrite Hrun. exists s. auto.
    - destruct (run_with_profile self env user_input
                  (truthy_update_true _ _ (or_intror Ei)))
        as [r [a [Hrun [_ [_ [_ [_ [_ [_ [_ [s [Hget [Hst _]]]]]]]]]]]]].
      rewrite Hrun. exists s. auto.
    - destruct (create_meal_plan_empty_profile self env user_input Ep Ei)
        as [mb [Hrun _]].
      rewrite Hrun. cbn [fst OrchestratorAgent.session_service].
      destruct (failed_session (OrchestratorAgent.session_service self)
                  (OrchestratorAgent.uuid4 env)
                  "User profile not found. Please set up profile first.")
        as [s [Hget [Hst _]]].
      exists s. auto. }
  split; [exact Hs|]. split.
  - destruct Hs as [s [Hget Hst]].
    unfold OrchestratorAgent.resume_session.
    unfold OrchestratorAgent.get_session_state in Hget. rewrite Hget.
    destruct Hst as [Hst|Hst]; rewrite Hst; reflexivity.
  - intros unknown Hnone. unfold OrchestratorAgent.resume_session.
    unfold OrchestratorAgent.get_session_state in Hnone.
    now rewrite Hnone.
Qed.

Section MergeFacts.

Lemma profile_update_empty (p : Profile.t) : Profile.update p Profile.empty = p.
Proof. destruct p; reflexivity. Qed.

Lemma preferences_update_empty (p : Preferences.t) :
  Preferences.update p Preferences.empty = p.
Proof. destruct p; reflexivity. Qed.

(** The memory bank that a run leaves behind: the input merged in place,
    and one history entry added and saved when the run goes through. *)
Lemma memory_after_run (self : OrchestratorAgent.t)
    (env : OrchestratorAgent.Env)
    (user_input : option OrchestratorAgent.UserInput) :
  let merged :=
    MemoryBank.update_in_place (OrchestratorAgent.memory_bank self)
      (Spec.input_profile user_input) (Spec.input_preferences user_input) in
  let after :=
    OrchestratorAgent.memory_bank
      (fst (OrchestratorAgent.create_meal_plan self env user_input)) in
  if Profile.truthy (MemoryBank.get_user_profile merged)
  then exists today plan_id success_rate,
      MemoryBank.data after
      = MemoryBank.data
          (MemoryBank.add_plan_to_history merged today plan_id success_rate)
      /\ MemoryBank.file after = MemoryBank.data after
  else MemoryBank.data after = MemoryBank.data merged
       /\ MemoryBank.file after
          = MemoryBank.file (OrchestratorAgent.memory_bank self).
Proof.
  intros merged after.
  assert (Hin : OrchestratorAgent.input_truthy user_input = false ->
                MemoryBank.data merged
                = MemoryBank.data (OrchestratorAgent.memory_bank self)).
  { intros Et. unfold merged, MemoryBank.update_in_place.
    destruct user_input as [[[pr|] [pf|]]|]; try discriminate Et;
      cbn [Spec.input_profile Spec.input_preferences Py.get
             OrchestratorAgent.profile OrchestratorAgent.preferences
             MemoryBank.data];
      rewrite profile_update_empty, preferences_update_empty;
      destruct (MemoryBank.data (OrchestratorAgent.memory_bank self));
      reflexivity. }
  destruct (Profile.truthy (MemoryBank.get_user_profile merged)) eqn:Em.
  - unfold after, OrchestratorAgent.create_meal_plan. cbv zeta.
    destruct (OrchestratorAgent.input_truthy user_input) eqn:Et.
    + destruct user_input as [ui|]; [|discriminate].
      cbn [Py.get].
      match goal with
      | |- context [negb (Profile.truthy ?p)] =>
          replace (Profile.truthy p) with true by (symmetry; exact Em)
      end.
      cbn [negb fst]. do 3 eexists. split; reflexivity.
    + specialize (Hin eq_refl).
      assert (Hs : Profile.truthy
                     (MemoryBank.get_user_profile
                        (OrchestratorAgent.memory_bank self)) = true).
      { unfold MemoryBank.get_user_profile in *. now rewrite <- Hin. }
      match goal with
      | |- context [negb (Profile.truthy ?p)] =>
          replace (Profile.truthy p) with true by (symmetry; exact Hs)
      end.
      cbn [negb fst]. do 3 eexists.
      split; [|reflexivity].
      unfold MemoryBank.add_plan_to_history, MemoryBank._save,
        OrchestratorAgent.with_memory, OrchestratorAgent.with_sessions.
      cbn [OrchestratorAgent.memory_bank MemoryBank.data].
      rewrite Hin. reflexivity.
  - unfold after, OrchestratorAgent.create_meal_plan. cbv zeta.
    destruct (OrchestratorAgent.input_truthy user_input) eqn:Et.
    + destruct user_input as [ui|]; [|discriminate].
      cbn [Py.get].
      match goal with
      | |- context [negb (Profile.truthy ?p)] =>
          replace (Profile.truthy p) with false by (symmetry; exact Em)
      end.
      cbn [negb fst]. split; reflexivity.
    + specialize (Hin eq_refl).
      assert (Hs : Profile.truthy
                     (MemoryBank.get_user_profile
                        (OrchestratorAgent.memory_bank self)) = false).
      { unfold MemoryBank.get_user_profile in *. now rewrite <- Hin. }
      match goal with
      | |- context [negb (Profile.truthy ?p)] =>
          replace (Profile.truthy p) with false by (symmetry; exact Hs)
      end.
      cbn [negb fst]. split; [|reflexivity].
      unfold OrchestratorAgent.handler, OrchestratorAgent.with_sessions.
      cbn [OrchestratorAgent.memory_bank]. now rewrite Hin.
Qed.

End MergeFacts.

(** X26. The caller's input is merged into the memory bank in place: after
    [create_meal_plan], whatever its outcome, the profile and preferences in
    memory are the stored ones overridden key by key by the input.  When the
    run succeeds this merge is saved to the memory file together with the
    new history entry; when it fails for lack of a profile, it stays in
    memory only and the file is as before. *)
Theorem user_input_is_merged_in_place :
  forall (self : OrchestratorAgent.t) (env : OrchestratorAgent.Env)
         (user_input : option OrchestratorAgent.UserInput),
    let before := OrchestratorAgent.memory_bank self in
    let after :=
      OrchestratorAgent.memory_bank
        (fst (OrchestratorAgent.create_meal_plan self env user_input)) in
    let merged :=
      Profile.update (MemoryBank.get_user_profile before)
        (Spec.input_profile user_input) in
    MemoryBank.get_user_profile after = merged
    /\ MemoryBank.get_preferences after
       = Preferences.update (MemoryBank.get_preferences before)
           (Spec.input_preferences user_input)
    /\ MemoryBank.get_pantry after = MemoryBank.get_pantry before
    /\ (Profile.truthy merged = true ->
        MemoryBank.file after = MemoryBank.data after)
    /\ (Profile.truthy merged = false ->
        MemoryBank.file after = MemoryBank.file before).
Proof.
  intros self env user_input before after merged.
  pose proof (memory_after_run self env user_input) as H.
  cbv zeta in H. fold after in H. fold before in H.
  change (Profile.truthy
            (MemoryBank.get_user_profile
               (MemoryBank.update_in_place before
                  (Spec.input_profile user_input)
                  (Spec.input_preferences user_input))))
    with (Profile.truthy merged) in H.
  unfold MemoryBank.get_user_profile, MemoryBank.get_preferences,
    MemoryBank.get_pantry.
  destruct (Profile.truthy merged) eqn:Em.
  - destruct H as [today [plan_id [rate [Hdata Hfile]]]].
    rewrite Hdata. repeat split; try reflexivity.
    + intros _. now rewrite Hfile, Hdata.
    + discriminate.
  - destruct H as [Hdata Hfile].
    rewrite Hdata. repeat split; try reflexivity.
    + discriminate.
    + intros _. exact Hfile.
Qed.

(** A failed run that was given preferences: they are in memory afterwards,
    not in the file. *)
Example failed_run_keeps_input_preferences :
  let after :=
    OrchestratorAgent.memory_bank
      (fst (OrchestratorAgent.create_meal_plan Example.fresh_orchestrator
              Example.env
              (Some (OrchestratorAgent.mkUserInput None
                       (Some Example.nut_allergy))))) in
  Preferences.allergies (MemoryBank.preferences (MemoryBank.data after))
  = Some ["nuts"]
  /\ Preferences.allergies (MemoryBank.preferences (MemoryBank.file after))
     = None.
Proof. split; reflexivity. Qed.

(** X27. The set-up flow of the demo and the command line: once a non-empty
    profile has been stored with set_user_profile (and preferences with
    set_preferences), [create_meal_plan] without input does not raise; it
    returns a record for that profile's name, with the seven weekdays, and
    the history grows by one entry. *)
Theorem stored_profile_then_plan :
  forall (self : OrchestratorAgent.t) (env : OrchestratorAgent.Env)
         (profile : Profile.t) (preferences : Preferences.t),
    Profile.truthy profile = true ->
    let ready :=
      OrchestratorAgent.with_memory self
        (MemoryBank.set_preferences
           (MemoryBank.set_user_profile (OrchestratorAgent.memory_bank self)
              profile)
           preferences) in
    exists final_result,
      snd (OrchestratorAgent.create_meal_plan ready env None)
      = OrchestratorAgent.Returned final_result
      /\ PlanRecord.user final_result = Py.get (Profile.name profile) "User"
      /\ Py.keys (PlanRecord.days final_result) = PlannerAgent.days
      /\ List.length
           (MemoryBank.get_history
              (OrchestratorAgent.memory_bank
                 (fst (OrchestratorAgent.create_meal_plan ready env None))))
         = S (List.length
                (MemoryBank.get_history (OrchestratorAgent.memory_bank self))).
Proof.
  intros self env profile preferences Hp ready.
  assert (Hm : Profile.truthy
                 (Profile.update
                    (MemoryBank.get_user_profile
                       (OrchestratorAgent.memory_bank ready))
                    (Spec.input_profile None)) = true).
  { apply truthy_update_true. left. exact Hp. }
  destruct (run_with_profile ready env None Hm)
    as [r [after [Hrun [_ [_ [Huser [_ [Hdays [Hhist _]]]]]]]]].
  rewrite Hrun. cbn [fst snd]. exists r.
  split; [reflexivity|]. split; [|split; [exact Hdays|]].
  - rewrite Huser. reflexivity.
  - assert (Hh : MemoryBank.get_history (OrchestratorAgent.memory_bank ready)
                 = MemoryBank.get_history (OrchestratorAgent.memory_bank self))
      by reflexivity.
    rewrite Hhist, length_app, Hh. cbn [List.length]. lia.
Qed.

Lemma stored_profile_then_plan_witness :
  exists final_result,
    snd (OrchestratorAgent.create_meal_plan
           (OrchestratorAgent.with_memory Example.fresh_orchestrator
              (MemoryBank.set_preferences
                 (MemoryBank.set_user_profile
                    (OrchestratorAgent.memory_bank Example.fresh_orchestrator)
                    Example.scenario_profile)
                 Example.nut_allergy))
           Example.env None)
    = OrchestratorAgent.Returned final_result
    /\ PlanRecord.user final_result = "User".
Proof.
  destruct (stored_profile_then_plan Example.fresh_orchestrator Example.env
              Example.scenario_profile Example.nut_allergy eq_refl)
    as [r [Hrun [Huser _]]].
  exists r. split; [exact Hrun | exact Huser].
Defined.

(** ** Logger: metric summaries *)

Section MetricFacts.









End MetricFacts.



Section TrackFacts.

Definition point_of (call : Spec.Track) : Logger.MetricPoint :=
  {| Logger.timestamp := Spec.track_now call;
     Logger.value := Spec.track_value call;
     Logger.metadata := Py.get (Spec.track_metadata call) [] |}.

Definition points_of (metric_name : string) (calls : list Spec.Track)
    : list Logger.MetricPoint :=
  map point_of
    (filter (fun call => String.eqb (Spec.track_name call) metric_name) calls).

Lemma track_get (self : Logger.t) (call : Spec.Track) (name : string) :
  Py.dict_get (Logger.metrics (Spec.track self call)) name
  = match Py.dict_get (Logger.metrics self) name with
    | Some points => Some (points ++ points_of name [call])
    | None => None
    end.
Proof.
  unfold Spec.track, Logger.track_metric, points_of.
  cbn [Logger.metrics filter].
  destruct (String.eqb_spec (Spec.track_name call) name) as [E|Hne].
  - rewrite E.
    destruct (Py.dict_get (Logger.metrics self) name) as [points|] eqn:Ep.
    + rewrite dict_get_set_same. reflexivity.
    + exact Ep.
  - assert (Hother : Py.dict_get
                       match Py.dict_get (Logger.metrics self)
                               (Spec.track_name call) with
                       | Some points =>
                           Py.dict_set (Logger.metrics self)
                             (Spec.track_name call)
                             (points
                                ++ [{| Logger.timestamp := Spec.track_now call;
                                       Logger.value := Spec.track_value call;
                                       Logger.metadata :=
                                         Py.get (Spec.track_metadata call)
                                           [] |}])
                       | None => Logger.metrics self
                       end name
                     = Py.dict_get (Logger.metrics self) name).
    { destruct (Py.dict_get (Logger.metrics self) (Spec.track_name call));
        [|reflexivity].
      apply dict_get_set_other. congruence. }
    rewrite Hother.
    destruct (Py.dict_get (Logger.metrics self) name); [|reflexivity].
    simpl. now rewrite app_nil_r.
Qed.

Lemma tracks_get (calls : list Spec.Track) (self : Logger.t) (name : string) :
  Py.dict_get (Logger.metrics (fold_left Spec.track calls self)) name
  = match Py.dict_get (Logger.metrics self) name with
    | Some points => Some (points ++ points_of name calls)
    | None => None
    end.
Proof.
  revert self. induction calls as [|call calls IH]; intros self; simpl.
  - destruct (Py.dict_get (Logger.metrics self) name); [|reflexivity].
    unfold points_of. simpl. now rewrite app_nil_r.
  - rewrite IH, track_get.
    destruct (Py.dict_get (Logger.metrics self) name); [|reflexivity].
    rewrite <- app_assoc. unfold points_of. rewrite <- map_app.
    rewrite <- filter_app. reflexivity.
Qed.

Lemma track_keys (self : Logger.t) (call : Spec.Track) :
  Py.keys (Logger.metrics (Spec.track self call))
  = Py.keys (Logger.metrics self).
Proof.
  unfold Spec.track, Logger.track_metric. cbn [Logger.metrics].
  destruct (Py.dict_get (Logger.metrics self) (Spec.track_name call))
    eqn:E; [|reflexivity].
  rewrite keys_dict_set.
  destruct (Py.str_in (Spec.track_name call) (Py.keys (Logger.metrics self)))
    eqn:Ein; [reflexivity|].
  apply str_in_false_iff, dict_get_none_iff in Ein. congruence.
Qed.

Lemma tracks_keys (calls : list Spec.Track) (self : Logger.t) :
  Py.keys (Logger.metrics (fold_left Spec.track calls self))
  = Py.keys (Logger.metrics self).
Proof.
  revert self. induction calls as [|call calls IH]; intros self; simpl.
  - reflexivity.
  - now rewrite IH, track_keys.
Qed.

Lemma tracks_file (calls : list Spec.Track) (self : Logger.t) :
  List.length (Logger.metrics_file (fold_left Spec.track calls self))
  = (List.length (Logger.metrics_file self)
     + List.length (filter Spec.track_write_ok calls))%nat.
Proof.
  revert self. induction calls as [|call calls IH]; intros self; simpl.
  - lia.
  - rewrite IH. unfold Spec.track, Logger.track_metric.
    cbn [Logger.metrics_file].
    destruct (Spec.track_write_ok call); simpl; [|lia].
    rewrite length_app. simpl. lia.
Qed.

(** The summary, looked up by metric name. *)
Lemma summary_lookup (self : Logger.t) (name : string) :
  NoDup (Py.keys (Logger.metrics self)) ->
  Py.dict_get (Logger.get_metrics_summary self) name
  = match Py.dict_get (Logger.metrics self) name with
    | Some (p :: ps) => Some (Logger.summarise (map Logger.value (p :: ps)))
    | _ => None
    end.
Proof.
  unfold Logger.get_metrics_summary.
  assert (H : forall l acc,
             NoDup (Py.keys l) ->
             Py.dict_get
               (fold_left
                  (fun summary '(metric_name, values) =>
                     match values with
                     | [] => summary
                     | _ :: _ =>
                         Py.dict_set summary metric_name
                           (Logger.summarise (map Logger.value values))
                     end)
                  l acc) name
             = match Py.dict_get l name with
               | Some (p :: ps) =>
                   Some (Logger.summarise (map Logger.value (p :: ps)))
               | _ => Py.dict_get acc name
               end).
  { induction l as [|[k vs] l IH]; intros acc Hnd; [reflexivity|].
    inversion Hnd as [|? ? Hfresh Hnd']; subst.
    cbn [fold_left Py.dict_get]. rewrite (IH _ Hnd').
    destruct (String.eqb_spec name k) as [E|Hne].
    - subst k. apply dict_get_none_iff in Hfresh. rewrite Hfresh.
      destruct vs as [|p ps]; [reflexivity | apply dict_get_set_same].
    - destruct (Py.dict_get l name) as [[|p ps]|]; try reflexivity;
        destruct vs as [|q qs]; try reflexivity;
        now apply dict_get_set_other. }
  intros Hnd. rewrite (H _ [] Hnd).
  destruct (Py.dict_get (Logger.metrics self) name) as [[|p ps]|];
    reflexivity.
Qed.

End TrackFacts.

(** X29. Starting from freshly initialised metrics, after any sequence of
    [track_metric] calls the summary has an entry exactly for those of the
    three known metrics that were tracked at least once, computed from the
    values tracked under that name in call order.  Values tracked under any
    other name are never summarised, although every call whose write goes
    through adds a row to the metrics file. *)
Theorem summary_of_tracked_metrics :
  forall (self : Logger.t) (calls : list Spec.Track) (metric_name : string),
    let logger := fold_left Spec.track calls (Logger._init_metrics self) in
    Py.dict_get (Logger.get_metrics_summary logger) metric_name
    = (if Py.str_in metric_name Spec.known_metrics
       then match Spec.tracked_values metric_name calls with
            | [] => None
            | first :: rest => Some (Logger.summarise (first :: rest))
            end
       else None)
    /\ List.length (Logger.metrics_file logger)
       = (List.length (Logger.metrics_file self)
          + List.length (filter Spec.track_write_ok calls))%nat.
Proof.
  intros self calls metric_name logger. split.
  - unfold logger. rewrite summary_lookup.
    + rewrite tracks_get.
      assert (Hinit : Py.dict_get
                        (Logger.metrics (Logger._init_metrics self))
                        metric_name
                      = if Py.str_in metric_name Spec.known_metrics
                        then Some [] else None).
      { unfold Logger._init_metrics, Spec.known_metrics, Py.str_in.
        cbn [Logger.metrics Py.dict_get existsb].
        destruct (String.eqb metric_name "plan_generation_time");
          [reflexivity|].
        destruct (String.eqb metric_name "verifier_pass_rate");
          [reflexivity|].
        destruct (String.eqb metric_name "agent_execution_time");
          reflexivity. }
      rewrite Hinit.
      destruct (Py.str_in metric_name Spec.known_metrics); [|reflexivity].
      cbn [app]. unfold Spec.tracked_values, points_of.
      destruct (filter _ calls) as [|call rest]; reflexivity ||
        (cbn [map]; rewrite map_map; reflexivity).
    + rewrite tracks_keys. unfold Logger._init_metrics.
      cbn [Logger.metrics]. repeat constructor; simpl; intuition discriminate.
  - unfold logger. now rewrite tracks_file.
Qed.

(** Two pass rates and one unknown metric: only the pass rates are
    summarised. *)
Example summary_ignores_unknown_metric :
  Logger.get_metrics_summary
    (fold_left Spec.track
       [Spec.mkTrack "t1" true "verifier_pass_rate" 1 "" None;
        Spec.mkTrack "t2" true "shopping_items" 12 "" None;
        Spec.mkTrack "t3" true "verifier_pass_rate" 0 "" None]
       (Logger._init_metrics (Logger.mk [] [])))
  = [("verifier_pass_rate", Logger.mkSummary 2 (1 / 2) 0 1)].
Proof. reflexivity. Qed.
